(** * Bill splitting: session store, split engine and receipt validator

    A shallow embedding of the Python backend
    ([app/services/session_manager.py], [app/routes/sessions.py],
    [app/services/receipt_parser.py], [app/routes/receipts.py],
    [app/models/schemas.py]) and the properties of its specification.

    Conventions of the embedding:
    - a Python [float] is a binary64 value, here Rocq's primitive [float];
      a Python [int] is a [Z]; arithmetic that mixes both follows Python's
      numeric tower ([pynum]), including the [OverflowError] of the
      int-to-float coercion;
    - an exception is a value of [result]; the HTTP layer maps it to a
      status code;
    - [datetime.now()], [uuid.uuid4()] and [random.choices] are inputs of
      the operation that calls them (one reading per call);
    - the insertion-ordered dict [sessions] is an association list, because
      the store iterates over [sessions.values()]; [sessions_by_code] and
      [receipts] are only ever read by key and are finite maps. *)

From Stdlib Require Import Floats.
From Stdlib Require Import ZArith NArith List String Ascii Bool Lia.
From Stdlib.Strings Require Import Byte.
From Stdlib Require Import DecimalString.
From stdpp Require Import base option list gmap strings.

Open Scope string_scope.
Open Scope list_scope.
Open Scope Z_scope.

(** ** Exceptions *)

Inductive exn :=
| OverflowError        (* int too large to convert to float *)
| ZeroDivisionError
| KeyError
| TypeError
| AttributeError
| ValueError
| HTTPException (status : Z).

Inductive result (A : Type) :=
| Ok (a : A)
| Raise (e : exn).
Arguments Ok {A} a.
Arguments Raise {A} e.

Definition rbind {A B} (r : result A) (k : A -> result B) : result B :=
  match r with
  | Ok a => k a
  | Raise e => Raise e
  end.

Notation "x <-- r ;; k" := (rbind r (fun x => k))
  (at level 100, r at next level, right associativity).

Definition HTTP_400_BAD_REQUEST := 400.
Definition HTTP_404_NOT_FOUND := 404.
Definition HTTP_500_INTERNAL_SERVER_ERROR := 500.

(** ** Python numbers *)

Inductive pynum :=
| PInt (z : Z)
| PFloat (f : float).

(** [float(n)] for an int [n]: the nearest binary64 value (ties to even);
    CPython raises [OverflowError] when that value would be infinite. *)
Definition float_of_int (z : Z) : result float :=
  let f := SF2Prim (binary_normalize prec emax z 0 false) in
  if is_infinity f then Raise OverflowError else Ok f.

(** The literal [0.02] (nearest binary64 value, written in hexadecimal so
    that it is read exactly). *)
Definition tolerance : float := 0x1.47ae147ae147bp-6%float.

Definition py_add (a b : pynum) : result pynum :=
  match a, b with
  | PInt x, PInt y => Ok (PInt (x + y))
  | PInt x, PFloat y => fx <-- float_of_int x ;; Ok (PFloat (fx + y)%float)
  | PFloat x, PInt y => fy <-- float_of_int y ;; Ok (PFloat (x + fy)%float)
  | PFloat x, PFloat y => Ok (PFloat (x + y)%float)
  end.

Definition py_sub (a b : pynum) : result pynum :=
  match a, b with
  | PInt x, PInt y => Ok (PInt (x - y))
  | PInt x, PFloat y => fx <-- float_of_int x ;; Ok (PFloat (fx - y)%float)
  | PFloat x, PInt y => fy <-- float_of_int y ;; Ok (PFloat (x - fy)%float)
  | PFloat x, PFloat y => Ok (PFloat (x - y)%float)
  end.

Definition py_mul (a b : pynum) : result pynum :=
  match a, b with
  | PInt x, PInt y => Ok (PInt (x * y))
  | PInt x, PFloat y => fx <-- float_of_int x ;; Ok (PFloat (fx * y)%float)
  | PFloat x, PInt y => fy <-- float_of_int y ;; Ok (PFloat (x * fy)%float)
  | PFloat x, PFloat y => Ok (PFloat (x * y)%float)
  end.

(** [abs(x)] *)
Definition py_abs (a : pynum) : pynum :=
  match a with
  | PInt x => PInt (Z.abs x)
  | PFloat x => PFloat (PrimFloat.abs x)
  end.

(** Python compares an int with a float exactly, without coercion:
    [None] when the float is a NaN. *)
Definition Z_compare_float (n : Z) (f : float) : option comparison :=
  match Prim2SF f with
  | S754_nan => None
  | S754_infinity s => Some (if s then Gt else Lt)
  | S754_zero _ => Some (n ?= 0)
  | S754_finite s m e =>
      let v := if s then Z.neg m else Z.pos m in
      if 0 <=? e then Some (n ?= v * 2 ^ e) else Some (n * 2 ^ (- e) ?= v)
  end.

(** [a > b] *)
Definition py_gt (a b : pynum) : bool :=
  match a, b with
  | PInt x, PInt y => x >? y
  | PFloat x, PFloat y => (y <? x)%float
  | PInt x, PFloat y =>
      match Z_compare_float x y with Some Gt => true | _ => false end
  | PFloat x, PInt y =>
      match Z_compare_float y x with Some Lt => true | _ => false end
  end.

(** Truth value of a number: [x != 0]. *)
Definition float_truthy (f : float) : bool := negb (f =? 0)%float.

Definition py_truthy (a : pynum) : bool :=
  match a with
  | PInt x => negb (x =? 0)
  | PFloat x => float_truthy x
  end.

(** [x or d] where [x] may be [None]. *)
Definition py_or (x : option pynum) (d : pynum) : pynum :=
  match x with
  | Some v => if py_truthy v then v else d
  | None => d
  end.

(** [sum(f(x) for x in xs)]: the generator is consumed element by element,
    each value added to the running total, which starts at the int [0]. *)
Fixpoint sum_gen_from {A} (f : A -> result pynum) (acc : pynum) (xs : list A)
  : result pynum :=
  match xs with
  | [] => Ok acc
  | x :: xs' =>
      v <-- f x ;;
      acc' <-- py_add acc v ;;
      sum_gen_from f acc' xs'
  end.

Definition py_sum_gen {A} (f : A -> result pynum) (xs : list A) : result pynum :=
  sum_gen_from f (PInt 0) xs.

(** [x or d] on an optional float and on an optional int, as the routes use
    them with a default of the same type. *)
Definition float_or (x : option float) (d : float) : float :=
  match x with
  | Some v => if float_truthy v then v else d
  | None => d
  end.

Definition int_or (x : option Z) (d : Z) : Z :=
  match x with
  | Some v => if negb (v =? 0) then v else d
  | None => d
  end.

(** ** Formatted text

    An f-string is kept as the sequence of its parts: literal text, a value
    rendered by [str()] and a value rendered with the [.2f] format. *)

Inductive fragment :=
| Lit (s : string)
| Repr (x : pynum)
| Fixed2 (x : pynum).

Definition message := list fragment.

(** [format(x, '.2f')]: the exact binary value rounded to the nearest
    hundredth, ties to even, printed with two decimals; the sign of a
    negative zero is kept; an int is first converted to a float. *)
Definition hundredths (m : positive) (e : Z) : Z :=
  if 0 <=? e then Z.pos m * 100 * 2 ^ e
  else
    let den := 2 ^ (- e) in
    let q := (Z.pos m * 100) / den in
    let r := (Z.pos m * 100) mod den in
    match 2 * r ?= den with
    | Lt => q
    | Gt => q + 1
    | Eq => if Z.even q then q else q + 1
    end.

Definition decimal (z : Z) : string :=
  NilZero.string_of_uint (N.to_uint (Z.to_N z)).

Definition fixed2_of_hundredths (negative : bool) (h : Z) : string :=
  ((if negative then "-" else "") ++ decimal (h / 100) ++ "." ++
   decimal (h mod 100 / 10) ++ decimal (h mod 10))%string.

Definition float_format_2f (f : float) : string :=
  match Prim2SF f with
  | S754_nan => "nan"
  | S754_infinity s => if s then "-inf" else "inf"
  | S754_zero s => fixed2_of_hundredths s 0
  | S754_finite s m e => fixed2_of_hundredths s (hundredths m e)
  end.

Definition format_2f (x : pynum) : result string :=
  match x with
  | PInt z => f <-- float_of_int z ;; Ok (float_format_2f f)
  | PFloat f => Ok (float_format_2f f)
  end.

(** ** Schemas ([app/models/schemas.py])

    One module per class, so that the fields keep their names. A [datetime]
    is a number of clock ticks. *)

Definition datetime := Z.

Inductive PaymentStatus := pending | paid | settled.
Inductive SessionStatus := active | completed | cancelled.

Module BillItemCreate.
Record t := mk {
  name : string;
  price : float;
  quantity : Z;
  category : option string;
  lineNumber : Z
}.
End BillItemCreate.

Module BillItem.
Record t := mk {
  name : string;
  price : float;
  quantity : Z;
  category : option string;
  lineNumber : Z;
  id : string;
  sessionId : string
}.
End BillItem.

Module ItemAssignmentCreate.
Record t := mk {
  itemId : string;
  participantId : string;
  splitPercentage : float;
  amount : float
}.
End ItemAssignmentCreate.

Module ItemAssignment.
Record t := mk {
  itemId : string;
  participantId : string;
  splitPercentage : float;
  amount : float;
  id : string
}.
End ItemAssignment.

Module ParticipantCreate.
Record t := mk {
  userId : option string;
  guestName : option string;
  amountOwed : float;
  amountPaid : float;
  paymentStatus : PaymentStatus
}.
End ParticipantCreate.

Module Participant.
Record t := mk {
  userId : option string;
  guestName : option string;
  amountOwed : float;
  amountPaid : float;
  paymentStatus : PaymentStatus;
  id : string;
  sessionId : string;
  joinedAt : datetime
}.
End Participant.

Module SessionCreate.
Record t := mk {
  restaurantName : option string;
  receiptImageUrl : option string;
  subtotal : float;
  tax : float;
  tip : float;
  total : float
}.
End SessionCreate.

Module Session.
Record t := mk {
  restaurantName : option string;
  receiptImageUrl : option string;
  subtotal : float;
  tax : float;
  tip : float;
  total : float;
  id : string;
  sessionCode : string;
  createdBy : option string;
  status : SessionStatus;
  createdAt : datetime;
  updatedAt : datetime;
  items : list BillItem.t;
  participants : list Participant.t;
  assignments : list ItemAssignment.t
}.
End Session.

Module Receipt.
Record t := mk {
  id : string;
  restaurantName : option string;
  items : list BillItemCreate.t;
  subtotal : option float;
  tax : option float;
  tip : option float;
  total : option float;
  confidence : option string
}.
End Receipt.

Module AssignItemRequest.
Record t := mk {
  itemId : string;
  participantIds : list string;
  splitEqually : bool
}.
End AssignItemRequest.

Module JoinSessionRequest.
Record t := mk {
  sessionCode : string;
  guestName : option string
}.
End JoinSessionRequest.

Module JoinSessionResponse.
Record t := mk {
  session : Session.t;
  participant : Participant.t
}.
End JoinSessionResponse.

Module UploadReceiptResponse.
Record t := mk {
  receiptId : string;
  imageUrl : string
}.
End UploadReceiptResponse.

(** ** Receipt validation ([app/services/receipt_parser.py])

    [receipt_data] is the dict the vision model's JSON is read into, at the
    types the parser's prompt and the schemas give its fields: money and
    prices are floats (a JSON number in such a field is taken as a float),
    quantities are ints, [items] is a list, and every other field may be
    [null]. A missing key and a [null] behave alike for every field but an
    item's [name], whose [None] means the key is absent. *)

Module ReceiptParser.

Record receipt_item := mk_item {
  name : option string;
  price : option float;
  quantity : option Z
}.

Record validation := mk_validation {
  is_valid : bool;
  issues : list message;
  warnings : list message
}.

Record receipt_data := mk_receipt {
  restaurant_name : option string;
  items : list receipt_item;
  subtotal : option float;
  tax : option float;
  tip : option float;
  total : option float;
  confidence : option string
}.

(** The dict [parse_receipt] returns and the routes store: the parsed
    fields with the ['validation'] entry attached. *)
Record parsed_receipt := mk_parsed {
  data : receipt_data;
  validation_block : validation
}.

Definition no_items_msg : message := [Lit "No items found in receipt"].

Definition no_total_msg : message := [Lit "No total found"].

(** f"Math doesn't add up: {subtotal} + {tax} + {tip or 0} =
    {calculated_total}, but total is {total} (difference: ${difference:.2f})" *)
Definition math_msg (subtotal tax : float) (tip : option float)
    (calculated_total total difference : float) : message :=
  [ Lit "Math doesn't add up: "; Repr (PFloat subtotal); Lit " + ";
    Repr (PFloat tax); Lit " + ";
    Repr (py_or (option_map PFloat tip) (PInt 0)); Lit " = ";
    Repr (PFloat calculated_total); Lit ", but total is ";
    Repr (PFloat total); Lit " (difference: $"; Fixed2 (PFloat difference);
    Lit ")" ].

(** f"Items sum (${items_sum:.2f}) doesn't match subtotal (${subtotal:.2f}).
    Some items may be missing or incorrect." *)
Definition items_msg (items_sum : pynum) (subtotal : float) : message :=
  [ Lit "Items sum ($"; Fixed2 items_sum; Lit ") doesn't match subtotal ($";
    Fixed2 (PFloat subtotal);
    Lit "). Some items may be missing or incorrect." ].

(** [if tip:] *)
Definition tip_truthy (tip : option float) : bool :=
  match tip with
  | Some v => float_truthy v
  | None => false
  end.

(** Lines 230-240: the check of subtotal + tax + tip against total. *)
Definition calculated_total (subtotal tax : float) (tip : option float) : float :=
  let calculated_total := (subtotal + tax)%float in
  match tip with
  | Some v => if float_truthy v then (calculated_total + v)%float
              else calculated_total
  | None => calculated_total
  end.

Definition math_check (subtotal tax tip total : option float)
    (issues : list message) : list message :=
  match subtotal, tax, total with
  | Some s, Some t, Some tot =>
      let calc := calculated_total s t tip in
      let difference := PrimFloat.abs (calc - tot) in
      if (tolerance <? difference)%float
      then issues ++ [math_msg s t tip calc tot difference]
      else issues
  | _, _, _ => issues
  end.

(** [(item.get('price') or 0) * (item.get('quantity') or 1)] *)
Definition line_total (item : receipt_item) : result pynum :=
  py_mul (py_or (option_map PFloat (price item)) (PInt 0))
         (py_or (option_map PInt (quantity item)) (PInt 1)).

(** Lines 243-250: the check of the items' sum against the subtotal. *)
Definition items_check (items : list receipt_item) (subtotal : option float)
    (warnings : list message) : result (list message) :=
  match items, subtotal with
  | _ :: _, Some s =>
      items_sum <-- py_sum_gen line_total items ;;
      d <-- py_sub items_sum (PFloat s) ;;
      let difference := py_abs d in
      if py_gt difference (PFloat tolerance)
      then Ok (warnings ++ [items_msg items_sum s])
      else Ok warnings
  | _, _ => Ok warnings
  end.

Definition _validate_receipt (receipt_data : receipt_data) : result validation :=
  let issues : list message := [] in
  let warnings : list message := [] in
  let items := items receipt_data in
  let subtotal := subtotal receipt_data in
  let tax := tax receipt_data in
  let tip := tip receipt_data in
  let total := total receipt_data in
  let issues :=
    match items with
    | [] => issues ++ [no_items_msg]
    | _ :: _ => issues
    end in
  let warnings :=
    match total with
    | None => warnings ++ [no_total_msg]
    | Some _ => warnings
    end in
  let issues := math_check subtotal tax tip total issues in
  warnings <-- items_check items subtotal warnings ;;
  Ok {| is_valid := (length issues =? 0)%nat;
        issues := issues;
        warnings := warnings |}.

(** [receipt_data['validation'] = self._validate_receipt(receipt_data)] *)
Definition attach_validation (raw : receipt_data) : result parsed_receipt :=
  v <-- _validate_receipt raw ;;
  Ok (mk_parsed raw v).

(** Every quantity is an int that converts to a float (Python requires an
    absolute value below 2^1024 for [float * int]). *)
Definition quantities_fit (items : list receipt_item) : Prop :=
  Forall (fun item => exists q,
            float_of_int (int_or (quantity item) 1) = Ok q) items.

(** The values a sum of line totals can take here: the int [0] or a float. *)
Definition is_int0_or_float (x : pynum) : Prop :=
  x = PInt 0 \/ exists f, x = PFloat f.


(** [data.startswith(prefix)] on bytes *)
Fixpoint bytes_startswith (prefix data : list byte) : bool :=
  match prefix, data with
  | [], _ => true
  | p :: prefix', b :: data' => Byte.eqb p b && bytes_startswith prefix' data'
  | _ :: _, [] => false
  end.

(** [needle in data] on bytes: [needle] occurs at some offset of [data]. *)
Fixpoint bytes_contains (needle data : list byte) : bool :=
  bytes_startswith needle data ||
  match data with
  | [] => false
  | _ :: data' => bytes_contains needle data'
  end.

(** b'\xff\xd8\xff', b'\x89PNG', b'RIFF', b'WEBP' *)
Definition JPEG_MAGIC : list byte := [xff; xd8; xff].
Definition PNG_MAGIC : list byte := [x89; x50; x4e; x47].
Definition RIFF_MAGIC : list byte := [x52; x49; x46; x46].
Definition WEBP_MAGIC : list byte := [x57; x45; x42; x50].

(** [_detect_media_type]: the image format from the magic bytes, JPEG when
    none is recognised. *)
Definition _detect_media_type (image_data : list byte) : string :=
  if bytes_startswith JPEG_MAGIC image_data then "image/jpeg"
  else if bytes_startswith PNG_MAGIC image_data then "image/png"
  else if bytes_startswith RIFF_MAGIC image_data
          && bytes_contains WEBP_MAGIC (firstn 12 image_data)
  then "image/webp"
  else "image/jpeg".

End ReceiptParser.

(** ** Attribute assignment

    [setattr(obj, key, value)] on a schema object replaces one field. The
    update dict of the generic update operations is the list of its entries
    in iteration order; an entry is given at the declared type of the
    attribute it names, and [Other key] is an entry whose key names no
    attribute of the object ([hasattr] is false). The attributes are the
    declared fields of the class. *)

Module BillItemAttr.
Import BillItem.

Definition set_name (v : string) (o : t) : t :=
  mk v (price o) (quantity o) (category o) (lineNumber o) (id o) (sessionId
     o).

Definition set_price (v : float) (o : t) : t :=
  mk (name o) v (quantity o) (category o) (lineNumber o) (id o) (sessionId o).

Definition set_quantity (v : Z) (o : t) : t :=
  mk (name o) (price o) v (category o) (lineNumber o) (id o) (sessionId o).

Definition set_category (v : option string) (o : t) : t :=
  mk (name o) (price o) (quantity o) v (lineNumber o) (id o) (sessionId o).

Definition set_lineNumber (v : Z) (o : t) : t :=
  mk (name o) (price o) (quantity o) (category o) v (id o) (sessionId o).

Definition set_id (v : string) (o : t) : t :=
  mk (name o) (price o) (quantity o) (category o) (lineNumber o) v
     (sessionId o).

Definition set_sessionId (v : string) (o : t) : t :=
  mk (name o) (price o) (quantity o) (category o) (lineNumber o) (id o) v.

Inductive update :=
| Set_name (v : string)
| Set_price (v : float)
| Set_quantity (v : Z)
| Set_category (v : option string)
| Set_lineNumber (v : Z)
| Set_id (v : string)
| Set_sessionId (v : string)
| Other (key : string).

Definition key (u : update) : string :=
  match u with
  | Set_name _ => "name"
  | Set_price _ => "price"
  | Set_quantity _ => "quantity"
  | Set_category _ => "category"
  | Set_lineNumber _ => "lineNumber"
  | Set_id _ => "id"
  | Set_sessionId _ => "sessionId"
  | Other k => k
  end.

Definition hasattr (u : update) : bool :=
  match u with
  | Other _ => false
  | _ => true
  end.

Definition setattr (u : update) (o : t) : t :=
  match u with
  | Set_name v => set_name v o
  | Set_price v => set_price v o
  | Set_quantity v => set_quantity v o
  | Set_category v => set_category v o
  | Set_lineNumber v => set_lineNumber v o
  | Set_id v => set_id v o
  | Set_sessionId v => set_sessionId v o
  | Other _ => o
  end.

(** [for key, value in updates.items(): if hasattr(o, key): setattr(o, key, value)] *)
Definition apply_updates (updates : list update) (o : t) : t :=
  fold_left (fun o u => if hasattr u then setattr u o else o) updates o.

(** The attribute named by the entry holds the entry's value. *)
Definition holds (u : update) (o : t) : Prop :=
  match u with
  | Set_name v => name o = v
  | Set_price v => price o = v
  | Set_quantity v => quantity o = v
  | Set_category v => category o = v
  | Set_lineNumber v => lineNumber o = v
  | Set_id v => id o = v
  | Set_sessionId v => sessionId o = v
  | Other _ => True
  end.

End BillItemAttr.

Module ItemAssignmentAttr.
Import ItemAssignment.

Definition set_itemId (v : string) (o : t) : t :=
  mk v (participantId o) (splitPercentage o) (amount o) (id o).

Definition set_participantId (v : string) (o : t) : t :=
  mk (itemId o) v (splitPercentage o) (amount o) (id o).

Definition set_splitPercentage (v : float) (o : t) : t :=
  mk (itemId o) (participantId o) v (amount o) (id o).

Definition set_amount (v : float) (o : t) : t :=
  mk (itemId o) (participantId o) (splitPercentage o) v (id o).

Definition set_id (v : string) (o : t) : t :=
  mk (itemId o) (participantId o) (splitPercentage o) (amount o) v.

Inductive update :=
| Set_itemId (v : string)
| Set_participantId (v : string)
| Set_splitPercentage (v : float)
| Set_amount (v : float)
| Set_id (v : string)
| Other (key : string).

Definition key (u : update) : string :=
  match u with
  | Set_itemId _ => "itemId"
  | Set_participantId _ => "participantId"
  | Set_splitPercentage _ => "splitPercentage"
  | Set_amount _ => "amount"
  | Set_id _ => "id"
  | Other k => k
  end.

Definition hasattr (u : update) : bool :=
  match u with
  | Other _ => false
  | _ => true
  end.

Definition setattr (u : update) (o : t) : t :=
  match u with
  | Set_itemId v => set_itemId v o
  | Set_participantId v => set_participantId v o
  | Set_splitPercentage v => set_splitPercentage v o
  | Set_amount v => set_amount v o
  | Set_id v => set_id v o
  | Other _ => o
  end.

(** [for key, value in updates.items(): if hasattr(o, key): setattr(o, key, value)] *)
Definition apply_updates (updates : list update) (o : t) : t :=
  fold_left (fun o u => if hasattr u then setattr u o else o) updates o.

(** The attribute named by the entry holds the entry's value. *)
Definition holds (u : update) (o : t) : Prop :=
  match u with
  | Set_itemId v => itemId o = v
  | Set_participantId v => participantId o = v
  | Set_splitPercentage v => splitPercentage o = v
  | Set_amount v => amount o = v
  | Set_id v => id o = v
  | Other _ => True
  end.

End ItemAssignmentAttr.

Module ParticipantAttr.
Import Participant.

Definition set_userId (v : option string) (o : t) : t :=
  mk v (guestName o) (amountOwed o) (amountPaid o) (paymentStatus o) (id o)
     (sessionId o) (joinedAt o).

Definition set_guestName (v : option string) (o : t) : t :=
  mk (userId o) v (amountOwed o) (amountPaid o) (paymentStatus o) (id o)
     (sessionId o) (joinedAt o).

Definition set_amountOwed (v : float) (o : t) : t :=
  mk (userId o) (guestName o) v (amountPaid o) (paymentStatus o) (id o)
     (sessionId o) (joinedAt o).

Definition set_amountPaid (v : float) (o : t) : t :=
  mk (userId o) (guestName o) (amountOwed o) v (paymentStatus o) (id o)
     (sessionId o) (joinedAt o).

Definition set_paymentStatus (v : PaymentStatus) (o : t) : t :=
  mk (userId o) (guestName o) (amountOwed o) (amountPaid o) v (id o)
     (sessionId o) (joinedAt o).

Definition set_id (v : string) (o : t) : t :=
  mk (userId o) (guestName o) (amountOwed o) (amountPaid o) (paymentStatus
     o) v (sessionId o) (joinedAt o).

Definition set_sessionId (v : string) (o : t) : t :=
  mk (userId o) (guestName o) (amountOwed o) (amountPaid o) (paymentStatus
     o) (id o) v (joinedAt o).

Definition set_joinedAt (v : datetime) (o : t) : t :=
  mk (userId o) (guestName o) (amountOwed o) (amountPaid o) (paymentStatus
     o) (id o) (sessionId o) v.

Inductive update :=
| Set_userId (v : option string)
| Set_guestName (v : option string)
| Set_amountOwed (v : float)
| Set_amountPaid (v : float)
| Set_paymentStatus (v : PaymentStatus)
| Set_id (v : string)
| Set_sessionId (v : string)
| Set_joinedAt (v : datetime)
| Other (key : string).

Definition key (u : update) : string :=
  match u with
  | Set_userId _ => "userId"
  | Set_guestName _ => "guestName"
  | Set_amountOwed _ => "amountOwed"
  | Set_amountPaid _ => "amountPaid"
  | Set_paymentStatus _ => "paymentStatus"
  | Set_id _ => "id"
  | Set_sessionId _ => "sessionId"
  | Set_joinedAt _ => "joinedAt"
  | Other k => k
  end.

Definition hasattr (u : update) : bool :=
  match u with
  | Other _ => false
  | _ => true
  end.

Definition setattr (u : update) (o : t) : t :=
  match u with
  | Set_userId v => set_userId v o
  | Set_guestName v => set_guestName v o
  | Set_amountOwed v => set_amountOwed v o
  | Set_amountPaid v => set_amountPaid v o
  | Set_paymentStatus v => set_paymentStatus v o
  | Set_id v => set_id v o
  | Set_sessionId v => set_sessionId v o
  | Set_joinedAt v => set_joinedAt v o
  | Other _ => o
  end.

(** [for key, value in updates.items(): if hasattr(o, key): setattr(o, key, value)] *)
Definition apply_updates (updates : list update) (o : t) : t :=
  fold_left (fun o u => if hasattr u then setattr u o else o) updates o.

(** The attribute named by the entry holds the entry's value. *)
Definition holds (u : update) (o : t) : Prop :=
  match u with
  | Set_userId v => userId o = v
  | Set_guestName v => guestName o = v
  | Set_amountOwed v => amountOwed o = v
  | Set_amountPaid v => amountPaid o = v
  | Set_paymentStatus v => paymentStatus o = v
  | Set_id v => id o = v
  | Set_sessionId v => sessionId o = v
  | Set_joinedAt v => joinedAt o = v
  | Other _ => True
  end.

End ParticipantAttr.

Module SessionAttr.
Import Session.

Definition set_restaurantName (v : option string) (o : t) : t :=
  mk v (receiptImageUrl o) (subtotal o) (tax o) (tip o) (total o) (id o)
     (sessionCode o) (createdBy o) (status o) (createdAt o) (updatedAt o)
     (items o) (participants o) (assignments o).

Definition set_receiptImageUrl (v : option string) (o : t) : t :=
  mk (restaurantName o) v (subtotal o) (tax o) (tip o) (total o) (id o)
     (sessionCode o) (createdBy o) (status o) (createdAt o) (updatedAt o)
     (items o) (participants o) (assignments o).

Definition set_subtotal (v : float) (o : t) : t :=
  mk (restaurantName o) (receiptImageUrl o) v (tax o) (tip o) (total o) (id
     o) (sessionCode o) (createdBy o) (status o) (createdAt o) (updatedAt o)
     (items o) (participants o) (assignments o).

Definition set_tax (v : float) (o : t) : t :=
  mk (restaurantName o) (receiptImageUrl o) (subtotal o) v (tip o) (total o)
     (id o) (sessionCode o) (createdBy o) (status o) (createdAt o)
     (updatedAt o) (items o) (participants o) (assignments o).

Definition set_tip (v : float) (o : t) : t :=
  mk (restaurantName o) (receiptImageUrl o) (subtotal o) (tax o) v (total o)
     (id o) (sessionCode o) (createdBy o) (status o) (createdAt o)
     (updatedAt o) (items o) (participants o) (assignments o).

Definition set_total (v : float) (o : t) : t :=
  mk (restaurantName o) (receiptImageUrl o) (subtotal o) (tax o) (tip o) v
     (id o) (sessionCode o) (createdBy o) (status o) (createdAt o)
     (updatedAt o) (items o) (participants o) (assignments o).

Definition set_id (v : string) (o : t) : t :=
  mk (restaurantName o) (receiptImageUrl o) (subtotal o) (tax o) (tip o)
     (total o) v (sessionCode o) (createdBy o) (status o) (createdAt o)
     (updatedAt o) (items o) (participants o) (assignments o).

Definition set_sessionCode (v : string) (o : t) : t :=
  mk (restaurantName o) (receiptImageUrl o) (subtotal o) (tax o) (tip o)
     (total o) (id o) v (createdBy o) (status o) (createdAt o) (updatedAt o)
     (items o) (participants o) (assignments o).

Definition set_createdBy (v : option string) (o : t) : t :=
  mk (restaurantName o) (receiptImageUrl o) (subtotal o) (tax o) (tip o)
     (total o) (id o) (sessionCode o) v (status o) (createdAt o) (updatedAt
     o) (items o) (participants o) (assignments o).

Definition set_status (v : SessionStatus) (o : t) : t :=
  mk (restaurantName o) (receiptImageUrl o) (subtotal o) (tax o) (tip o)
     (total o) (id o) (sessionCode o) (createdBy o) v (createdAt o)
     (updatedAt o) (items o) (participants o) (assignments o).

Definition set_createdAt (v : datetime) (o : t) : t :=
  mk (restaurantName o) (receiptImageUrl o) (subtotal o) (tax o) (tip o)
     (total o) (id o) (sessionCode o) (createdBy o) (status o) v (updatedAt
     o) (items o) (participants o) (assignments o).

Definition set_updatedAt (v : datetime) (o : t) : t :=
  mk (restaurantName o) (receiptImageUrl o) (subtotal o) (tax o) (tip o)
     (total o) (id o) (sessionCode o) (createdBy o) (status o) (createdAt o)
     v (items o) (participants o) (assignments o).

Definition set_items (v : list BillItem.t) (o : t) : t :=
  mk (restaurantName o) (receiptImageUrl o) (subtotal o) (tax o) (tip o)
     (total o) (id o) (sessionCode o) (createdBy o) (status o) (createdAt o)
     (updatedAt o) v (participants o) (assignments o).

Definition set_participants (v : list Participant.t) (o : t) : t :=
  mk (restaurantName o) (receiptImageUrl o) (subtotal o) (tax o) (tip o)
     (total o) (id o) (sessionCode o) (createdBy o) (status o) (createdAt o)
     (updatedAt o) (items o) v (assignments o).

Definition set_assignments (v : list ItemAssignment.t) (o : t) : t :=
  mk (restaurantName o) (receiptImageUrl o) (subtotal o) (tax o) (tip o)
     (total o) (id o) (sessionCode o) (createdBy o) (status o) (createdAt o)
     (updatedAt o) (items o) (participants o) v.

Inductive update :=
| Set_restaurantName (v : option string)
| Set_receiptImageUrl (v : option string)
| Set_subtotal (v : float)
| Set_tax (v : float)
| Set_tip (v : float)
| Set_total (v : float)
| Set_id (v : string)
| Set_sessionCode (v : string)
| Set_createdBy (v : option string)
| Set_status (v : SessionStatus)
| Set_createdAt (v : datetime)
| Set_updatedAt (v : datetime)
| Set_items (v : list BillItem.t)
| Set_participants (v : list Participant.t)
| Set_assignments (v : list ItemAssignment.t)
| Other (key : string).

Definition key (u : update) : string :=
  match u with
  | Set_restaurantName _ => "restaurantName"
  | Set_receiptImageUrl _ => "receiptImageUrl"
  | Set_subtotal _ => "subtotal"
  | Set_tax _ => "tax"
  | Set_tip _ => "tip"
  | Set_total _ => "total"
  | Set_id _ => "id"
  | Set_sessionCode _ => "sessionCode"
  | Set_createdBy _ => "createdBy"
  | Set_status _ => "status"
  | Set_createdAt _ => "createdAt"
  | Set_updatedAt _ => "updatedAt"
  | Set_items _ => "items"
  | Set_participants _ => "participants"
  | Set_assignments _ => "assignments"
  | Other k => k
  end.

Definition hasattr (u : update) : bool :=
  match u with
  | Other _ => false
  | _ => true
  end.

Definition setattr (u : update) (o : t) : t :=
  match u with
  | Set_restaurantName v => set_restaurantName v o
  | Set_receiptImageUrl v => set_receiptImageUrl v o
  | Set_subtotal v => set_subtotal v o
  | Set_tax v => set_tax v o
  | Set_tip v => set_tip v o
  | Set_total v => set_total v o
  | Set_id v => set_id v o
  | Set_sessionCode v => set_sessionCode v o
  | Set_createdBy v => set_createdBy v o
  | Set_status v => set_status v o
  | Set_createdAt v => set_createdAt v o
  | Set_updatedAt v => set_updatedAt v o
  | Set_items v => set_items v o
  | Set_participants v => set_participants v o
  | Set_assignments v => set_assignments v o
  | Other _ => o
  end.

(** [for key, value in updates.items(): if hasattr(o, key): setattr(o, key, value)] *)
Definition apply_updates (updates : list update) (o : t) : t :=
  fold_left (fun o u => if hasattr u then setattr u o else o) updates o.

(** The attribute named by the entry holds the entry's value. *)
Definition holds (u : update) (o : t) : Prop :=
  match u with
  | Set_restaurantName v => restaurantName o = v
  | Set_receiptImageUrl v => receiptImageUrl o = v
  | Set_subtotal v => subtotal o = v
  | Set_tax v => tax o = v
  | Set_tip v => tip o = v
  | Set_total v => total o = v
  | Set_id v => id o = v
  | Set_sessionCode v => sessionCode o = v
  | Set_createdBy v => createdBy o = v
  | Set_status v => status o = v
  | Set_createdAt v => createdAt o = v
  | Set_updatedAt v => updatedAt o = v
  | Set_items v => items o = v
  | Set_participants v => participants o = v
  | Set_assignments v => assignments o = v
  | Other _ => True
  end.

End SessionAttr.

(** ** Python containers *)

(** An insertion-ordered [dict] with [str] keys. *)
Definition dict (V : Type) := list (string * V).

Fixpoint dict_get {V} (k : string) (d : dict V) : option V :=
  match d with
  | [] => None
  | (k', v) :: d' => if String.eqb k' k then Some v else dict_get k d'
  end.

(** [d[k] = v]: an existing key keeps its position, a new one goes last. *)
Fixpoint dict_set {V} (k : string) (v : V) (d : dict V) : dict V :=
  match d with
  | [] => [(k, v)]
  | (k', v') :: d' =>
      if String.eqb k' k then (k', v) :: d' else (k', v') :: dict_set k v d'
  end.

(** [del d[k]] *)
Definition dict_del {V} (k : string) (d : dict V) : dict V :=
  List.filter (fun kv => negb (String.eqb (fst kv) k)) d.

Definition dict_values {V} (d : dict V) : list V := map snd d.

(** [for x in xs: if p(x): <mutate x in place>; return x] *)
Fixpoint alter_first {A} (p : A -> bool) (f : A -> A) (xs : list A)
  : option (A * list A) :=
  match xs with
  | [] => None
  | x :: xs' =>
      if p x then Some (f x, f x :: xs')
      else match alter_first p f xs' with
           | Some (y, ys) => Some (y, x :: ys)
           | None => None
           end
  end.

(** [for idx, x in enumerate(xs): if p(x): del xs[idx]; return True] *)
Fixpoint remove_first {A} (p : A -> bool) (xs : list A) : option (list A) :=
  match xs with
  | [] => None
  | x :: xs' =>
      if p x then Some xs'
      else match remove_first p xs' with
           | Some ys => Some (x :: ys)
           | None => None
           end
  end.

(** [for v in d.values(): <g finds something in v>; return it] *)
Fixpoint find_in_values {V R} (g : V -> option R) (d : dict V) : option R :=
  match d with
  | [] => None
  | (_, v) :: d' =>
      match g v with
      | Some r => Some r
      | None => find_in_values g d'
      end
  end.

(** [for v in d.values(): <g mutates v in place and returns>]: the first
    value on which [g] succeeds is replaced by the mutated one. *)
Fixpoint alter_in_values {V R} (g : V -> option (R * V)) (d : dict V)
  : option (R * dict V) :=
  match d with
  | [] => None
  | (k, v) :: d' =>
      match g v with
      | Some (r, v') => Some (r, (k, v') :: d')
      | None =>
          match alter_in_values g d' with
          | Some (r, d'') => Some (r, (k, v) :: d'')
          | None => None
          end
      end
  end.

(** ** Identifiers and session codes *)

Definition hex_digit (n : N) : ascii :=
  nth (N.to_nat (n mod 16)) (list_ascii_of_string "0123456789abcdef") "0"%char.

(** ['%0kx' % n] for [n < 16^k] *)
Fixpoint hex_fixed (k : nat) (n : N) : string :=
  match k with
  | O => ""
  | S k' => (hex_fixed k' (n / 16) ++ String (hex_digit n) "")%string
  end.

(** [uuid.uuid4()] on 128 random bits: version and variant bits are set. *)
Definition uuid4 (r : N) : N :=
  let int := (r mod 2 ^ 128)%N in
  let int := N.lor (N.ldiff int (N.shiftl 0xc000 48)) (N.shiftl 0x8000 48) in
  N.lor (N.ldiff int (N.shiftl 0xf000 64)) (N.shiftl 4 76).

(** [str(u)] for a UUID [u]: 8-4-4-4-12 hexadecimal digits. *)
Definition str_uuid (u : N) : string :=
  let hex := hex_fixed 32 u in
  (substring 0 8 hex ++ "-" ++ substring 8 4 hex ++ "-" ++
   substring 12 4 hex ++ "-" ++ substring 16 4 hex ++ "-" ++
   substring 20 12 hex)%string.

(** [string.ascii_uppercase + string.digits] *)
Definition population : list ascii :=
  list_ascii_of_string "ABCDEFGHIJKLMNOPQRSTUVWXYZ0123456789".

(** The random source is a stream of picks; pick [i] selects
    [population[i mod len(population)]]. [random.choices(population, k=k)]
    consumes [k] picks from position [pos]. *)
Definition pick (i : nat) : ascii :=
  nth (i mod length population)%nat population "A"%char.

Definition choices (rng : nat -> nat) (pos k : nat) : list ascii :=
  map (fun j => pick (rng (pos + j)%nat)) (seq 0 k).

(** [str.upper()] on ASCII text; other bytes are left as they are. *)
Definition upper_ascii (c : ascii) : ascii :=
  let n := nat_of_ascii c in
  if ((97 <=? n) && (n <=? 122))%nat then ascii_of_nat (n - 32) else c.

Fixpoint upper (s : string) : string :=
  match s with
  | EmptyString => EmptyString
  | String c s' => String (upper_ascii c) (upper s')
  end.

(** ** The session manager ([app/services/session_manager.py]) *)

Module SessionManager.

Import SessionAttr.

(** [receipts] holds the uploaded image under ["<id>_image"] and the parsed
    dict under ["<id>"]. *)
Inductive receipt_entry :=
| ImageData (bytes : list Byte.byte)
| Parsed (receipt_data : ReceiptParser.parsed_receipt).

Record t := mk {
  sessions : dict Session.t;
  sessions_by_code : gmap string string;
  receipts : gmap string receipt_entry
}.

(** [SessionManager()] *)
Definition __init__ : t :=
  {| sessions := []; sessions_by_code := ∅; receipts := ∅ |}.

Definition with_sessions (d : dict Session.t) (self : t) : t :=
  {| sessions := d;
     sessions_by_code := sessions_by_code self;
     receipts := receipts self |}.

(** [code not in self.sessions_by_code] *)
Definition code_is_free (self : t) (code : string) : bool :=
  match sessions_by_code self !! code with
  | None => true
  | Some _ => false
  end.

(** [_generate_session_code]: [fuel] bounds the iterations of [while True];
    [None] means the loop is still running after [fuel] draws. The result
    carries the position of the random source after the call. *)
Fixpoint _generate_session_code (fuel : nat) (rng : nat -> nat) (pos : nat)
    (self : t) : option (string * nat) :=
  match fuel with
  | O => None
  | S fuel' =>
      let code := string_of_list_ascii (choices rng pos 6) in
      if code_is_free self code then Some (code, (pos + 6)%nat)
      else _generate_session_code fuel' rng (pos + 6)%nat self
  end.

(** [_generate_id] on the 128 random bits [r] *)
Definition _generate_id (r : N) : string := str_uuid (uuid4 r).

Definition create_session (fuel : nat) (rng : nat -> nat) (pos : nat)
    (r : N) (now : datetime) (data : SessionCreate.t) (self : t)
  : option (Session.t * t * nat) :=
  let session_id := _generate_id r in
  match _generate_session_code fuel rng pos self with
  | None => None
  | Some (session_code, pos') =>
      let session :=
        Session.mk (SessionCreate.restaurantName data)
                   (SessionCreate.receiptImageUrl data)
                   (SessionCreate.subtotal data)
                   (SessionCreate.tax data)
                   (SessionCreate.tip data)
                   (SessionCreate.total data)
                   session_id session_code None active now now [] [] [] in
      Some (session,
            {| sessions := dict_set session_id session (sessions self);
               sessions_by_code :=
                 <[session_code := session_id]> (sessions_by_code self);
               receipts := receipts self |},
            pos')
  end.

Definition get_session (session_id : string) (self : t) : option Session.t :=
  dict_get session_id (sessions self).

(** [if session_id:] is false for [None] and for the empty string. *)
Definition get_session_by_code (session_code : string) (self : t)
  : option Session.t :=
  match sessions_by_code self !! session_code with
  | Some session_id =>
      if String.eqb session_id "" then None
      else dict_get session_id (sessions self)
  | None => None
  end.

Definition update_session (session_id : string) (updates : list update)
    (now : datetime) (self : t) : option Session.t * t :=
  match dict_get session_id (sessions self) with
  | None => (None, self)
  | Some session =>
      let session := apply_updates updates session in
      let session := set_updatedAt now session in
      (Some session,
       with_sessions (dict_set session_id session (sessions self)) self)
  end.

(** [del self.sessions_by_code[session.sessionCode]] raises [KeyError] when
    the code is not a key, after the session has been removed. *)
Definition delete_session (session_id : string) (self : t) : result bool * t :=
  match dict_get session_id (sessions self) with
  | None => (Ok false, self)
  | Some session =>
      let self := with_sessions (dict_del session_id (sessions self)) self in
      match sessions_by_code self !! Session.sessionCode session with
      | None => (Raise KeyError, self)
      | Some _ =>
          (Ok true,
           {| sessions := sessions self;
              sessions_by_code :=
                delete (Session.sessionCode session) (sessions_by_code self);
              receipts := receipts self |})
      end
  end.

(** The two clock readings are [joinedAt] and [updatedAt], in that order. *)
Definition add_participant (session_id : string) (r : N)
    (now_joined now : datetime) (data : ParticipantCreate.t) (self : t)
  : option Participant.t * t :=
  match dict_get session_id (sessions self) with
  | None => (None, self)
  | Some session =>
      let participant :=
        Participant.mk (ParticipantCreate.userId data)
                       (ParticipantCreate.guestName data)
                       (ParticipantCreate.amountOwed data)
                       (ParticipantCreate.amountPaid data)
                       (ParticipantCreate.paymentStatus data)
                       (_generate_id r) session_id now_joined in
      let session :=
        set_participants (Session.participants session ++ [participant])
                         session in
      let session := set_updatedAt now session in
      (Some participant,
       with_sessions (dict_set session_id session (sessions self)) self)
  end.

Definition get_participant (session_id participant_id : string) (self : t)
  : option Participant.t :=
  match dict_get session_id (sessions self) with
  | None => None
  | Some session =>
      find (fun p => String.eqb (Participant.id p) participant_id)
           (Session.participants session)
  end.

Definition update_participant (participant_id : string)
    (updates : list ParticipantAttr.update) (now : datetime) (self : t)
  : option Participant.t * t :=
  match alter_in_values
          (fun session =>
             match alter_first
                     (fun p => String.eqb (Participant.id p) participant_id)
                     (ParticipantAttr.apply_updates updates)
                     (Session.participants session) with
             | Some (participant, ps) =>
                 Some (participant,
                       set_updatedAt now (set_participants ps session))
             | None => None
             end)
          (sessions self) with
  | Some (participant, d) => (Some participant, with_sessions d self)
  | None => (None, self)
  end.

Definition add_item (session_id : string) (r : N) (now : datetime)
    (data : BillItemCreate.t) (self : t) : option BillItem.t * t :=
  match dict_get session_id (sessions self) with
  | None => (None, self)
  | Some session =>
      let item :=
        BillItem.mk (BillItemCreate.name data) (BillItemCreate.price data)
                    (BillItemCreate.quantity data)
                    (BillItemCreate.category data)
                    (BillItemCreate.lineNumber data)
                    (_generate_id r) session_id in
      let session := set_items (Session.items session ++ [item]) session in
      let session := set_updatedAt now session in
      (Some item,
       with_sessions (dict_set session_id session (sessions self)) self)
  end.

Definition get_item (item_id : string) (self : t) : option BillItem.t :=
  find_in_values
    (fun session =>
       find (fun item => String.eqb (BillItem.id item) item_id)
            (Session.items session))
    (sessions self).

Definition update_item (item_id : string) (updates : list BillItemAttr.update)
    (now : datetime) (self : t) : option BillItem.t * t :=
  match alter_in_values
          (fun session =>
             match alter_first
                     (fun item => String.eqb (BillItem.id item) item_id)
                     (BillItemAttr.apply_updates updates)
                     (Session.items session) with
             | Some (item, items) =>
                 Some (item, set_updatedAt now (set_items items session))
             | None => None
             end)
          (sessions self) with
  | Some (item, d) => (Some item, with_sessions d self)
  | None => (None, self)
  end.

Definition delete_item (item_id : string) (now : datetime) (self : t)
  : bool * t :=
  match alter_in_values
          (fun session =>
             match remove_first
                     (fun item => String.eqb (BillItem.id item) item_id)
                     (Session.items session) with
             | Some items =>
                 Some (tt, set_updatedAt now (set_items items session))
             | None => None
             end)
          (sessions self) with
  | Some (_, d) => (true, with_sessions d self)
  | None => (false, self)
  end.

Definition add_assignment (r : N) (now : datetime)
    (data : ItemAssignmentCreate.t) (self : t) : option ItemAssignment.t * t :=
  match get_item (ItemAssignmentCreate.itemId data) self with
  | None => (None, self)
  | Some item =>
      match dict_get (BillItem.sessionId item) (sessions self) with
      | None => (None, self)
      | Some session =>
          let assignment :=
            ItemAssignment.mk (ItemAssignmentCreate.itemId data)
                              (ItemAssignmentCreate.participantId data)
                              (ItemAssignmentCreate.splitPercentage data)
                              (ItemAssignmentCreate.amount data)
                              (_generate_id r) in
          let session :=
            set_assignments (Session.assignments session ++ [assignment])
                            session in
          let session := set_updatedAt now session in
          (Some assignment,
           with_sessions
             (dict_set (BillItem.sessionId item) session (sessions self))
             self)
      end
  end.

Definition delete_assignment (assignment_id : string) (now : datetime)
    (self : t) : bool * t :=
  match alter_in_values
          (fun session =>
             match remove_first
                     (fun a => String.eqb (ItemAssignment.id a) assignment_id)
                     (Session.assignments session) with
             | Some assignments =>
                 Some (tt,
                       set_updatedAt now (set_assignments assignments session))
             | None => None
             end)
          (sessions self) with
  | Some (_, d) => (true, with_sessions d self)
  | None => (false, self)
  end.

Definition store_receipt (receipt_id : string)
    (receipt_data : ReceiptParser.parsed_receipt) (self : t) : t :=
  {| sessions := sessions self;
     sessions_by_code := sessions_by_code self;
     receipts := <[receipt_id := Parsed receipt_data]> (receipts self) |}.

Definition get_receipt (receipt_id : string) (self : t) : option receipt_entry :=
  receipts self !! receipt_id.

End SessionManager.

(** ** Session routes ([app/routes/sessions.py]) *)

Module SessionsRoutes.

Import SessionManager.

(** GET /code/{session_code} *)
Definition get_session_by_code (session_code : string) (session_manager : t)
  : result Session.t :=
  match SessionManager.get_session_by_code (upper session_code)
          session_manager with
  | None => Raise (HTTPException HTTP_404_NOT_FOUND)
  | Some session => Ok session
  end.

(** True division of floats: [x / y] raises on a zero divisor. *)
Definition float_div (x y : float) : result float :=
  if (y =? 0)%float then Raise ZeroDivisionError else Ok (x / y)%float.

(** [1.0 / num_participants if data.splitEqually else 1.0] *)
Definition split_percentage (num_participants : nat) (splitEqually : bool)
  : result float :=
  if splitEqually then
    n <-- float_of_int (Z.of_nat num_participants) ;;
    float_div 1 n
  else Ok 1%float.

(** [(item.price * item.quantity) * split_percentage] *)
Definition amount_per_person (item : BillItem.t) (split_percentage : float)
  : result float :=
  q <-- float_of_int (BillItem.quantity item) ;;
  Ok ((BillItem.price item * q) * split_percentage)%float.

(** The loop of [assign_item]; iteration [i] reads [ids i] and [clock i]. *)
Fixpoint create_assignments (ids : nat -> N) (clock : nat -> datetime)
    (i : nat) (itemId : string) (participantIds : list string)
    (split_percentage amount : float) (assignments : list ItemAssignment.t)
    (session_manager : t) : list ItemAssignment.t * t :=
  match participantIds with
  | [] => (assignments, session_manager)
  | participant_id :: rest =>
      let assignment_data :=
        ItemAssignmentCreate.mk itemId participant_id split_percentage amount in
      match add_assignment (ids i) (clock i) assignment_data
              session_manager with
      | (Some assignment, session_manager) =>
          create_assignments ids clock (S i) itemId rest split_percentage
            amount (assignments ++ [assignment]) session_manager
      | (None, session_manager) =>
          create_assignments ids clock (S i) itemId rest split_percentage
            amount assignments session_manager
      end
  end.

(** POST /items/assign *)
Definition assign_item (ids : nat -> N) (clock : nat -> datetime)
    (data : AssignItemRequest.t) (session_manager : t)
  : result (list ItemAssignment.t) * t :=
  match get_item (AssignItemRequest.itemId data) session_manager with
  | None => (Raise (HTTPException HTTP_404_NOT_FOUND), session_manager)
  | Some item =>
      let num_participants := length (AssignItemRequest.participantIds data) in
      if (num_participants =? 0)%nat
      then (Raise (HTTPException HTTP_400_BAD_REQUEST), session_manager)
      else
        match (sp <-- split_percentage num_participants
                        (AssignItemRequest.splitEqually data) ;;
               amount <-- amount_per_person item sp ;;
               Ok (sp, amount)) with
        | Raise e => (Raise e, session_manager)
        | Ok (sp, amount) =>
            let (assignments, session_manager) :=
              create_assignments ids clock 0 (AssignItemRequest.itemId data)
                (AssignItemRequest.participantIds data) sp amount []
                session_manager in
            (Ok assignments, session_manager)
        end
  end.

(** PUT /assignments/{assignment_id} *)
Definition update_assignment (assignment_id : string)
    (updates : list ItemAssignmentAttr.update) (session_manager : t)
  : result ItemAssignment.t * t :=
  match alter_in_values
          (fun session =>
             match alter_first
                     (fun a => String.eqb (ItemAssignment.id a) assignment_id)
                     (ItemAssignmentAttr.apply_updates updates)
                     (Session.assignments session) with
             | Some (assignment, assignments) =>
                 Some (assignment,
                       SessionAttr.set_assignments assignments session)
             | None => None
             end)
          (sessions session_manager) with
  | Some (assignment, d) => (Ok assignment, with_sessions d session_manager)
  | None => (Raise (HTTPException HTTP_404_NOT_FOUND), session_manager)
  end.

(** POST /join. [ParticipantCreate(guestName=...)] takes the defaults of the
    schema for the other fields. [add_participant] is called with the
    [id] attribute of the session found; the session of the response is
    the object found by the code, as it is after that call. A [None]
    participant does not validate as a response ([ValidationError], a
    [ValueError]). *)
Definition join_session (data : JoinSessionRequest.t) (r : N)
    (now_joined now : datetime) (session_manager : t)
  : result JoinSessionResponse.t * t :=
  let code := upper (JoinSessionRequest.sessionCode data) in
  match SessionManager.get_session_by_code code session_manager with
  | None => (Raise (HTTPException HTTP_404_NOT_FOUND), session_manager)
  | Some session =>
      let participant_data :=
        ParticipantCreate.mk None (JoinSessionRequest.guestName data) 0 0
          pending in
      match add_participant (Session.id session) r now_joined now
              participant_data session_manager with
      | (Some participant, session_manager) =>
          let session :=
            match SessionManager.get_session_by_code code session_manager with
            | Some session => session
            | None => session
            end in
          (Ok (JoinSessionResponse.mk session participant), session_manager)
      | (None, session_manager) => (Raise ValueError, session_manager)
      end
  end.

(** POST /{session_id}/complete *)
Definition complete_session (session_id : string) (now : datetime)
    (session_manager : t) : result Session.t * t :=
  match update_session session_id [SessionAttr.Set_status completed] now
          session_manager with
  | (Some session, session_manager) => (Ok session, session_manager)
  | (None, session_manager) =>
      (Raise (HTTPException HTTP_404_NOT_FOUND), session_manager)
  end.

(** POST /participants/{participant_id}/mark-paid. The update dict holds
    the str ["paid"]; [PaymentStatus] is a [str] enum whose member [paid]
    equals that str and serialises the same, and the model writes the
    member. *)
Definition mark_participant_paid (participant_id : string) (now : datetime)
    (session_manager : t) : result Participant.t * t :=
  match update_participant participant_id
          [ParticipantAttr.Set_paymentStatus paid] now session_manager with
  | (Some participant, session_manager) => (Ok participant, session_manager)
  | (None, session_manager) =>
      (Raise (HTTPException HTTP_404_NOT_FOUND), session_manager)
  end.

End SessionsRoutes.

(** ** Receipt routes ([app/routes/receipts.py]) *)

Module ReceiptsRoutes.

Import SessionManager.

(** The conversion of the parsed items; [idx] counts from [0]. *)
Fixpoint convert_items (idx : Z) (items : list ReceiptParser.receipt_item)
  : list BillItemCreate.t :=
  match items with
  | [] => []
  | item :: rest =>
      BillItemCreate.mk
        (match ReceiptParser.name item with
         | Some n => n
         | None => "Unknown Item"
         end)
        (float_or (ReceiptParser.price item) 0)
        (int_or (ReceiptParser.quantity item) 1)
        None
        (idx + 1)
      :: convert_items (idx + 1) rest
  end.

Definition to_receipt (receipt_id : string)
    (receipt_data : ReceiptParser.parsed_receipt) : Receipt.t :=
  let receipt_data := ReceiptParser.data receipt_data in
  Receipt.mk receipt_id
    (ReceiptParser.restaurant_name receipt_data)
    (convert_items 0 (ReceiptParser.items receipt_data))
    (Some (float_or (ReceiptParser.subtotal receipt_data) 0))
    (Some (float_or (ReceiptParser.tax receipt_data) 0))
    (Some (float_or (ReceiptParser.tip receipt_data) 0))
    (Some (float_or (ReceiptParser.total receipt_data) 0))
    (ReceiptParser.confidence receipt_data).

(** [receipt_parser.parse_receipt]: [answer] is the vision model's reply
    read as JSON, or the exception of the call or of the JSON extraction. *)
Definition parse_receipt (answer : result ReceiptParser.receipt_data)
  : result ReceiptParser.parsed_receipt :=
  raw <-- answer ;;
  ReceiptParser.attach_validation raw.

(** POST /{receipt_id}/scan: any exception inside [try] becomes a 500. *)
Definition scan_receipt (receipt_id : string)
    (answer : result ReceiptParser.receipt_data) (session_manager : t)
  : result Receipt.t * t :=
  match receipts session_manager !! (receipt_id ++ "_image")%string with
  | None | Some (ImageData []) =>
      (Raise (HTTPException HTTP_404_NOT_FOUND), session_manager)
  | Some (Parsed _) =>
      (Raise (HTTPException HTTP_500_INTERNAL_SERVER_ERROR), session_manager)
  | Some (ImageData (_ :: _)) =>
      match parse_receipt answer with
      | Ok receipt_data =>
          (Ok (to_receipt receipt_id receipt_data),
           store_receipt receipt_id receipt_data session_manager)
      | Raise _ =>
          (Raise (HTTPException HTTP_500_INTERNAL_SERVER_ERROR),
           session_manager)
      end
  end.

(** GET /{receipt_id} *)
Definition get_receipt (receipt_id : string) (session_manager : t)
  : result Receipt.t :=
  match SessionManager.get_receipt receipt_id session_manager with
  | None | Some (ImageData []) => Raise (HTTPException HTTP_404_NOT_FOUND)
  | Some (ImageData (_ :: _)) => Raise AttributeError
  | Some (Parsed receipt_data) => Ok (to_receipt receipt_id receipt_data)
  end.

(** POST /upload: [content_type] is the upload's declared type ([None]
    when absent), [r] the random bits of the receipt id. *)
Definition upload_receipt (content_type : option string)
    (image_data : list byte) (r : N) (session_manager : t)
  : result UploadReceiptResponse.t * t :=
  let is_image :=
    match content_type with
    | Some ct => negb (String.eqb ct "") && String.prefix "image/" ct
    | None => false
    end in
  if negb is_image
  then (Raise (HTTPException HTTP_400_BAD_REQUEST), session_manager)
  else
    let receipt_id := str_uuid (uuid4 r) in
    (Ok (UploadReceiptResponse.mk receipt_id
           ("/uploads/" ++ receipt_id ++ ".jpg")%string),
     {| sessions := sessions session_manager;
        sessions_by_code := sessions_by_code session_manager;
        receipts :=
          <[(receipt_id ++ "_image")%string := ImageData image_data]>
            (receipts session_manager) |}).

End ReceiptsRoutes.

(** ** Runs of the store *)

Module Api.

Import SessionManager.

(** [create_session] called once per request, in order; each request
    carries the random bits of its id and its clock reading. *)
Fixpoint create_sessions (fuel : nat) (rng : nat -> nat) (pos : nat)
    (requests : list (N * datetime * SessionCreate.t)) (self : t)
  : option (list Session.t * t * nat) :=
  match requests with
  | [] => Some ([], self, pos)
  | (r, now, data) :: rest =>
      match create_session fuel rng pos r now data self with
      | None => None
      | Some (session, self, pos) =>
          match create_sessions fuel rng pos rest self with
          | None => None
          | Some (sessions, self, pos) => Some (session :: sessions, self, pos)
          end
      end
  end.

(** The mutations of a session and of the entities it owns, each with the
    inputs of the call. *)
Inductive mutation :=
| AddParticipant (session_id : string) (r : N) (now_joined now : datetime)
    (data : ParticipantCreate.t)
| UpdateParticipant (participant_id : string)
    (updates : list ParticipantAttr.update) (now : datetime)
| AddItem (session_id : string) (r : N) (now : datetime)
    (data : BillItemCreate.t)
| UpdateItem (item_id : string) (updates : list BillItemAttr.update)
    (now : datetime)
| DeleteItem (item_id : string) (now : datetime)
| AddAssignment (r : N) (now : datetime) (data : ItemAssignmentCreate.t)
| UpdateAssignment (assignment_id : string)
    (updates : list ItemAssignmentAttr.update)
| DeleteAssignment (assignment_id : string) (now : datetime)
| UpdateSession (session_id : string) (updates : list SessionAttr.update)
    (now : datetime).

(** The store after the call. *)
Definition exec (m : mutation) (self : t) : t :=
  match m with
  | AddParticipant session_id r now_joined now data =>
      snd (add_participant session_id r now_joined now data self)
  | UpdateParticipant participant_id updates now =>
      snd (update_participant participant_id updates now self)
  | AddItem session_id r now data => snd (add_item session_id r now data self)
  | UpdateItem item_id updates now => snd (update_item item_id updates now self)
  | DeleteItem item_id now => snd (delete_item item_id now self)
  | AddAssignment r now data => snd (add_assignment r now data self)
  | UpdateAssignment assignment_id updates =>
      snd (SessionsRoutes.update_assignment assignment_id updates self)
  | DeleteAssignment assignment_id now =>
      snd (delete_assignment assignment_id now self)
  | UpdateSession session_id updates now =>
      snd (update_session session_id updates now self)
  end.

Definition exec_all (ms : list mutation) (self : t) : t :=
  fold_left (fun self m => exec m self) ms self.

(** The reading of [datetime.now()] that the call writes to [updatedAt],
    if it takes one. *)
Definition updatedAt_reading (m : mutation) : option datetime :=
  match m with
  | AddParticipant _ _ _ now _ => Some now
  | UpdateParticipant _ _ now => Some now
  | AddItem _ _ now _ => Some now
  | UpdateItem _ _ now => Some now
  | DeleteItem _ now => Some now
  | AddAssignment _ now _ => Some now
  | UpdateAssignment _ _ => None
  | DeleteAssignment _ now => Some now
  | UpdateSession _ _ now => Some now
  end.

End Api.

(** ** Predicates used in the statements *)

(** The [k]-th candidate code drawn from position [pos] of the random
    source. *)
Definition draw (rng : nat -> nat) (pos k : nat) : string :=
  string_of_list_ascii (choices rng (pos + 6 * k)%nat 6).

(** A 6-character string over uppercase letters and digits. *)
Definition valid_code (code : string) : Prop :=
  String.length code = 6%nat /\
  Forall (fun c => In c population) (list_ascii_of_string code).

(** The defaults of a returned [Receipt]: every money field is present,
    with [0.0] for a null or falsy parsed value; every item has
    [lineNumber = index + 1], price [0.0] for a null or falsy parsed price
    and quantity [1] for a null or zero parsed quantity. *)
Definition money_default (parsed : option float) (returned : option float)
  : Prop :=
  (parsed = None -> returned = Some 0%float) /\
  (forall v, parsed = Some v -> float_truthy v = false ->
             returned = Some 0%float) /\
  (forall v, parsed = Some v -> float_truthy v = true -> returned = Some v).

Definition item_default (idx : nat) (parsed : ReceiptParser.receipt_item)
    (returned : BillItemCreate.t) : Prop :=
  BillItemCreate.lineNumber returned = Z.of_nat idx + 1 /\
  (ReceiptParser.price parsed = None ->
   BillItemCreate.price returned = 0%float) /\
  (forall v, ReceiptParser.price parsed = Some v ->
             BillItemCreate.price returned =
             if float_truthy v then v else 0%float) /\
  (ReceiptParser.quantity parsed = None ->
   BillItemCreate.quantity returned = 1) /\
  (forall q, ReceiptParser.quantity parsed = Some q ->
             BillItemCreate.quantity returned = if q =? 0 then 1 else q).

Definition receipt_defaults (receipt_id : string)
    (stored : ReceiptParser.parsed_receipt) (returned : Receipt.t) : Prop :=
  let parsed := ReceiptParser.data stored in
  Receipt.id returned = receipt_id /\
  money_default (ReceiptParser.subtotal parsed) (Receipt.subtotal returned) /\
  money_default (ReceiptParser.tax parsed) (Receipt.tax returned) /\
  money_default (ReceiptParser.tip parsed) (Receipt.tip returned) /\
  money_default (ReceiptParser.total parsed) (Receipt.total returned) /\
  length (Receipt.items returned) = length (ReceiptParser.items parsed) /\
  (forall idx item,
     nth_error (ReceiptParser.items parsed) idx = Some item ->
     exists b, nth_error (Receipt.items returned) idx = Some b /\
               item_default idx item b) /\
  (ReceiptParser._validate_receipt parsed =
     Ok (ReceiptParser.validation_block stored) ->
   In ReceiptParser.no_total_msg
      (ReceiptParser.warnings (ReceiptParser.validation_block stored)) ->
   Receipt.total returned = Some 0%float).

(** The records the assignment loop is expected to create from iteration
    [i] on: one per participant id, in order, all with the same share. *)
Fixpoint expected_assignments (ids : nat -> N) (i : nat) (itemId : string)
    (participantIds : list string) (split_percentage amount : float)
  : list ItemAssignment.t :=
  match participantIds with
  | [] => []
  | participant_id :: rest =>
      ItemAssignment.mk itemId participant_id split_percentage amount
        (SessionManager._generate_id (ids i))
      :: expected_assignments ids (S i) itemId rest split_percentage amount
  end.

(** ** Stores built by the manager's own operations *)

(** The generic updates that leave the ownership links alone: no entry
    names an item's or a participant's [sessionId], nor a session's [id],
    [sessionCode], [items] or [participants]. *)
Definition links_safe (m : Api.mutation) : bool :=
  match m with
  | Api.UpdateParticipant _ updates _ =>
      forallb (fun u => negb (String.eqb (ParticipantAttr.key u) "sessionId"))
        updates
  | Api.UpdateItem _ updates _ =>
      forallb (fun u => negb (String.eqb (BillItemAttr.key u) "sessionId"))
        updates
  | Api.UpdateSession _ updates _ =>
      forallb (fun u =>
                 negb (existsb (String.eqb (SessionAttr.key u))
                         ["id"; "sessionCode"; "items"; "participants"]))
        updates
  | _ => true
  end.

(** The stores reached from the empty one by creating sessions (with an
    id that is not in use), by mutations that leave the links alone and by
    deleting sessions. *)
Inductive reachable : SessionManager.t -> Prop :=
| reach_init : reachable SessionManager.__init__
| reach_create fuel rng pos r now data self session self' pos' :
    reachable self ->
    SessionManager.get_session (SessionManager._generate_id r) self = None ->
    SessionManager.create_session fuel rng pos r now data self =
      Some (session, self', pos') ->
    reachable self'
| reach_mutation m self :
    reachable self -> links_safe m = true -> reachable (Api.exec m self)
| reach_delete session_id self :
    reachable self ->
    reachable (snd (SessionManager.delete_session session_id self)).

(** Every session sits under its own id and has a well-formed code, its
    items and participants carry its id, and the code index and the
    sessions describe each other. *)
Definition well_formed (self : SessionManager.t) : Prop :=
  List.NoDup (map fst (SessionManager.sessions self)) /\
  (forall k s,
     In (k, s) (SessionManager.sessions self) ->
     Session.id s = k /\ k <> "" /\
     valid_code (Session.sessionCode s) /\
     (forall item, In item (Session.items s) -> BillItem.sessionId item = k) /\
     (forall p, In p (Session.participants s) -> Participant.sessionId p = k) /\
     SessionManager.sessions_by_code self !! Session.sessionCode s = Some k) /\
  (forall code k,
     SessionManager.sessions_by_code self !! code = Some k ->
     exists s, In (k, s) (SessionManager.sessions self) /\
               Session.sessionCode s = code).


(** ** Example inputs *)

Module Examples.

Import ReceiptParser.



(** A parsed receipt with no total and no tip, one item without price and
    quantity, stored under the id "r1". *)
Definition receipt_without_total : receipt_data :=
  mk_receipt (Some "Cafe")
    [mk_item (Some "Tea") None None; mk_item None (Some 4%float) (Some 3)]
    (Some 12%float) (Some 1%float) None None (Some "low").


Definition parsed_without_total : parsed_receipt :=
  mk_parsed receipt_without_total
    (mk_validation true [] [no_total_msg]).

Definition store_with_receipt : SessionManager.t :=
  SessionManager.store_receipt "r1" parsed_without_total
    SessionManager.__init__.

(** A random source whose candidates are AAAAAA, AAAAAA, BBBBBB, AAAAAA,
    BBBBBB, CCCCCC, ...: the second and third creations have to retry. *)
Definition colliding_rng (i : nat) : nat :=
  nth (i / 6)%nat [0; 0; 1; 0; 1; 2]%nat (i / 6)%nat.

Definition three_requests : list (N * datetime * SessionCreate.t) :=
  [ (1%N, 10, SessionCreate.mk (Some "Trattoria") None 0 0 0 0);
    (2%N, 20, SessionCreate.mk None None 0 0 0 0);
    (3%N, 30, SessionCreate.mk None None 0 0 0 0) ].

(** One session, created at clock reading 10 with code AAAAAA. *)
Definition session1_id : string := SessionManager._generate_id 1.

Definition store_one_session : SessionManager.t :=
  match SessionManager.create_session 1 colliding_rng 0 1 10
          (SessionCreate.mk None None 0 0 0 0) SessionManager.__init__ with
  | Some (_, self, _) => self
  | None => SessionManager.__init__
  end.


(** The session above with one item (price 10.00, quantity 2) added at
    clock reading 20. *)
Definition pizza : BillItemCreate.t :=
  BillItemCreate.mk "Pizza" 10 2 None 1.

Definition item1_id : string := SessionManager._generate_id 2.

Definition store_one_item : SessionManager.t :=
  snd (SessionManager.add_item session1_id 2 20 pizza store_one_session).

(** The item's [sessionId] overwritten through the generic item update. *)
Definition store_item_orphaned : SessionManager.t :=
  snd (SessionManager.update_item item1_id
         [BillItemAttr.Set_sessionId "no-such-session"] 25 store_one_item).

(** The item's [quantity] overwritten with an int beyond the float range. *)
Definition store_item_huge : SessionManager.t :=
  snd (SessionManager.update_item item1_id
         [BillItemAttr.Set_quantity (2 ^ 1024)] 26 store_one_item).

Definition assignment_for (participant_id : string) : ItemAssignmentCreate.t :=
  ItemAssignmentCreate.mk item1_id participant_id 1 20.

(** The item assigned once, at clock reading 30. *)
Definition assignment1_id : string := SessionManager._generate_id 3.

Definition store_one_assignment : SessionManager.t :=
  snd (SessionManager.add_assignment 3 30 (assignment_for "nobody")
         store_one_item).

(** A guest added to the session at clock readings 31 and 32. *)
Definition ann : ParticipantCreate.t :=
  ParticipantCreate.mk None (Some "Ann") 20 0 pending.

Definition participant1_id : string := SessionManager._generate_id 4.

Definition store_one_participant : SessionManager.t :=
  snd (SessionManager.add_participant session1_id 4 31 32 ann
         store_one_assignment).

Definition three_way : AssignItemRequest.t :=
  AssignItemRequest.mk item1_id ["ann"; "bob"; "cy"] true.

Definition ids_from_100 (i : nat) : N := N.of_nat (100 + i).

Definition clock_from_40 (i : nat) : datetime := 40 + Z.of_nat i.

End Examples.
Import Examples.

(** * Properties *)

(** ** Floats: adding the int [0] *)

Arguments float_of_int : simpl never.

Lemma float_of_int_0 : float_of_int 0 = Ok 0%float.
Proof. reflexivity. Qed.

Lemma float_of_int_1 : float_of_int 1 = Ok 1%float.
Proof. reflexivity. Qed.




(** ** The [.2f] format on sample values *)

Example format_2f_seven : format_2f (PFloat 7) = Ok "7.00".
Proof. reflexivity. Qed.

Example format_2f_int : format_2f (PInt 5) = Ok "5.00".
Proof. reflexivity. Qed.

Example format_2f_tie_even :
  format_2f (PFloat 0.125) = Ok "0.12" /\ format_2f (PFloat 0.375) = Ok "0.38".
Proof. split; reflexivity. Qed.

Example format_2f_third :
  format_2f (PFloat (20 * (1 / 3))) = Ok "6.67".
Proof. reflexivity. Qed.

Example format_2f_negative_zero : format_2f (PFloat (-0)) = Ok "-0.00".
Proof. reflexivity. Qed.

(** ** The receipt validator *)

Section ValidatorFacts.

Import ReceiptParser.

Lemma py_or_int (q : option Z) (d : Z) :
  py_or (option_map PInt q) (PInt d) = PInt (int_or q d).
Proof.
  destruct q as [z|]; cbn; [|reflexivity].
  destruct (z =? 0); reflexivity.
Qed.

Lemma line_total_fit (item : receipt_item) :
  (exists q, float_of_int (int_or (quantity item) 1) = Ok q) ->
  exists x, line_total item = Ok x /\ is_int0_or_float x.
Proof.
  intros [q Hq]. unfold line_total. rewrite py_or_int.
  destruct (price item) as [p|]; cbn.
  - destruct (float_truthy p); cbn.
    + rewrite Hq. cbn. eexists; split; [reflexivity | right; eauto].
    + eexists; split; [reflexivity | left; reflexivity].
  - eexists; split; [reflexivity | left; reflexivity].
Qed.

Lemma py_add_int0_or_float (a b : pynum) :
  is_int0_or_float a -> is_int0_or_float b ->
  exists c, py_add a b = Ok c /\ is_int0_or_float c.
Proof.
  intros [-> | [fa ->]] [-> | [fb ->]]; cbn.
  - eexists; split; [reflexivity | left; reflexivity].
  - rewrite float_of_int_0. cbn. eexists; split; [reflexivity | right; eauto].
  - rewrite float_of_int_0. cbn. eexists; split; [reflexivity | right; eauto].
  - eexists; split; [reflexivity | right; eauto].
Qed.

Lemma sum_gen_from_fit (items : list receipt_item) : forall acc,
  quantities_fit items -> is_int0_or_float acc ->
  exists x, sum_gen_from line_total acc items = Ok x /\ is_int0_or_float x.
Proof.
  induction items as [|item rest IH]; intros acc Hfit Hacc; cbn.
  - eauto.
  - inversion Hfit as [|? ? Hitem Hrest]; subst.
    destruct (line_total_fit item Hitem) as (v & -> & Hv). cbn.
    destruct (py_add_int0_or_float acc v Hacc Hv) as (acc' & -> & Hacc'). cbn.
    apply IH; assumption.
Qed.

Lemma py_sub_float_fit (x : pynum) (s : float) :
  is_int0_or_float x -> exists d, py_sub x (PFloat s) = Ok (PFloat d).
Proof.
  intros [-> | [f ->]]; cbn.
  - rewrite float_of_int_0. cbn. eauto.
  - eauto.
Qed.

(** Under [quantities_fit] the second check does not raise. *)
Lemma items_check_fit (items : list receipt_item) (subtotal : option float)
    (warnings : list message) :
  quantities_fit items ->
  exists w, items_check items subtotal warnings = Ok w.
Proof.
  intros Hfit. unfold items_check.
  destruct items as [|item rest]; [eauto |].
  destruct subtotal as [s|]; [| eauto].
  destruct (sum_gen_from_fit (item :: rest) (PInt 0) Hfit) as (x & Hx & Hx');
    [left; reflexivity |].
  unfold py_sum_gen. rewrite Hx. cbn.
  destruct (py_sub_float_fit x s Hx') as (d & ->). cbn.
  destruct (PrimFloat.ltb _ _); eauto.
Qed.



End ValidatorFacts.

Section ValidatorClaims.

Import ReceiptParser.


(** What [_validate_receipt] returns, when the second check does not
    raise: both lists spelled out. *)
Lemma _validate_receipt_Ok (r : receipt_data) (w : list message) :
  items_check (items r) (subtotal r)
    (match total r with None => [no_total_msg] | Some _ => [] end) = Ok w ->
  _validate_receipt r =
  Ok {| is_valid :=
          (length (math_check (subtotal r) (tax r) (tip r) (total r)
                     (match items r with
                      | [] => [no_items_msg]
                      | _ :: _ => []
                      end)) =? 0)%nat;
        issues := math_check (subtotal r) (tax r) (tip r) (total r)
                    (match items r with
                     | [] => [no_items_msg]
                     | _ :: _ => []
                     end);
        warnings := w |}.
Proof.
  intros Hw. unfold _validate_receipt.
  replace (match total r with
           | Some _ => []
           | None => [] ++ [no_total_msg]
           end)
    with (match total r with None => [no_total_msg] | Some _ => [] end)
    by (destruct (total r); reflexivity).
  rewrite Hw. cbn.
  destruct (items r); reflexivity.
Qed.



(** The validator returns whenever the quantities fit. *)
Lemma _validate_receipt_returns (r : receipt_data) :
  quantities_fit (items r) -> exists v, _validate_receipt r = Ok v.
Proof.
  intros Hfit.
  destruct (items_check_fit (items r) (subtotal r)
              (match total r with None => [no_total_msg] | Some _ => [] end)
              Hfit) as [w Hw].
  eexists. apply (_validate_receipt_Ok r w Hw).
Qed.





End ValidatorClaims.

(** ** The receipt routes *)

Section ReceiptRouteClaims.

Import ReceiptParser ReceiptsRoutes.

Lemma float_or_money_default (parsed : option float) :
  money_default parsed (Some (float_or parsed 0)).
Proof.
  unfold money_default, float_or. repeat split.
  - intros ->. reflexivity.
  - intros v -> ->. reflexivity.
  - intros v -> ->. reflexivity.
Qed.

Lemma convert_items_length (items : list receipt_item) : forall idx,
  length (convert_items idx items) = length items.
Proof.
  induction items as [|item rest IH]; intros idx; cbn; [reflexivity |].
  f_equal. apply IH.
Qed.

Lemma convert_items_nth (items : list receipt_item) : forall base idx item,
  nth_error items idx = Some item ->
  exists b, nth_error (convert_items base items) idx = Some b /\
            BillItemCreate.lineNumber b = base + Z.of_nat idx + 1 /\
            BillItemCreate.price b = float_or (price item) 0 /\
            BillItemCreate.quantity b = int_or (quantity item) 1.
Proof.
  induction items as [|x rest IH]; intros base idx item Hnth.
  - destruct idx; discriminate.
  - destruct idx as [|idx]; cbn in Hnth.
    + injection Hnth as ->. eexists. split; [reflexivity |].
      cbn. repeat split. lia.
    + destruct (IH (base + 1) idx item Hnth) as (b & Hb & Hline & Hp & Hq).
      exists b. split; [exact Hb |]. repeat split; try assumption. lia.
Qed.

Lemma items_check_warnings (items : list receipt_item)
    (subtotal : option float) (w0 w : list message) :
  items_check items subtotal w0 = Ok w ->
  forall m, In m w -> In m w0 \/ exists x s, m = items_msg x s.
Proof.
  unfold items_check.
  destruct items as [|item rest]; [intros [= <-]; auto |].
  destruct subtotal as [s|]; [| intros [= <-]; auto].
  destruct (py_sum_gen line_total (item :: rest)) as [x|]; cbn [rbind];
    [| discriminate].
  destruct (py_sub x (PFloat s)) as [d|]; cbn [rbind]; [| discriminate].
  destruct (py_gt _ _); intros [= <-] m Hm; [| auto].
  apply in_app_or in Hm. destruct Hm as [Hm | [<- | []]]; eauto.
Qed.

(** The warning about the total is only produced for a null total. *)
Lemma no_total_warning_total_None (r : receipt_data) (v : validation) :
  _validate_receipt r = Ok v -> In no_total_msg (warnings v) -> total r = None.
Proof.
  unfold _validate_receipt.
  destruct (items_check _ _ _) as [w|] eqn:Hw; cbn [rbind]; [| discriminate].
  intros [= <-]. cbn [warnings]. intros Hin.
  destruct (total r) as [tot|]; [| reflexivity]. exfalso.
  destruct (items_check_warnings _ _ _ _ Hw _ Hin) as [[] | (x & s & Hm)].
  unfold items_msg, no_total_msg in Hm. discriminate.
Qed.

Lemma to_receipt_defaults (receipt_id : string) (stored : parsed_receipt) :
  receipt_defaults receipt_id stored (to_receipt receipt_id stored).
Proof.
  unfold receipt_defaults, to_receipt. cbn.
  split; [reflexivity |].
  do 4 (split; [apply float_or_money_default |]).
  split; [apply convert_items_length |]. split.
  - intros idx item Hnth.
    destruct (convert_items_nth (items (data stored)) 0 idx item Hnth)
      as (b & Hb & Hline & Hp & Hq).
    exists b. split; [exact Hb |]. unfold item_default.
    rewrite Hline, Hp, Hq. repeat split.
    + intros ->. reflexivity.
    + intros v ->. reflexivity.
    + intros ->. reflexivity.
    + intros q ->. cbn. destruct (q =? 0); reflexivity.
  - intros Hv Hin.
    rewrite (no_total_warning_total_None _ _ Hv Hin). reflexivity.
Qed.

Lemma parse_receipt_inv (answer : result receipt_data) (p : parsed_receipt) :
  parse_receipt answer = Ok p ->
  answer = Ok (data p) /\ _validate_receipt (data p) = Ok (validation_block p).
Proof.
  unfold parse_receipt, attach_validation.
  destruct answer as [raw|e]; cbn [rbind]; [| discriminate].
  destruct (_validate_receipt raw) as [v|e] eqn:Hv; cbn [rbind];
    [| discriminate].
  intros [= <-]. cbn. auto.
Qed.

(** C10. The Receipt returned by get-receipt for a stored parsed receipt,
    and by scan for an uploaded image whose parse succeeds, has every money
    field present, [0.0] standing for a null or falsy parsed value, item
    prices defaulting to [0.0], item quantities to [1], and
    [lineNumber = index + 1]; a receipt whose validation carries the
    warning "No total found" is returned with [total = 0.0]. Scan stores
    the parsed dict, with the validator's result on it as its validation
    block, under the receipt id; the parse succeeds whenever the model's
    answer is read and every quantity in it converts to a float. *)
Theorem receipt_null_defaults :
  (forall receipt_id stored (session_manager : SessionManager.t),
     SessionManager.get_receipt receipt_id session_manager =
       Some (SessionManager.Parsed stored) ->
     exists receipt,
       get_receipt receipt_id session_manager = Ok receipt /\
       receipt_defaults receipt_id stored receipt) /\
  (forall receipt_id answer b bs (session_manager : SessionManager.t),
     SessionManager.receipts session_manager !! (receipt_id ++ "_image")%string
       = Some (SessionManager.ImageData (b :: bs)) ->
     (forall raw, answer = Ok raw -> quantities_fit (items raw) ->
                  exists stored, parse_receipt answer = Ok stored) /\
     forall stored,
       parse_receipt answer = Ok stored ->
       exists receipt,
         scan_receipt receipt_id answer session_manager =
           (Ok receipt,
            SessionManager.store_receipt receipt_id stored session_manager) /\
         receipt_defaults receipt_id stored receipt /\
         _validate_receipt (data stored) = Ok (validation_block stored) /\
         (In no_total_msg (warnings (validation_block stored)) ->
          Receipt.total receipt = Some 0%float) /\
         get_receipt receipt_id
           (SessionManager.store_receipt receipt_id stored session_manager) =
           Ok receipt).
Proof.
  split.
  - intros receipt_id stored sm Hget.
    exists (to_receipt receipt_id stored). unfold get_receipt. rewrite Hget.
    split; [reflexivity | apply to_receipt_defaults].
  - intros receipt_id answer b bs sm Himg. split.
    + intros raw -> Hfit. unfold parse_receipt, attach_validation.
      cbn [rbind].
      destruct (_validate_receipt_returns raw Hfit) as [v ->]. cbn [rbind].
      eauto.
    + intros stored Hparse.
      destruct (parse_receipt_inv answer stored Hparse) as (_ & Hv).
      exists (to_receipt receipt_id stored).
      pose proof (to_receipt_defaults receipt_id stored) as Hdef.
      split; [| split; [exact Hdef | split; [exact Hv | split]]].
      * unfold scan_receipt. rewrite Himg, Hparse. reflexivity.
      * intros Hin.
        destruct Hdef as (_ & _ & _ & _ & _ & _ & _ & Htotal).
        apply Htotal; [exact Hv | exact Hin].
      * unfold get_receipt, SessionManager.get_receipt,
          SessionManager.store_receipt. cbn.
        rewrite lookup_insert_eq. reflexivity.
Qed.

Lemma receipt_null_defaults_witness :
  exists receipt,
    get_receipt "r1" store_with_receipt = Ok receipt /\
    Receipt.total receipt = Some 0%float /\
    Receipt.tip receipt = Some 0%float /\
    map BillItemCreate.lineNumber (Receipt.items receipt) = [1; 2] /\
    map BillItemCreate.quantity (Receipt.items receipt) = [1; 3].
Proof.
  destruct (proj1 receipt_null_defaults "r1" parsed_without_total
              store_with_receipt) as (receipt & Hget & Hdef).
  - reflexivity.
  - exists receipt. split; [exact Hget |].
    destruct Hdef as (_ & _ & _ & _ & _ & _ & _ & Htotal).
    split; [apply Htotal; [reflexivity | cbn; auto] |].
    vm_compute in Hget. injection Hget as <-. repeat split; reflexivity.
Defined.

End ReceiptRouteClaims.

(** ** Dict and list helpers *)

Section DictFacts.

Context {V : Type}.
Implicit Types (d : dict V) (k : string) (v : V).

Lemma dict_get_set_eq k v d : dict_get k (dict_set k v d) = Some v.
Proof.
  induction d as [|[k' v'] d IH]; cbn.
  - rewrite String.eqb_refl. reflexivity.
  - destruct (String.eqb k' k) eqn:E; cbn; rewrite E; [reflexivity | exact IH].
Qed.

Lemma dict_get_set_ne k k' v d :
  k <> k' -> dict_get k (dict_set k' v d) = dict_get k d.
Proof.
  intros Hne. induction d as [|[k0 v0] d IH]; cbn.
  - destruct (String.eqb_spec k' k); [congruence | reflexivity].
  - destruct (String.eqb_spec k0 k'); cbn.
    + subst k0. destruct (String.eqb_spec k' k); [congruence | reflexivity].
    + destruct (String.eqb_spec k0 k); [reflexivity | exact IH].
Qed.

Lemma dict_get_del_eq k d : dict_get k (dict_del k d) = None.
Proof.
  unfold dict_del. induction d as [|[k' v'] d IH]; cbn; [reflexivity |].
  destruct (String.eqb k' k) eqn:E; cbn; [exact IH |].
  rewrite E. exact IH.
Qed.

Lemma dict_get_keys k d : is_Some (dict_get k d) <-> In k (map fst d).
Proof.
  induction d as [|[k' v'] d IH]; cbn.
  - split; [intros [? [=]] | intros []].
  - destruct (String.eqb_spec k' k).
    + split; [auto | eauto].
    + rewrite IH. split; [auto | intros [? | ?]; [contradiction | assumption]].
Qed.

Lemma dict_set_keys k v d :
  is_Some (dict_get k d) -> map fst (dict_set k v d) = map fst d.
Proof.
  induction d as [|[k' v'] d IH]; cbn.
  - intros [? [=]].
  - destruct (String.eqb_spec k' k); cbn; [reflexivity |].
    intros H. f_equal. apply IH, H.
Qed.

Lemma alter_in_values_keys {R} (g : V -> option (R * V)) d r d' :
  alter_in_values g d = Some (r, d') -> map fst d' = map fst d.
Proof.
  revert d'. induction d as [|[k v] d IH]; cbn; intros d'; [discriminate |].
  destruct (g v) as [[r0 v0]|].
  - intros [= <- <-]. reflexivity.
  - destruct (alter_in_values g d) as [[r1 d1]|]; [| discriminate].
    intros [= <- <-]. cbn. f_equal. apply IH. reflexivity.
Qed.

(** After [alter_in_values] a key holds its old value or the value [g]
    made of it. *)
Lemma alter_in_values_get {R} (g : V -> option (R * V)) d r d' k v :
  alter_in_values g d = Some (r, d') ->
  dict_get k d = Some v ->
  dict_get k d' = Some v \/
  exists r' v', g v = Some (r', v') /\ dict_get k d' = Some v'.
Proof.
  revert d'. induction d as [|[k0 v0] d IH]; cbn; intros d'; [discriminate |].
  destruct (g v0) as [[r0 v0']|] eqn:Hg.
  - intros [= <- <-]. cbn. destruct (String.eqb k0 k).
    + intros [= <-]. right. eauto.
    + auto.
  - destruct (alter_in_values g d) as [[r1 d1]|]; [| discriminate].
    intros [= <- <-]. cbn. destruct (String.eqb k0 k); [auto |].
    apply IH. reflexivity.
Qed.

(** Replacing the value of a key by one on which [g] finds the same thing
    does not change what the scan of the values finds. *)
Lemma find_in_values_set {R} (g : V -> option R) k v v' d :
  dict_get k d = Some v -> g v' = g v ->
  find_in_values g (dict_set k v' d) = find_in_values g d.
Proof.
  intros Hget Hg. induction d as [|[k0 v0] d IH]; cbn in *; [discriminate |].
  destruct (String.eqb k0 k); cbn.
  - injection Hget as ->. rewrite Hg. reflexivity.
  - rewrite (IH Hget). reflexivity.
Qed.

Lemma find_in_values_None {R} (g : V -> option R) d :
  find_in_values g d = None <-> forall k v, In (k, v) d -> g v = None.
Proof.
  induction d as [|[k0 v0] d IH]; cbn.
  - split; [intros _ k v [] | reflexivity].
  - destruct (g v0) eqn:Hg.
    + split; [discriminate |]. intros H.
      rewrite (H k0 v0) in Hg; [discriminate | auto].
    + rewrite IH. split.
      * intros H k v [[= <- <-] | Hin]; [exact Hg | eauto].
      * intros H k v Hin. eauto.
Qed.

End DictFacts.

Lemma find_none_iff {A} (p : A -> bool) (xs : list A) :
  find p xs = None <-> forall x, In x xs -> p x = false.
Proof.
  induction xs as [|x xs IH]; cbn.
  - split; [intros _ x [] | reflexivity].
  - destruct (p x) eqn:Hp.
    + split; [discriminate |]. intros H. rewrite (H x) in Hp; [discriminate | auto].
    + rewrite IH. split.
      * intros H y [<- | Hin]; auto.
      * intros H y Hin. auto.
Qed.

(** ** Identifiers and codes *)

Lemma _generate_id_not_empty (r : N) : SessionManager._generate_id r <> "".
Proof.
  unfold SessionManager._generate_id, str_uuid.
  destruct (substring 0 8 _); discriminate.
Qed.

Lemma length_string_of_list_ascii (l : list ascii) :
  String.length (string_of_list_ascii l) = length l.
Proof. induction l; cbn; congruence. Qed.

Lemma pick_in_population (i : nat) : In (pick i) population.
Proof.
  unfold pick. apply nth_In. apply Nat.mod_upper_bound. discriminate.
Qed.

Lemma draw_valid (rng : nat -> nat) (pos k : nat) : valid_code (draw rng pos k).
Proof.
  unfold valid_code, draw. split.
  - rewrite length_string_of_list_ascii. unfold choices.
    rewrite length_map, length_seq. reflexivity.
  - rewrite list_ascii_of_string_of_list_ascii. unfold choices.
    apply List.Forall_forall. intros c Hc. apply in_map_iff in Hc.
    destruct Hc as (j & <- & _). apply pick_in_population.
Qed.



(** ** Session codes *)

Section CodeClaims.

Import SessionManager Api.

Lemma draw_0 (rng : nat -> nat) (pos : nat) :
  draw rng pos 0 = string_of_list_ascii (choices rng pos 6).
Proof. unfold draw. rewrite Nat.mul_0_r, Nat.add_0_r. reflexivity. Qed.

Lemma draw_S (rng : nat -> nat) (pos k : nat) :
  draw rng (pos + 6) k = draw rng pos (S k).
Proof. unfold draw. do 2 f_equal. lia. Qed.

(** The loop returns the first candidate that is not a key of the index. *)
Lemma _generate_session_code_first_free (fuel : nat) (rng : nat -> nat) :
  forall pos (self : t) code pos',
    _generate_session_code fuel rng pos self = Some (code, pos') ->
    exists k, (k < fuel)%nat /\ code = draw rng pos k /\
              pos' = (pos + 6 * (k + 1))%nat /\
              code_is_free self code = true /\
              forall j, (j < k)%nat -> code_is_free self (draw rng pos j) = false.
Proof.
  induction fuel as [|fuel IH]; intros pos self code pos';
    cbn [_generate_session_code]; [discriminate |].
  destruct (code_is_free self _) eqn:Hfree.
  - intros [= <- <-]. exists 0%nat. rewrite draw_0.
    split; [lia |]. split; [reflexivity |]. split; [lia |].
    split; [exact Hfree |]. intros j Hj. lia.
  - intros Hgen. destruct (IH _ _ _ _ Hgen) as (k & Hk & -> & -> & Hf & Hbefore).
    exists (S k). rewrite <- draw_S.
    split; [lia |]. split; [reflexivity |]. split; [lia |].
    split; [exact Hf |].
    intros [|j] Hj.
    + rewrite draw_0. exact Hfree.
    + rewrite <- draw_S. apply Hbefore. lia.
Qed.

(** The loop ends as soon as the random source yields a free candidate. *)
Lemma _generate_session_code_returns (rng : nat -> nat) (self : t) :
  forall k fuel pos,
    (k < fuel)%nat ->
    code_is_free self (draw rng pos k) = true ->
    (forall j, (j < k)%nat -> code_is_free self (draw rng pos j) = false) ->
    _generate_session_code fuel rng pos self =
    Some (draw rng pos k, (pos + 6 * (k + 1))%nat).
Proof.
  induction k as [|k IH]; intros fuel pos Hk Hfree Hbefore;
    (destruct fuel as [|fuel]; [lia |]); cbn [_generate_session_code].
  - rewrite <- draw_0, Hfree.
    replace (pos + 6 * (0 + 1))%nat with (pos + 6)%nat by lia. reflexivity.
  - rewrite <- draw_0, (Hbefore 0%nat) by lia.
    rewrite (IH fuel (pos + 6)%nat).
    + rewrite draw_S.
      replace (pos + 6 + 6 * (k + 1))%nat with (pos + 6 * (S k + 1))%nat by lia.
      reflexivity.
    + lia.
    + rewrite draw_S. exact Hfree.
    + intros j Hj. rewrite draw_S. apply Hbefore. lia.
Qed.

Lemma create_session_inv (fuel : nat) (rng : nat -> nat) (pos : nat) (r : N)
    (now : datetime) (data : SessionCreate.t) (self : t) session self' pos' :
  create_session fuel rng pos r now data self = Some (session, self', pos') ->
  _generate_session_code fuel rng pos self =
    Some (Session.sessionCode session, pos') /\
  Session.id session = _generate_id r /\
  Session.createdAt session = now /\ Session.updatedAt session = now /\
  Session.status session = active /\
  Session.items session = [] /\ Session.participants session = [] /\
  Session.assignments session = [] /\
  sessions self' = dict_set (_generate_id r) session (sessions self) /\
  sessions_by_code self' =
    <[Session.sessionCode session := _generate_id r]> (sessions_by_code self) /\
  receipts self' = receipts self.
Proof.
  unfold create_session.
  destruct (_generate_session_code fuel rng pos self) as [[code p]|];
    [| discriminate].
  intros [= <- <- <-]. cbn. repeat split; reflexivity.
Qed.

Lemma code_is_free_None (self : t) (code : string) :
  code_is_free self code = true <-> sessions_by_code self !! code = None.
Proof.
  unfold code_is_free. destruct (sessions_by_code self !! code); split;
    congruence.
Qed.

Lemma create_sessions_codes (fuel : nat) (rng : nat -> nat) requests :
  forall pos (self : t) created self' pos',
    create_sessions fuel rng pos requests self = Some (created, self', pos') ->
    length created = length requests /\
    List.NoDup (map Session.sessionCode created) /\
    List.Forall (fun s => valid_code (Session.sessionCode s) /\
                          sessions_by_code self !! Session.sessionCode s = None /\
                          is_Some (sessions_by_code self' !! Session.sessionCode s))
                created /\
    (forall c, is_Some (sessions_by_code self !! c) ->
               is_Some (sessions_by_code self' !! c)).
Proof.
  induction requests as [|[[r now] data] rest IH];
    intros pos self created self' pos'; cbn [create_sessions].
  - intros [= <- <- <-]. repeat split; [constructor | constructor | auto].
  - destruct (create_session fuel rng pos r now data self)
      as [[[s self1] pos1]|] eqn:Hcreate; [| discriminate].
    destruct (create_sessions fuel rng pos1 rest self1)
      as [[[ss self2] pos2]|] eqn:Hrest; [| discriminate].
    intros [= <- <- <-].
    destruct (IH _ _ _ _ _ Hrest) as (Hlen & Hnodup & Hall & Hmono).
    destruct (create_session_inv _ _ _ _ _ _ _ _ _ _ Hcreate)
      as (Hgen & _ & _ & _ & _ & _ & _ & _ & _ & Hidx & _).
    destruct (_generate_session_code_first_free _ _ _ _ _ _ Hgen)
      as (k & _ & Hcode & _ & Hfree & _).
    apply code_is_free_None in Hfree.
    assert (Hin1 : is_Some (sessions_by_code self1 !! Session.sessionCode s)).
    { rewrite Hidx, lookup_insert_eq. eauto. }
    repeat split.
    + cbn. congruence.
    + cbn. constructor; [| exact Hnodup].
      intros Hin. apply in_map_iff in Hin. destruct Hin as (s' & Heq & Hs').
      rewrite List.Forall_forall in Hall.
      destruct (Hall s' Hs') as (_ & Hnone & _).
      rewrite Heq in Hnone. rewrite Hnone in Hin1. destruct Hin1 as [? [=]].
    + constructor.
      * split; [rewrite Hcode; apply draw_valid |]. split; [exact Hfree |].
        apply Hmono, Hin1.
      * rewrite List.Forall_forall in Hall |- *. intros s' Hs'.
        destruct (Hall s' Hs') as (Hvalid & Hnone & Hsome).
        split; [exact Hvalid |]. split; [| exact Hsome].
        rewrite Hidx in Hnone.
        destruct (decide (Session.sessionCode s = Session.sessionCode s'))
          as [Heq | Hne].
        -- rewrite Heq, lookup_insert_eq in Hnone. discriminate.
        -- rewrite lookup_insert_ne in Hnone by exact Hne. exact Hnone.
    + intros c Hc. apply Hmono. rewrite Hidx.
      destruct (decide (Session.sessionCode s = c)) as [-> | Hne].
      * rewrite lookup_insert_eq. eauto.
      * rewrite lookup_insert_ne by exact Hne. exact Hc.
Qed.

(** C2. The codes of N sessions created one after the other are pairwise
    distinct; each is a 6-character string over uppercase letters and
    digits, was not a key of the code index when the run started and is one
    afterwards; and each single generation returns the first candidate of
    the random source that is not a key of the index, as soon as there is
    one. *)
Theorem session_codes_unique (fuel : nat) (rng : nat -> nat) (pos : nat)
    (requests : list (N * datetime * SessionCreate.t)) (self : t)
    created self' pos' :
  create_sessions fuel rng pos requests self = Some (created, self', pos') ->
  length created = length requests /\
  List.NoDup (map Session.sessionCode created) /\
  List.Forall (fun s => valid_code (Session.sessionCode s) /\
                        sessions_by_code self !! Session.sessionCode s = None /\
                        is_Some (sessions_by_code self' !! Session.sessionCode s))
              created /\
  (forall p (sm : t) code p',
     _generate_session_code fuel rng p sm = Some (code, p') ->
     exists k, (k < fuel)%nat /\ code = draw rng p k /\
               code_is_free sm code = true /\
               forall j, (j < k)%nat -> code_is_free sm (draw rng p j) = false) /\
  (forall p (sm : t) k,
     (k < fuel)%nat ->
     code_is_free sm (draw rng p k) = true ->
     (forall j, (j < k)%nat -> code_is_free sm (draw rng p j) = false) ->
     _generate_session_code fuel rng p sm =
     Some (draw rng p k, (p + 6 * (k + 1))%nat)).
Proof.
  intros Hrun.
  destruct (create_sessions_codes _ _ _ _ _ _ _ _ Hrun)
    as (Hlen & Hnodup & Hall & _).
  repeat split; try assumption.
  - intros p sm code p' Hgen.
    destruct (_generate_session_code_first_free _ _ _ _ _ _ Hgen)
      as (k & Hk & Hcode & _ & Hfree & Hbefore).
    exists k. auto.
  - intros p sm k Hk Hfree Hbefore.
    apply _generate_session_code_returns; assumption.
Qed.

Lemma session_codes_unique_witness :
  exists created self' pos',
    create_sessions 3 colliding_rng 0 three_requests __init__ =
      Some (created, self', pos') /\
    map Session.sessionCode created = ["AAAAAA"; "BBBBBB"; "CCCCCC"] /\
    List.NoDup (map Session.sessionCode created).
Proof.
  destruct (create_sessions 3 colliding_rng 0 three_requests __init__)
    as [[[created self'] pos']|] eqn:Hrun.
  - exists created, self', pos'. split; [reflexivity |].
    split.
    + vm_compute in Hrun. injection Hrun as <- _ _. reflexivity.
    + exact (proj1 (proj2 (session_codes_unique _ _ _ _ _ _ _ _ Hrun))).
  - vm_compute in Hrun. discriminate.
Defined.

End CodeClaims.

(** ** Mutations keep the index, the keys and the order of time *)

Section MutationFacts.

Import SessionManager Api SessionAttr.

Lemma dict_set_get_cases {V} (k0 k : string) (v0 v0' v : V) (d : dict V) :
  dict_get k0 d = Some v0 ->
  dict_get k d = Some v ->
  dict_get k (dict_set k0 v0' d) = Some v \/
  (k = k0 /\ v = v0 /\ dict_get k (dict_set k0 v0' d) = Some v0').
Proof.
  intros H0 Hk. destruct (String.eqb_spec k k0) as [-> | Hne].
  - right. rewrite dict_get_set_eq. split; [reflexivity |].
    split; [congruence | reflexivity].
  - left. rewrite dict_get_set_ne by exact Hne. exact Hk.
Qed.

Ltac by_dict_set Hs :=
  let s0 := fresh "s0" in
  let H0 := fresh "H0" in
  let H := fresh "H" in
  match goal with
  | |- context [dict_get ?k0 (sessions ?self)] =>
      destruct (dict_get k0 (sessions self)) as [s0|] eqn:H0; cbn;
      [ match goal with
        | |- context [dict_set ?k1 ?v (sessions ?self1)] =>
            destruct (dict_set_get_cases k1 _ _ v _ _ H0 Hs)
              as [H | (-> & -> & H)]
        end;
        rewrite H; eexists; (split; [reflexivity |]); cbn; auto
      | eexists; split; [exact Hs | auto] ]
  end.

Ltac by_alter Hs :=
  let r0 := fresh "r0" in
  let d0 := fresh "d0" in
  let H0 := fresh "H0" in
  let H := fresh "H" in
  let Hg := fresh "Hg" in
  let r' := fresh "r'" in
  let s' := fresh "s'" in
  match goal with
  | |- context [alter_in_values ?g (sessions ?self)] =>
      destruct (alter_in_values g (sessions self)) as [[r0 d0]|] eqn:H0; cbn;
      [ destruct (alter_in_values_get _ _ _ _ _ _ H0 Hs)
          as [H | (r' & s' & Hg & H)];
        rewrite H; eexists; (split; [reflexivity |]); [auto |];
        repeat match type of Hg with
               | match ?x with _ => _ end = _ =>
                   destruct x as [[? ?]|] || destruct x; [| discriminate]
               end;
        injection Hg as _ <-; cbn; auto
      | eexists; split; [exact Hs | auto] ]
  end.

(** A mutation leaves every session in place. A session is untouched, or
    its [updatedAt] is the clock reading of the call, or the call takes no
    reading and [updatedAt] is what it was. *)
Lemma exec_get_cases (m : mutation) (self : t) (k : string) (s : Session.t) :
  dict_get k (sessions self) = Some s ->
  exists s', dict_get k (sessions (exec m self)) = Some s' /\
             (s' = s \/
              Some (Session.updatedAt s') = updatedAt_reading m \/
              (updatedAt_reading m = None /\
               Session.updatedAt s' = Session.updatedAt s)).
Proof.
  intros Hs.
  destruct m; cbn [exec updatedAt_reading];
    unfold add_participant, update_participant, add_item, update_item,
      delete_item, add_assignment, SessionsRoutes.update_assignment,
      delete_assignment, update_session.
  - by_dict_set Hs.
  - by_alter Hs.
  - by_dict_set Hs.
  - by_alter Hs.
  - by_alter Hs.
  - destruct (get_item _ self) as [item|]; cbn;
      [| eexists; split; [exact Hs | auto]].
    by_dict_set Hs.
  - by_alter Hs.
  - by_alter Hs.
  - by_dict_set Hs.
Qed.

Lemma exec_get (m : mutation) (self : t) (k : string) (s : Session.t) :
  dict_get k (sessions self) = Some s ->
  exists s', dict_get k (sessions (exec m self)) = Some s' /\
             (Session.updatedAt s' = Session.updatedAt s \/
              Some (Session.updatedAt s') = updatedAt_reading m).
Proof.
  intros Hs.
  destruct (exec_get_cases m self k s Hs) as (s' & Hs' & Hcases).
  exists s'. split; [exact Hs' |].
  destruct Hcases as [-> | [H | [_ H]]]; auto.
Qed.

(** Every mutation that takes a clock reading writes it to the [updatedAt]
    of the session it changes. *)
Lemma exec_changed_bumps (m : mutation) (self : t) (k : string)
    (s s' : Session.t) (now : datetime) :
  updatedAt_reading m = Some now ->
  dict_get k (sessions self) = Some s ->
  dict_get k (sessions (exec m self)) = Some s' ->
  s' <> s -> Session.updatedAt s' = now.
Proof.
  intros Hnow Hs Hs' Hne.
  destruct (exec_get_cases m self k s Hs) as (s1 & Hs1 & Hcases).
  rewrite Hs' in Hs1. injection Hs1 as <-.
  destruct Hcases as [-> | [H | [H _]]]; [contradiction | | congruence].
  rewrite Hnow in H. congruence.
Qed.

Lemma exec_sessions_by_code (m : mutation) (self : t) :
  sessions_by_code (exec m self) = sessions_by_code self.
Proof.
  destruct m; cbn [exec];
    unfold add_participant, update_participant, add_item, update_item,
      delete_item, add_assignment, SessionsRoutes.update_assignment,
      delete_assignment, update_session;
    repeat match goal with
           | |- context [match ?x with _ => _ end] =>
               destruct x as [[? ?]|] || destruct x
           end; reflexivity.
Qed.



(** Under a clock that does not run backwards (the reading of the call is
    not before the stored [updatedAt]), no mutation moves [updatedAt]
    backwards. *)
Lemma exec_updatedAt_monotone (m : mutation) (self : t) (k : string)
    (s : Session.t) :
  dict_get k (sessions self) = Some s ->
  (forall now, updatedAt_reading m = Some now -> Session.updatedAt s <= now) ->
  exists s', dict_get k (sessions (exec m self)) = Some s' /\
             Session.updatedAt s <= Session.updatedAt s'.
Proof.
  intros Hs Hclock. destruct (exec_get m self k s Hs) as (s' & Hs' & [H | H]).
  - exists s'. split; [exact Hs' | lia].
  - exists s'. split; [exact Hs' |]. apply Hclock. symmetry. exact H.
Qed.

End MutationFacts.

(** ** Lookup by code *)

Section LookupClaims.

Import SessionManager Api SessionAttr.



(** The store itself compares codes exactly: it is the route that
    upper-cases. *)
Example store_lookup_is_case_sensitive :
  get_session_by_code "aaaaaa" store_one_session = None /\
  get_session_by_code "AAAAAA" store_one_session <> None.
Proof. split; [reflexivity | discriminate]. Qed.

(** *** Generic updates *)








End LookupClaims.

(** ** Assignments *)

Section AssignmentClaims.

Import SessionManager Api SessionAttr SessionsRoutes.

Lemma get_item_None (item_id : string) (self : t) :
  get_item item_id self = None <->
  forall k s item,
    In (k, s) (sessions self) -> In item (Session.items s) ->
    BillItem.id item <> item_id.
Proof.
  unfold get_item. rewrite find_in_values_None. split.
  - intros H k s item Hs Hitem Heq.
    pose proof (H k s Hs) as Hfind. rewrite find_none_iff in Hfind.
    specialize (Hfind item Hitem). apply String.eqb_neq in Hfind. auto.
  - intros H k s Hs. apply find_none_iff. intros item Hitem.
    apply String.eqb_neq. eauto.
Qed.

Lemma get_item_Some (item_id : string) (self : t) (item : BillItem.t) :
  get_item item_id self = Some item ->
  exists k s,
    In (k, s) (sessions self) /\ In item (Session.items s) /\
    BillItem.id item = item_id.
Proof.
  unfold get_item. induction (sessions self) as [|[k s] d IH]; cbn;
    [discriminate |].
  destruct (find _ (Session.items s)) as [found|] eqn:Hfind.
  - intros [= ->]. apply find_some in Hfind. destruct Hfind as [Hin Heq].
    apply String.eqb_eq in Heq. exists k, s. auto.
  - intros H. destruct (IH H) as (k' & s' & Hin & Hitem & Hid).
    exists k', s'. auto.
Qed.

Lemma add_assignment_Some (r : N) (now : datetime)
    (data : ItemAssignmentCreate.t) (self : t) item session :
  get_item (ItemAssignmentCreate.itemId data) self = Some item ->
  get_session (BillItem.sessionId item) self = Some session ->
  add_assignment r now data self =
  (Some (ItemAssignment.mk (ItemAssignmentCreate.itemId data)
           (ItemAssignmentCreate.participantId data)
           (ItemAssignmentCreate.splitPercentage data)
           (ItemAssignmentCreate.amount data) (_generate_id r)),
   with_sessions
     (dict_set (BillItem.sessionId item)
        (set_updatedAt now
           (set_assignments
              (Session.assignments session ++
               [ItemAssignment.mk (ItemAssignmentCreate.itemId data)
                  (ItemAssignmentCreate.participantId data)
                  (ItemAssignmentCreate.splitPercentage data)
                  (ItemAssignmentCreate.amount data) (_generate_id r)])
              session))
        (sessions self))
     self).
Proof.
  unfold get_session, add_assignment. intros -> ->. reflexivity.
Qed.

(** C8 (as the code has it). [add_assignment] returns [None] exactly when
    no session holds an item with the given id, or the item found carries
    a [sessionId] that is not the id of a live session; [get_item] fails
    exactly when no live session contains an item with that id, so in a
    store where every item's [sessionId] names a live session the first
    case is the only one. The participant id is never looked at: whenever
    the item and its session resolve, the record is created with the given
    participant id, appended to that session and returned. *)
Theorem add_assignment_not_found (r : N) (now : datetime)
    (data : ItemAssignmentCreate.t) (self : t) :
  (fst (add_assignment r now data self) = None <->
   get_item (ItemAssignmentCreate.itemId data) self = None \/
   exists item,
     get_item (ItemAssignmentCreate.itemId data) self = Some item /\
     get_session (BillItem.sessionId item) self = None) /\
  (get_item (ItemAssignmentCreate.itemId data) self = None <->
   forall k s item,
     In (k, s) (sessions self) -> In item (Session.items s) ->
     BillItem.id item <> ItemAssignmentCreate.itemId data) /\
  ((forall k s item,
      In (k, s) (sessions self) -> In item (Session.items s) ->
      is_Some (get_session (BillItem.sessionId item) self)) ->
   (fst (add_assignment r now data self) = None <->
    get_item (ItemAssignmentCreate.itemId data) self = None)) /\
  (forall item session,
     get_item (ItemAssignmentCreate.itemId data) self = Some item ->
     get_session (BillItem.sessionId item) self = Some session ->
     exists a,
       fst (add_assignment r now data self) = Some a /\
       ItemAssignment.participantId a = ItemAssignmentCreate.participantId data /\
       ItemAssignment.itemId a = ItemAssignmentCreate.itemId data /\
       get_session (BillItem.sessionId item)
         (snd (add_assignment r now data self)) =
       Some (set_updatedAt now
               (set_assignments (Session.assignments session ++ [a]) session))).
Proof.
  split; [| split; [| split]].
  - unfold add_assignment, get_session.
    destruct (get_item _ self) as [item|]; cbn; [| intuition].
    destruct (dict_get (BillItem.sessionId item) (sessions self)) eqn:Hs; cbn.
    + split; [discriminate |].
      intros [H | (item' & [= <-] & H)]; congruence.
    + split; [| reflexivity]. intros _. right. eauto.
  - apply get_item_None.
  - intros Hlive. unfold add_assignment.
    destruct (get_item _ self) as [item|] eqn:Hitem; cbn; [| intuition].
    destruct (get_item_Some _ _ _ Hitem) as (k & s & Hin & Hitems & _).
    destruct (Hlive k s item Hin Hitems) as [session Hsession].
    unfold get_session in Hsession. rewrite Hsession. cbn.
    split; discriminate.
  - intros item session Hitem Hsession.
    rewrite (add_assignment_Some r now data self item session Hitem Hsession).
    eexists. cbn [fst snd]. split; [reflexivity |].
    split; [reflexivity |]. split; [reflexivity |].
    unfold get_session. cbn. apply dict_get_set_eq.
Qed.

Lemma add_assignment_not_found_witness :
  exists a,
    fst (add_assignment 3 30 (assignment_for "nobody") store_one_item) = Some a /\
    ItemAssignment.participantId a = "nobody" /\
    get_participant session1_id "nobody" store_one_item = None.
Proof.
  destruct (get_item item1_id store_one_item) as [item|] eqn:Hitem;
    [| vm_compute in Hitem; discriminate].
  destruct (get_session (BillItem.sessionId item) store_one_item)
    as [session|] eqn:Hsession.
  - destruct (proj2 (proj2 (proj2 (add_assignment_not_found 3 30
                                     (assignment_for "nobody") store_one_item)))
                item session Hitem Hsession) as (a & Ha & Hp & _).
    exists a. split; [exact Ha |]. split; [exact Hp | reflexivity].
  - vm_compute in Hitem. injection Hitem as <-.
    vm_compute in Hsession. discriminate.
Defined.

(** The claim's "if and only if no live session contains an item with the
    given id" fails: here a live session contains the item, and
    [add_assignment] returns [None]. The state is reached through the
    store's own operations. *)
Lemma add_assignment_not_found_counterexample :
  fst (add_assignment 3 30 (assignment_for "ann") store_item_orphaned) = None /\
  exists s item,
    get_session session1_id store_item_orphaned = Some s /\
    In item (Session.items s) /\
    BillItem.id item = ItemAssignmentCreate.itemId (assignment_for "ann").
Proof.
  split; [vm_compute; reflexivity |].
  destruct (get_session session1_id store_item_orphaned) as [s|] eqn:Hs;
    [| vm_compute in Hs; discriminate].
  destruct (Session.items s) as [|item rest] eqn:Hitems.
  - exfalso. vm_compute in Hs. injection Hs as <-. discriminate.
  - exists s, item. split; [reflexivity |]. rewrite Hitems.
    split; [left; reflexivity |].
    vm_compute in Hs. injection Hs as <-. injection Hitems as <- _.
    reflexivity.
Qed.

(** *** The assignment loop *)

Lemma get_item_after_assignment (item_id : string) (self : t) (k : string)
    (session : Session.t) (now : datetime) (assignments : list ItemAssignment.t) :
  dict_get k (sessions self) = Some session ->
  get_item item_id
    (with_sessions
       (dict_set k (set_updatedAt now (set_assignments assignments session))
          (sessions self)) self) =
  get_item item_id self.
Proof.
  intros Hs. unfold get_item. cbn.
  apply (find_in_values_set _ k session); [exact Hs | reflexivity].
Qed.

Lemma create_assignments_spec (ids : nat -> N) (clock : nat -> datetime)
    (itemId : string) (sp amount : float) (item : BillItem.t)
    (participantIds : list string) :
  forall i acc (self : t) session,
    get_item itemId self = Some item ->
    dict_get (BillItem.sessionId item) (sessions self) = Some session ->
    exists self' session',
      create_assignments ids clock i itemId participantIds sp amount acc self =
        (acc ++ expected_assignments ids i itemId participantIds sp amount,
         self') /\
      dict_get (BillItem.sessionId item) (sessions self') = Some session' /\
      Session.assignments session' =
        Session.assignments session ++
        expected_assignments ids i itemId participantIds sp amount /\
      sessions_by_code self' = sessions_by_code self.
Proof.
  induction participantIds as [|pid rest IH]; intros i acc self session Hitem Hs.
  - exists self, session. cbn. rewrite !app_nil_r. auto.
  - cbn [create_assignments expected_assignments].
    set (data := ItemAssignmentCreate.mk itemId pid sp amount).
    rewrite (add_assignment_Some (ids i) (clock i) data self item session
               Hitem Hs).
    cbn [ItemAssignmentCreate.itemId ItemAssignmentCreate.participantId
         ItemAssignmentCreate.splitPercentage ItemAssignmentCreate.amount data].
    set (a := ItemAssignment.mk itemId pid sp amount (_generate_id (ids i))).
    set (session1 := set_updatedAt (clock i)
                       (set_assignments (Session.assignments session ++ [a])
                          session)).
    set (self1 := with_sessions
                    (dict_set (BillItem.sessionId item) session1 (sessions self))
                    self).
    destruct (IH (S i) (acc ++ [a]) self1 session1) as (self' & session' & Hrun & Hs' & Hassign & Hidx).
    + unfold self1, session1. rewrite get_item_after_assignment; assumption.
    + unfold self1. cbn. apply dict_get_set_eq.
    + exists self', session'. rewrite Hrun, <- app_assoc. cbn [app].
      split; [reflexivity |]. split; [exact Hs' |].
      split; [| exact Hidx].
      rewrite Hassign. unfold session1. cbn. rewrite <- app_assoc. reflexivity.
Qed.

Lemma expected_assignments_facts (ids : nat -> N) (itemId : string)
    (sp amount : float) (participantIds : list string) : forall i,
  length (expected_assignments ids i itemId participantIds sp amount) =
    length participantIds /\
  map ItemAssignment.participantId
    (expected_assignments ids i itemId participantIds sp amount) =
    participantIds /\
  List.Forall (fun a => ItemAssignment.splitPercentage a = sp /\
                        ItemAssignment.amount a = amount /\
                        ItemAssignment.itemId a = itemId)
    (expected_assignments ids i itemId participantIds sp amount).
Proof.
  induction participantIds as [|pid rest IH]; intros i; cbn.
  - repeat split. constructor.
  - destruct (IH (S i)) as (Hlen & Hmap & Hall).
    split; [congruence |]. split; [congruence |].
    constructor; [cbn; auto | exact Hall].
Qed.

(** C1 (as the code has it). For an existing item whose [sessionId] names
    a live session and a non-empty list of N participant ids, when the two
    float computations are defined (no int is too large to convert), the
    split percentage is [1.0 / N] if [splitEqually] and [1.0] otherwise,
    the amount is [(price * quantity) * splitPercentage], and exactly one
    assignment per participant id is created, in order, each with that
    percentage and amount, and appended to the item's session. *)
Theorem assign_item_split (ids : nat -> N) (clock : nat -> datetime)
    (data : AssignItemRequest.t) (self : t) (item : BillItem.t)
    (session : Session.t) (sp amount : float) :
  get_item (AssignItemRequest.itemId data) self = Some item ->
  AssignItemRequest.participantIds data <> [] ->
  get_session (BillItem.sessionId item) self = Some session ->
  split_percentage (length (AssignItemRequest.participantIds data))
    (AssignItemRequest.splitEqually data) = Ok sp ->
  amount_per_person item sp = Ok amount ->
  (AssignItemRequest.splitEqually data = true ->
   exists n,
     float_of_int (Z.of_nat (length (AssignItemRequest.participantIds data)))
       = Ok n /\ sp = (1 / n)%float) /\
  (AssignItemRequest.splitEqually data = false -> sp = 1%float) /\
  (exists q, float_of_int (BillItem.quantity item) = Ok q /\
             amount = ((BillItem.price item * q) * sp)%float) /\
  exists assignments self' session',
    assign_item ids clock data self = (Ok assignments, self') /\
    length assignments = length (AssignItemRequest.participantIds data) /\
    map ItemAssignment.participantId assignments =
      AssignItemRequest.participantIds data /\
    List.Forall (fun a => ItemAssignment.splitPercentage a = sp /\
                          ItemAssignment.amount a = amount /\
                          ItemAssignment.itemId a = AssignItemRequest.itemId data)
      assignments /\
    get_session (BillItem.sessionId item) self' = Some session' /\
    Session.assignments session' = Session.assignments session ++ assignments.
Proof.
  intros Hitem Hpids Hsession Hsp Hamount.
  split; [| split; [| split]].
  - intros Heq. unfold split_percentage in Hsp. rewrite Heq in Hsp.
    destruct (float_of_int _) as [n|]; cbn in Hsp; [| discriminate].
    exists n. split; [reflexivity |].
    unfold float_div in Hsp. destruct (n =? 0)%float; congruence.
  - intros Heq. unfold split_percentage in Hsp. rewrite Heq in Hsp. congruence.
  - unfold amount_per_person in Hamount.
    destruct (float_of_int _) as [q|]; cbn in Hamount; [| discriminate].
    exists q. split; [reflexivity | congruence].
  - destruct (create_assignments_spec ids clock (AssignItemRequest.itemId data)
                sp amount item (AssignItemRequest.participantIds data)
                0%nat [] self session Hitem Hsession)
      as (self' & session' & Hrun & Hs' & Hassign & _).
    destruct (expected_assignments_facts ids (AssignItemRequest.itemId data)
                sp amount (AssignItemRequest.participantIds data) 0%nat)
      as (Hlen & Hmap & Hall).
    exists (expected_assignments ids 0 (AssignItemRequest.itemId data)
              (AssignItemRequest.participantIds data) sp amount),
           self', session'.
    split; [| auto].
    unfold assign_item. rewrite Hitem.
    destruct (AssignItemRequest.participantIds data) as [|pid rest] eqn:Hp;
      [contradiction |].
    cbn [length Nat.eqb]. rewrite <- Hp in *. rewrite Hp in Hsp.
    cbn [length] in Hsp. rewrite Hsp. cbn [rbind]. rewrite Hamount.
    cbn [rbind]. rewrite Hrun. reflexivity.
Qed.

Lemma assign_item_split_witness :
  exists assignments self',
    assign_item ids_from_100 clock_from_40 three_way store_one_item =
      (Ok assignments, self') /\
    map ItemAssignment.participantId assignments = ["ann"; "bob"; "cy"] /\
    List.Forall (fun a => ItemAssignment.splitPercentage a = (1 / 3)%float /\
                          ItemAssignment.amount a = ((10 * 2) * (1 / 3))%float /\
                          ItemAssignment.itemId a = item1_id) assignments.
Proof.
  destruct (get_item item1_id store_one_item) as [item|] eqn:Hitem;
    [| vm_compute in Hitem; discriminate].
  assert (Hval : item = BillItem.mk "Pizza" 10 2 None 1 item1_id session1_id).
  { vm_compute in Hitem. injection Hitem as <-. reflexivity. }
  destruct (get_session (BillItem.sessionId item) store_one_item)
    as [session|] eqn:Hsession;
    [| rewrite Hval in Hsession; vm_compute in Hsession; discriminate].
  destruct (assign_item_split ids_from_100 clock_from_40 three_way
              store_one_item item session (1 / 3)%float
              ((10 * 2) * (1 / 3))%float Hitem)
    as (_ & _ & _ & assignments & self' & session' & Hrun & _ & Hmap & Hall & _).
  - discriminate.
  - exact Hsession.
  - reflexivity.
  - rewrite Hval. reflexivity.
  - exists assignments, self'. auto.
Defined.

(** The claim's "for every existing item ... exactly one assignment record
    per participant id" fails where the item's [sessionId] names no live
    session: the item exists, the list has one participant, and the
    operation answers with an empty list and creates nothing, because
    [add_assignment] returns [None], which the loop skips. It also fails
    where the quantity is an int too large for a float: the product raises
    and nothing is created. *)
Lemma assign_item_split_counterexample :
  (exists item, get_item item1_id store_item_orphaned = Some item) /\
  assign_item ids_from_100 clock_from_40
    (AssignItemRequest.mk item1_id ["ann"] true) store_item_orphaned =
  (Ok [], store_item_orphaned) /\
  (exists item, get_item item1_id store_item_huge = Some item) /\
  assign_item ids_from_100 clock_from_40
    (AssignItemRequest.mk item1_id ["ann"] true) store_item_huge =
  (Raise OverflowError, store_item_huge).
Proof.
  split; [| split; [| split]].
  - destruct (get_item item1_id store_item_orphaned) as [item|] eqn:Hitem;
      [eauto | vm_compute in Hitem; discriminate].
  - vm_compute. reflexivity.
  - destruct (get_item item1_id store_item_huge) as [item|] eqn:Hitem;
      [eauto | vm_compute in Hitem; discriminate].
  - vm_compute. reflexivity.
Qed.

(** C5 (as the code has it). With an empty participant list the operation
    always fails and leaves the store unchanged, so no assignment is
    created; the error is the invalid-request one (400) when the item
    exists, and the not-found one (404) when it does not, because the item
    is looked up first. *)
Theorem assign_item_empty_list (ids : nat -> N) (clock : nat -> datetime)
    (data : AssignItemRequest.t) (self : t) :
  AssignItemRequest.participantIds data = [] ->
  snd (assign_item ids clock data self) = self /\
  (forall item,
     get_item (AssignItemRequest.itemId data) self = Some item ->
     fst (assign_item ids clock data self) =
     Raise (HTTPException HTTP_400_BAD_REQUEST)) /\
  (get_item (AssignItemRequest.itemId data) self = None ->
   fst (assign_item ids clock data self) =
   Raise (HTTPException HTTP_404_NOT_FOUND)).
Proof.
  intros Hempty. unfold assign_item. rewrite Hempty. cbn [length Nat.eqb].
  destruct (get_item _ self) as [item|]; cbn [fst snd].
  - split; [reflexivity |]. split; [reflexivity | discriminate].
  - split; [reflexivity |]. split; [discriminate | reflexivity].
Qed.

Lemma assign_item_empty_list_witness :
  assign_item ids_from_100 clock_from_40
    (AssignItemRequest.mk item1_id [] true) store_one_item =
  (Raise (HTTPException 400), store_one_item).
Proof.
  pose proof (assign_item_empty_list ids_from_100 clock_from_40
                (AssignItemRequest.mk item1_id [] true) store_one_item
                eq_refl) as (Hstore & H400 & _).
  destruct (get_item item1_id store_one_item) as [item|] eqn:Hitem;
    [| vm_compute in Hitem; discriminate].
  rewrite (surjective_pairing (assign_item _ _ _ _)).
  rewrite Hstore, (H400 item Hitem). reflexivity.
Defined.

(** The claim's "always fails with InvalidRequest" fails: with an unknown
    item id the empty list is answered with 404, not 400. *)
Lemma assign_item_empty_list_counterexample :
  fst (assign_item ids_from_100 clock_from_40
         (AssignItemRequest.mk "no-such-item" [] true) store_one_item) =
  Raise (HTTPException HTTP_404_NOT_FOUND) /\
  fst (assign_item ids_from_100 clock_from_40
         (AssignItemRequest.mk "no-such-item" [] true) store_one_item) <>
  Raise (HTTPException HTTP_400_BAD_REQUEST).
Proof.
  assert (H : fst (assign_item ids_from_100 clock_from_40
                     (AssignItemRequest.mk "no-such-item" [] true)
                     store_one_item) =
              Raise (HTTPException HTTP_404_NOT_FOUND))
    by (vm_compute; reflexivity).
  split; [exact H |]. rewrite H. discriminate.
Qed.

End AssignmentClaims.

(** ** The order of [updatedAt] *)

Section UpdatedAtClaims.

Import SessionManager Api SessionAttr.

(** The assignment update of the route layer never writes [updatedAt]. *)
Lemma update_assignment_never_bumps (assignment_id : string)
    (updates : list ItemAssignmentAttr.update) (self : t) (k : string)
    (s : Session.t) :
  dict_get k (sessions self) = Some s ->
  exists s',
    dict_get k
      (sessions (snd (SessionsRoutes.update_assignment assignment_id updates
                        self))) = Some s' /\
    Session.updatedAt s' = Session.updatedAt s.
Proof.
  intros Hs.
  destruct (exec_get (UpdateAssignment assignment_id updates) self k s Hs)
    as (s' & Hs' & [H | H]).
  - exists s'. split; [exact Hs' | exact H].
  - cbn in H. discriminate.
Qed.

Lemma alter_in_values_changed {V R} (g : V -> option (R * V)) (d : dict V) :
  forall r d',
    alter_in_values g d = Some (r, d') ->
    exists k v v', In (k, v) d /\ g v = Some (r, v') /\ In (k, v') d'.
Proof.
  induction d as [|[k v] d IH]; cbn; intros r d'; [discriminate |].
  destruct (g v) as [[r0 v0]|] eqn:Hg.
  - intros [= <- <-]. exists k, v, v0. cbn. auto.
  - destruct (alter_in_values g d) as [[r1 d1]|]; [| discriminate].
    intros [= <- <-].
    destruct (IH r1 d1 eq_refl) as (k' & v' & v'' & Hin & Hg' & Hin').
    exists k', v', v''. cbn. auto.
Qed.

(** The sibling operation does write it: a successful [delete_assignment]
    leaves the clock reading in the session it changed. *)
Lemma delete_assignment_bumps (assignment_id : string) (now : datetime)
    (self self' : t) :
  delete_assignment assignment_id now self = (true, self') ->
  exists k s s',
    In (k, s) (sessions self) /\ In (k, s') (sessions self') /\
    Session.assignments s' <> Session.assignments s /\
    Session.updatedAt s' = now.
Proof.
  unfold delete_assignment.
  destruct (alter_in_values _ (sessions self)) as [[[] d]|] eqn:Halter;
    [| discriminate].
  intros [= <-]. cbn.
  destruct (alter_in_values_changed _ _ _ _ Halter)
    as (k & s & s' & Hin & Hg & Hin').
  exists k, s, s'. split; [exact Hin |]. split; [exact Hin' |].
  destruct (remove_first _ (Session.assignments s)) as [assignments|] eqn:Hrem;
    [| discriminate].
  injection Hg as <-. cbn. split; [| reflexivity].
  intros Heq. apply (f_equal (@length _)) in Heq.
  clear -Hrem Heq. revert assignments Hrem Heq.
  induction (Session.assignments s) as [|a rest IH]; cbn; intros l;
    [discriminate |].
  destruct (String.eqb _ _).
  - intros [= <-] Hlen. lia.
  - destruct (remove_first _ rest) as [l'|]; [| discriminate].
    intros [= <-] Hlen. cbn in Hlen. apply (IH l' eq_refl). lia.
Qed.

(** C6 at the failing input. A session holds one assignment and was last
    written at clock reading 30. Updating the assignment's amount through
    the route changes the stored record and still leaves [updatedAt] at
    30, so [updatedAt] does not advance on this mutation, whatever the
    clock; deleting the same assignment at reading 60 does move it to 60. *)
Theorem update_assignment_keeps_updatedAt :
  exists s a self' s',
    get_session session1_id store_one_assignment = Some s /\
    SessionsRoutes.update_assignment assignment1_id
      [ItemAssignmentAttr.Set_amount 5] store_one_assignment = (Ok a, self') /\
    get_session session1_id self' = Some s' /\
    map ItemAssignment.amount (Session.assignments s) = [20%float] /\
    map ItemAssignment.amount (Session.assignments s') = [5%float] /\
    Session.updatedAt s = 30 /\
    Session.updatedAt s' = 30 /\
    exists s'',
      get_session session1_id
        (snd (delete_assignment assignment1_id 60 store_one_assignment))
        = Some s'' /\
      Session.updatedAt s'' = 60.
Proof.
  destruct (get_session session1_id store_one_assignment) as [s|] eqn:Hs;
    [| vm_compute in Hs; discriminate].
  destruct (SessionsRoutes.update_assignment assignment1_id
              [ItemAssignmentAttr.Set_amount 5] store_one_assignment)
    as [[a|e] self'] eqn:Hupd; [| vm_compute in Hupd; discriminate].
  destruct (get_session session1_id self') as [s'|] eqn:Hs'.
  - exists s, a, self', s'. repeat (split; [reflexivity |]).
    vm_compute in Hs. injection Hs as <-.
    vm_compute in Hupd. injection Hupd as <- <-.
    vm_compute in Hs'. injection Hs' as <-.
    repeat (split; [reflexivity |]).
    eexists. split; vm_compute; reflexivity.
  - vm_compute in Hupd. injection Hupd as <- <-.
    vm_compute in Hs'. discriminate.
Qed.

End UpdatedAtClaims.

(** * Further properties of the store *)

Section MoreDictFacts.

Context {V : Type}.
Implicit Types (d : dict V) (k : string) (v : V).

Lemma dict_get_del_ne k k' d :
  k <> k' -> dict_get k (dict_del k' d) = dict_get k d.
Proof.
  intros Hne. unfold dict_del.
  induction d as [|[k0 v0] d IH]; cbn; [reflexivity |].
  destruct (String.eqb_spec k0 k') as [-> | Hk0]; cbn.
  - destruct (String.eqb_spec k' k); [congruence | exact IH].
  - destruct (String.eqb k0 k); [reflexivity | exact IH].
Qed.

Lemma dict_get_In k v d : dict_get k d = Some v -> In (k, v) d.
Proof.
  induction d as [|[k0 v0] d IH]; cbn; [discriminate |].
  destruct (String.eqb_spec k0 k) as [-> | Hne].
  - intros [= ->]. auto.
  - auto.
Qed.

Lemma In_dict_get k v d :
  List.NoDup (map fst d) -> In (k, v) d -> dict_get k d = Some v.
Proof.
  induction d as [|[k0 v0] d IH]; cbn; intros Hnodup Hin; [contradiction |].
  inversion Hnodup as [|? ? Hnotin Hrest]; subst.
  destruct Hin as [[= -> ->] | Hin].
  - rewrite String.eqb_refl. reflexivity.
  - destruct (String.eqb_spec k0 k) as [-> | Hne]; [| auto].
    exfalso. apply Hnotin. apply (in_map fst) in Hin. exact Hin.
Qed.

Lemma dict_get_None_keys k d : dict_get k d = None <-> ~ In k (map fst d).
Proof.
  rewrite <- dict_get_keys. destruct (dict_get k d); split.
  - discriminate.
  - intros H. exfalso. apply H. eauto.
  - intros _ [? [=]].
  - reflexivity.
Qed.

Lemma dict_set_new k v d :
  dict_get k d = None -> dict_set k v d = d ++ [(k, v)].
Proof.
  induction d as [|[k0 v0] d IH]; cbn; [reflexivity |].
  destruct (String.eqb k0 k); [discriminate |].
  intros H. rewrite (IH H). reflexivity.
Qed.

Lemma dict_del_absent k d : dict_get k d = None -> dict_del k d = d.
Proof.
  unfold dict_del. induction d as [|[k0 v0] d IH]; cbn; [reflexivity |].
  destruct (String.eqb k0 k); [discriminate |]. cbn.
  intros H. rewrite (IH H). reflexivity.
Qed.

Lemma dict_del_set_new k v d :
  dict_get k d = None -> dict_del k (dict_set k v d) = d.
Proof.
  intros H. rewrite (dict_set_new _ _ _ H). unfold dict_del.
  rewrite List.filter_app. cbn. rewrite String.eqb_refl. cbn.
  rewrite app_nil_r. apply (dict_del_absent k d H).
Qed.

Lemma dict_del_In k k' v d :
  In (k, v) (dict_del k' d) <-> In (k, v) d /\ k <> k'.
Proof.
  unfold dict_del. rewrite List.filter_In. cbn.
  destruct (String.eqb_spec k k'); cbn; intuition congruence.
Qed.

Lemma dict_del_keys_NoDup k d :
  List.NoDup (map fst d) -> List.NoDup (map fst (dict_del k d)).
Proof.
  unfold dict_del. induction d as [|[k0 v0] d IH]; cbn; intros H; [exact H |].
  inversion H as [|? ? Hnotin Hrest]; subst.
  destruct (String.eqb k0 k); cbn; [auto |].
  constructor; [| auto].
  intros Hin. apply Hnotin. apply in_map_iff in Hin.
  destruct Hin as ([k1 v1] & Hk & Hin). apply List.filter_In in Hin.
  destruct Hin as [Hin _]. cbn in Hk. subst k1.
  apply (in_map fst) in Hin. exact Hin.
Qed.

Lemma dict_set_In k v k' v' d :
  In (k', v') (dict_set k v d) -> In (k', v') d \/ (k' = k /\ v' = v).
Proof.
  induction d as [|[k0 v0] d IH]; cbn.
  - intros [[= <- <-] | []]. auto.
  - destruct (String.eqb_spec k0 k) as [-> | Hne]; cbn.
    + intros [[= <- <-] | H]; auto.
    + intros [H | H]; [auto |]. destruct (IH H); auto.
Qed.

Lemma alter_in_values_None {R} (g : V -> option (R * V)) d :
  alter_in_values g d = None <-> forall k v, In (k, v) d -> g v = None.
Proof.
  induction d as [|[k0 v0] d IH]; cbn.
  - split; [intros _ k v [] | reflexivity].
  - destruct (g v0) as [[r v1]|] eqn:Hg.
    + split; [discriminate |]. intros H.
      rewrite (H k0 v0) in Hg; [discriminate | auto].
    + destruct (alter_in_values g d) as [[r d1]|].
      * split; [discriminate |]. intros H.
        assert (Hnone : Some (r, d1) = @None (R * dict V));
          [| discriminate].
        apply IH. intros k v Hin. eauto.
      * split; [| reflexivity]. intros _ k v [[= <- <-] | Hin]; [exact Hg |].
        apply (proj1 IH eq_refl k v Hin).
Qed.

(** Entries of the altered dict are old entries or what [g] made of one. *)
Lemma alter_in_values_In {R} (g : V -> option (R * V)) d r d' k v' :
  alter_in_values g d = Some (r, d') ->
  In (k, v') d' ->
  In (k, v') d \/ exists v, In (k, v) d /\ g v = Some (r, v').
Proof.
  revert r d'. induction d as [|[k0 v0] d IH]; cbn; intros r d';
    [discriminate |].
  destruct (g v0) as [[r0 v1]|] eqn:Hg.
  - intros [= <- <-] [[= <- <-] | Hin]; [| auto].
    right. exists v0. auto.
  - destruct (alter_in_values g d) as [[r1 d1]|]; [| discriminate].
    intros [= <- <-] [[= <- <-] | Hin]; [auto |].
    destruct (IH r1 d1 eq_refl Hin) as [H | (v & H & Hv)]; [auto |].
    right. exists v. auto.
Qed.

(** When only the value under [k] answers [g], the scan succeeds there. *)
Lemma alter_in_values_set {R} (g : V -> option (R * V)) k v v' v'' r d :
  (forall k0 v0, In (k0, v0) d -> g v0 = None) ->
  dict_get k d = Some v ->
  g v' = Some (r, v'') ->
  alter_in_values g (dict_set k v' d) = Some (r, dict_set k v'' d).
Proof.
  intros Hnone Hget Hg.
  induction d as [|[k0 v0] d IH]; cbn in *; [discriminate |].
  destruct (String.eqb k0 k); cbn.
  - rewrite Hg. reflexivity.
  - rewrite (Hnone k0 v0) by auto. rewrite IH; [reflexivity | | exact Hget].
    intros k1 v1 Hin. eauto.
Qed.

Lemma find_in_values_set_new {R} (g : V -> option R) k v v' r d :
  (forall k0 v0, In (k0, v0) d -> g v0 = None) ->
  dict_get k d = Some v ->
  g v' = Some r ->
  find_in_values g (dict_set k v' d) = Some r.
Proof.
  intros Hnone Hget Hg.
  induction d as [|[k0 v0] d IH]; cbn in *; [discriminate |].
  destruct (String.eqb k0 k); cbn.
  - rewrite Hg. reflexivity.
  - rewrite (Hnone k0 v0) by auto. apply IH; [| exact Hget].
    intros k1 v1 Hin. eauto.
Qed.

Lemma dict_set_set k v v' d :
  dict_set k v' (dict_set k v d) = dict_set k v' d.
Proof.
  induction d as [|[k0 v0] d IH]; cbn.
  - rewrite String.eqb_refl. reflexivity.
  - destruct (String.eqb k0 k) eqn:E; cbn; rewrite E; [reflexivity |].
    rewrite IH. reflexivity.
Qed.

End MoreDictFacts.

Lemma find_app {A} (p : A -> bool) (xs ys : list A) :
  find p (xs ++ ys) =
  match find p xs with Some x => Some x | None => find p ys end.
Proof.
  induction xs as [|x xs IH]; cbn; [reflexivity |].
  destruct (p x); [reflexivity | exact IH].
Qed.

Lemma remove_first_None {A} (p : A -> bool) (xs : list A) :
  remove_first p xs = None <-> find p xs = None.
Proof.
  induction xs as [|x xs IH]; cbn; [tauto |].
  destruct (p x); [split; discriminate |].
  destruct (remove_first p xs); destruct (find p xs); split; try discriminate;
    try reflexivity; intros H.
  - apply IH in H. discriminate.
  - assert (Hn : @None (list A) = None) by reflexivity. apply IH in Hn.
    discriminate.
Qed.

Lemma remove_first_app_new {A} (p : A -> bool) (xs : list A) (x : A) :
  find p xs = None -> p x = true -> remove_first p (xs ++ [x]) = Some xs.
Proof.
  induction xs as [|y xs IH]; cbn; intros Hfind Hp.
  - rewrite Hp. reflexivity.
  - destruct (p y); [discriminate |]. rewrite (IH Hfind Hp). reflexivity.
Qed.

Lemma remove_first_length {A} (p : A -> bool) (xs ys : list A) :
  remove_first p xs = Some ys -> length xs = S (length ys).
Proof.
  revert ys. induction xs as [|x xs IH]; cbn; intros ys; [discriminate |].
  destruct (p x); [intros [= <-]; reflexivity |].
  destruct (remove_first p xs) as [l|]; [| discriminate].
  intros [= <-]. cbn. f_equal. apply IH. reflexivity.
Qed.

(** [remove_first] takes out the element that [find] finds. *)
Lemma remove_first_split {A} (p : A -> bool) (xs ys : list A) :
  remove_first p xs = Some ys ->
  exists l1 x l2,
    xs = l1 ++ x :: l2 /\ ys = l1 ++ l2 /\ find p xs = Some x /\
    p x = true /\ find p l1 = None.
Proof.
  revert ys. induction xs as [|y xs IH]; cbn; intros ys; [discriminate |].
  destruct (p y) eqn:Hp.
  - intros [= <-]. exists [], y, xs. cbn. rewrite Hp. auto.
  - destruct (remove_first p xs) as [l|]; [| discriminate].
    intros [= <-]. destruct (IH l eq_refl) as (l1 & x & l2 & -> & -> & H & Hx & H1).
    exists (y :: l1), x, l2. cbn. rewrite Hp. auto.
Qed.

(** [alter_first] rewrites the element that [find] finds. *)
Lemma alter_first_split {A} (p : A -> bool) (f : A -> A) (xs ys : list A) y :
  alter_first p f xs = Some (y, ys) ->
  exists l1 x l2,
    xs = l1 ++ x :: l2 /\ ys = l1 ++ f x :: l2 /\ y = f x /\
    find p xs = Some x /\ p x = true /\ find p l1 = None.
Proof.
  revert y ys. induction xs as [|z xs IH]; cbn; intros y ys; [discriminate |].
  destruct (p z) eqn:Hp.
  - intros [= <- <-]. exists [], z, xs. cbn. rewrite Hp. repeat split.
  - destruct (alter_first p f xs) as [[y' l]|]; [| discriminate].
    intros [= <- <-].
    destruct (IH _ l eq_refl) as (l1 & x & l2 & -> & -> & -> & H & Hx & H1).
    exists (z :: l1), x, l2. cbn. rewrite Hp. repeat split; assumption.
Qed.

Lemma alter_first_None {A} (p : A -> bool) (f : A -> A) (xs : list A) :
  alter_first p f xs = None <-> find p xs = None.
Proof.
  induction xs as [|x xs IH]; cbn; [tauto |].
  destruct (p x); [split; discriminate |].
  destruct (alter_first p f xs) as [[y ys]|]; destruct (find p xs);
    split; try discriminate; try reflexivity; intros H;
    apply IH in H; discriminate.
Qed.

(** The scan of the values changes the first value that answers, in
    place, and nothing else. *)
Lemma alter_in_values_split {V R} (g : V -> option (R * V)) (d d' : dict V) r :
  alter_in_values g d = Some (r, d') ->
  exists d1 k v v' d2,
    d = d1 ++ (k, v) :: d2 /\ d' = d1 ++ (k, v') :: d2 /\
    g v = Some (r, v') /\
    forall k0 v0, In (k0, v0) d1 -> g v0 = None.
Proof.
  revert d'. induction d as [|[k0 v0] d IH]; cbn; intros d'; [discriminate |].
  destruct (g v0) as [[r0 v1]|] eqn:Hg.
  - intros [= <- <-]. exists [], k0, v0, v1, d. cbn. tauto.
  - destruct (alter_in_values g d) as [[r1 d1]|]; [| discriminate].
    intros [= <- <-].
    destruct (IH d1 eq_refl) as (l1 & k & v & v' & l2 & -> & -> & Hv & Hn).
    exists ((k0, v0) :: l1), k, v, v', l2. cbn.
    repeat split; [exact Hv |].
    intros k1 v2 [[= <- <-] | Hin]; [exact Hg | eauto].
Qed.

Lemma find_in_values_split {V R} (g : V -> option R) (d1 d2 : dict V) k v r :
  (forall k0 v0, In (k0, v0) d1 -> g v0 = None) ->
  g v = Some r ->
  find_in_values g (d1 ++ (k, v) :: d2) = Some r.
Proof.
  intros Hn Hg. induction d1 as [|[k0 v0] d1 IH]; cbn.
  - rewrite Hg. reflexivity.
  - rewrite (Hn k0 v0) by (left; reflexivity). apply IH.
    intros k1 v1 Hin. apply (Hn k1 v1). right. exact Hin.
Qed.

(** ** Creating and deleting sessions *)

Section LifecycleFacts.

Import SessionManager Api SessionAttr.

(** X1. Deleting a live session whose code is a key of the index returns
    [True]; afterwards neither its id nor its code finds a session, the code
    is free for a new session, and every other id, every other code and the
    receipts are as before. Deleting an id that is not live returns [False]
    and changes nothing. *)
Theorem delete_session_final (self : t) (session_id : string) :
  (get_session session_id self = None ->
   delete_session session_id self = (Ok false, self)) /\
  (forall session,
     get_session session_id self = Some session ->
     is_Some (sessions_by_code self !! Session.sessionCode session) ->
     exists self',
       delete_session session_id self = (Ok true, self') /\
       get_session session_id self' = None /\
       get_session_by_code (Session.sessionCode session) self' = None /\
       code_is_free self' (Session.sessionCode session) = true /\
       (forall k, k <> session_id -> get_session k self' = get_session k self) /\
       (forall code,
          code <> Session.sessionCode session ->
          sessions_by_code self' !! code = sessions_by_code self !! code) /\
       receipts self' = receipts self).
Proof.
  unfold get_session, delete_session. split.
  - intros ->. reflexivity.
  - intros session -> [k Hk]. cbn. rewrite Hk.
    eexists. split; [reflexivity |]. cbn.
    split; [apply dict_get_del_eq |].
    split; [unfold get_session_by_code; cbn; rewrite lookup_delete_eq;
            reflexivity |].
    split; [unfold code_is_free; cbn; rewrite lookup_delete_eq; reflexivity |].
    split; [intros k' Hne; apply dict_get_del_ne; exact Hne |].
    split; [| reflexivity].
    intros code Hne. apply lookup_delete_ne. congruence.
Qed.

Lemma delete_session_final_witness :
  exists self',
    delete_session session1_id store_one_item = (Ok true, self') /\
    get_session session1_id self' = None /\
    get_session_by_code "AAAAAA" self' = None /\
    get_item item1_id self' = None.
Proof.
  destruct (get_session session1_id store_one_item) as [session|] eqn:Hs;
    [| vm_compute in Hs; discriminate].
  assert (Hcode : Session.sessionCode session = "AAAAAA").
  { vm_compute in Hs. injection Hs as <-. reflexivity. }
  destruct (proj2 (delete_session_final store_one_item session1_id)
              session Hs) as (self' & Hdel & Hid & Hc & _).
  - rewrite Hcode. vm_compute. eauto.
  - exists self'. rewrite Hcode in Hc.
    split; [exact Hdel |]. split; [exact Hid |]. split; [exact Hc |].
    vm_compute in Hdel. injection Hdel as <-. reflexivity.
Defined.



(** X3. Creating a session under an id that is not in use and deleting it
    again gives back the store exactly as it was. *)
Theorem create_then_delete_restores (fuel : nat) (rng : nat -> nat)
    (pos : nat) (r : N) (now : datetime) (data : SessionCreate.t) (self : t)
    session self1 pos1 :
  get_session (_generate_id r) self = None ->
  create_session fuel rng pos r now data self = Some (session, self1, pos1) ->
  delete_session (Session.id session) self1 = (Ok true, self).
Proof.
  unfold get_session. intros Hfresh Hcreate.
  destruct (create_session_inv _ _ _ _ _ _ _ _ _ _ Hcreate)
    as (Hgen & Hid & _ & _ & _ & _ & _ & _ & Hsessions & Hidx & Hreceipts).
  destruct (_generate_session_code_first_free _ _ _ _ _ _ Hgen)
    as (k & _ & _ & _ & Hfree & _).
  apply code_is_free_None in Hfree.
  unfold delete_session. rewrite Hid, Hsessions, dict_get_set_eq.
  cbn [sessions with_sessions sessions_by_code receipts].
  rewrite Hidx, lookup_insert_eq, (dict_del_set_new _ _ _ Hfresh).
  rewrite (delete_insert_id _ _ _ Hfree), Hreceipts.
  destruct self; reflexivity.
Qed.

Lemma create_then_delete_restores_witness :
  exists session self1 pos1,
    create_session 3 colliding_rng 6 9 60
      (SessionCreate.mk None None 0 0 0 0) store_one_item =
      Some (session, self1, pos1) /\
    Session.sessionCode session = "BBBBBB" /\
    delete_session (Session.id session) self1 = (Ok true, store_one_item).
Proof.
  destruct (create_session 3 colliding_rng 6 9 60
              (SessionCreate.mk None None 0 0 0 0) store_one_item)
    as [[[session self1] pos1]|] eqn:Hcreate.
  - exists session, self1, pos1. split; [reflexivity |]. split.
    + vm_compute in Hcreate. injection Hcreate as <- _ _. reflexivity.
    + apply (create_then_delete_restores 3 colliding_rng 6 9 60
               (SessionCreate.mk None None 0 0 0 0) store_one_item
               session self1 pos1); [reflexivity | exact Hcreate].
  - vm_compute in Hcreate. discriminate.
Defined.

(** X4. [create_session] does not disturb what is there: every other id
    finds what it found, every code that was a key of the index maps to
    what it mapped to, the receipts are untouched; the new session is found
    by its id, starts active with empty collections, with [createdAt] and
    [updatedAt] both the clock reading, and carries the fields of the
    request. *)
Theorem create_session_frame (fuel : nat) (rng : nat -> nat) (pos : nat)
    (r : N) (now : datetime) (data : SessionCreate.t) (self : t)
    session self1 pos1 :
  create_session fuel rng pos r now data self = Some (session, self1, pos1) ->
  (forall k, k <> Session.id session ->
             get_session k self1 = get_session k self) /\
  (forall code, is_Some (sessions_by_code self !! code) ->
                sessions_by_code self1 !! code = sessions_by_code self !! code) /\
  receipts self1 = receipts self /\
  get_session (Session.id session) self1 = Some session /\
  Session.status session = active /\
  Session.items session = [] /\ Session.participants session = [] /\
  Session.assignments session = [] /\
  Session.createdAt session = now /\ Session.updatedAt session = now /\
  Session.createdBy session = None /\
  Session.restaurantName session = SessionCreate.restaurantName data /\
  Session.subtotal session = SessionCreate.subtotal data /\
  Session.tax session = SessionCreate.tax data /\
  Session.tip session = SessionCreate.tip data /\
  Session.total session = SessionCreate.total data.
Proof.
  intros Hcreate.
  destruct (create_session_inv _ _ _ _ _ _ _ _ _ _ Hcreate)
    as (Hgen & Hid & Hc & Hu & Hst & Hi & Hp & Ha & Hsessions & Hidx & Hrec).
  destruct (_generate_session_code_first_free _ _ _ _ _ _ Hgen)
    as (k & _ & _ & _ & Hfree & _).
  apply code_is_free_None in Hfree.
  unfold get_session. rewrite Hsessions, Hid.
  split; [intros k' Hne; apply dict_get_set_ne; exact Hne |].
  split.
  { intros code [v Hv]. rewrite Hidx. apply lookup_insert_ne.
    intros <-. congruence. }
  split; [exact Hrec |].
  split; [apply dict_get_set_eq |].
  repeat (split; [assumption |]).
  unfold create_session in Hcreate.
  destruct (_generate_session_code fuel rng pos self) as [[code p]|];
    [| discriminate].
  injection Hcreate as <- _ _. cbn. repeat split.
Qed.

Lemma create_session_frame_witness :
  exists session self1 pos1,
    create_session 3 colliding_rng 6 9 60
      (SessionCreate.mk (Some "Bistro") None 30 3 5 38) store_one_item =
      Some (session, self1, pos1) /\
    get_session session1_id self1 = get_session session1_id store_one_item /\
    Session.restaurantName session = Some "Bistro".
Proof.
  destruct (create_session 3 colliding_rng 6 9 60
              (SessionCreate.mk (Some "Bistro") None 30 3 5 38) store_one_item)
    as [[[session self1] pos1]|] eqn:Hcreate.
  - exists session, self1, pos1. split; [reflexivity |].
    pose proof (create_session_frame _ _ _ _ _ _ _ _ _ _ Hcreate)
      as (Hother & _ & _ & _ & _ & _ & _ & _ & _ & _ & _ & Hname & _).
    split; [| exact Hname].
    apply Hother.
    vm_compute in Hcreate. injection Hcreate as <- _ _. discriminate.
  - vm_compute in Hcreate. discriminate.
Defined.

End LifecycleFacts.

(** ** Participants, items and assignments *)

Section EntityFacts.

Import SessionManager Api.

(** X5. [add_participant] on an id that is not live returns [None] and
    leaves the store as it was. On a live session it returns the new
    participant, built from the request with the generated id, the session's
    id and the first clock reading; it stores the session with the
    participant appended last and [updatedAt] set to the second reading.
    Every participant that [get_participant] found before is still found,
    and the new one is found by its id when that id was not in use in the
    session. Other sessions are untouched. *)
Theorem add_participant_round_trip (session_id : string) (r : N)
    (now_joined now : datetime) (data : ParticipantCreate.t) (self : t) :
  (get_session session_id self = None ->
   add_participant session_id r now_joined now data self = (None, self)) /\
  (forall session,
     get_session session_id self = Some session ->
     exists participant self',
       add_participant session_id r now_joined now data self =
         (Some participant, self') /\
       participant =
         Participant.mk (ParticipantCreate.userId data)
           (ParticipantCreate.guestName data)
           (ParticipantCreate.amountOwed data)
           (ParticipantCreate.amountPaid data)
           (ParticipantCreate.paymentStatus data)
           (_generate_id r) session_id now_joined /\
       get_session session_id self' =
         Some (SessionAttr.set_updatedAt now
                 (SessionAttr.set_participants
                    (Session.participants session ++ [participant]) session)) /\
       (forall participant_id p,
          get_participant session_id participant_id self = Some p ->
          get_participant session_id participant_id self' = Some p) /\
       (get_participant session_id (_generate_id r) self = None ->
        get_participant session_id (_generate_id r) self' = Some participant) /\
       (forall k, k <> session_id -> get_session k self' = get_session k self)).
Proof.
  unfold get_session, add_participant, get_participant. split.
  - intros ->. reflexivity.
  - intros session ->. eexists. eexists. split; [reflexivity |].
    split; [reflexivity |]. cbn [sessions with_sessions].
    rewrite dict_get_set_eq. split; [reflexivity |]. cbn.
    split; [| split].
    + intros participant_id p Hp. rewrite find_app, Hp. reflexivity.
    + intros Hfresh. rewrite find_app, Hfresh. cbn.
      rewrite String.eqb_refl. reflexivity.
    + intros k Hne. apply dict_get_set_ne. exact Hne.
Qed.

Lemma add_participant_round_trip_witness :
  exists participant self',
    add_participant session1_id 5 41 42
      (ParticipantCreate.mk None (Some "Ann") 0 0 pending) store_one_item =
      (Some participant, self') /\
    Participant.guestName participant = Some "Ann" /\
    get_participant session1_id (_generate_id 5) self' = Some participant.
Proof.
  destruct (get_session session1_id store_one_item) as [session|] eqn:Hs;
    [| vm_compute in Hs; discriminate].
  destruct (proj2 (add_participant_round_trip session1_id 5 41 42
                     (ParticipantCreate.mk None (Some "Ann") 0 0 pending)
                     store_one_item) session Hs)
    as (participant & self' & Hadd & Hp & _ & _ & Hnew & _).
  exists participant, self'. split; [exact Hadd |].
  split; [rewrite Hp; reflexivity |].
  apply Hnew. unfold get_participant.
  unfold get_session in Hs. rewrite Hs.
  vm_compute in Hs. injection Hs as <-. reflexivity.
Defined.

(** X6. [add_item] on an id that is not live returns [None] and leaves the
    store as it was. On a live session it returns the new item, built from
    the request with the generated id and the session's id, and stores the
    session with the item appended last and [updatedAt] set to the clock
    reading. [get_item] answers as before for every other id, and finds the
    new item under its id when no session held an item with that id.
    Participants and assignments of the session are kept. *)
Theorem add_item_round_trip (session_id : string) (r : N) (now : datetime)
    (data : BillItemCreate.t) (self : t) :
  (get_session session_id self = None ->
   add_item session_id r now data self = (None, self)) /\
  (forall session,
     get_session session_id self = Some session ->
     exists item self',
       add_item session_id r now data self = (Some item, self') /\
       item =
         BillItem.mk (BillItemCreate.name data) (BillItemCreate.price data)
           (BillItemCreate.quantity data) (BillItemCreate.category data)
           (BillItemCreate.lineNumber data) (_generate_id r) session_id /\
       get_session session_id self' =
         Some (SessionAttr.set_updatedAt now
                 (SessionAttr.set_items (Session.items session ++ [item])
                    session)) /\
       (forall item_id, item_id <> _generate_id r ->
                        get_item item_id self' = get_item item_id self) /\
       (get_item (_generate_id r) self = None ->
        get_item (_generate_id r) self' = Some item) /\
       (forall k, k <> session_id -> get_session k self' = get_session k self)).
Proof.
  unfold get_session, add_item. split.
  - intros ->. reflexivity.
  - intros session Hs. rewrite Hs. eexists. eexists. split; [reflexivity |].
    split; [reflexivity |]. cbn [sessions with_sessions].
    rewrite dict_get_set_eq. split; [reflexivity |].
    split; [| split].
    + intros item_id Hne. unfold get_item. cbn [sessions].
      apply (find_in_values_set _ session_id session); [exact Hs |].
      cbn. rewrite find_app. destruct (find _ (Session.items session));
        [reflexivity |].
      cbn. destruct (String.eqb_spec (_generate_id r) item_id);
        [congruence | reflexivity].
    + intros Hfresh. unfold get_item in *. cbn [sessions].
      rewrite find_in_values_None in Hfresh.
      apply (find_in_values_set_new _ session_id session); [| exact Hs |].
      * exact Hfresh.
      * cbn. rewrite find_app.
        rewrite (Hfresh session_id session (dict_get_In _ _ _ Hs)).
        cbn. rewrite String.eqb_refl. reflexivity.
    + intros k Hne. apply dict_get_set_ne. exact Hne.
Qed.

Lemma add_item_round_trip_witness :
  exists item self',
    add_item session1_id 7 21 (BillItemCreate.mk "Salad" 8 1 None 2)
      store_one_item = (Some item, self') /\
    get_item (_generate_id 7) self' = Some item /\
    get_item item1_id self' = get_item item1_id store_one_item.
Proof.
  destruct (get_session session1_id store_one_item) as [session|] eqn:Hs;
    [| vm_compute in Hs; discriminate].
  destruct (proj2 (add_item_round_trip session1_id 7 21
                     (BillItemCreate.mk "Salad" 8 1 None 2) store_one_item)
              session Hs)
    as (item & self' & Hadd & _ & _ & Hother & Hnew & _).
  exists item, self'. split; [exact Hadd |]. split.
  - apply Hnew. reflexivity.
  - apply Hother. discriminate.
Defined.



(** X8. [delete_item] returns [False] and changes nothing exactly when
    [get_item] finds no item with the id. Otherwise it returns [True] and
    removes the one item that [get_item] finds: the session that holds it
    keeps its other items in order, its participants and its assignments
    (also those that name the deleted item) and gets [updatedAt]; no other
    session changes. *)
Theorem delete_item_removes_found (item_id : string) (now : datetime)
    (self : t) :
  (get_item item_id self = None ->
   delete_item item_id now self = (false, self)) /\
  (forall item,
     get_item item_id self = Some item ->
     exists d1 k session d2 l1 l2,
       sessions self = d1 ++ (k, session) :: d2 /\
       Session.items session = l1 ++ item :: l2 /\
       delete_item item_id now self =
         (true,
          with_sessions
            (d1 ++
             (k, SessionAttr.set_updatedAt now
                   (SessionAttr.set_items (l1 ++ l2) session)) :: d2)
            self)).
Proof.
  unfold get_item, delete_item. split.
  - intros Hnone. rewrite find_in_values_None in Hnone.
    match goal with
    | |- context [alter_in_values ?g ?d] =>
        assert (Ha : alter_in_values g d = None)
    end.
    { apply alter_in_values_None. intros k v Hin.
      pose proof (Hnone k v Hin) as Hfind.
      apply remove_first_None in Hfind. rewrite Hfind. reflexivity. }
    rewrite Ha. reflexivity.
  - intros item Hitem.
    match goal with
    | |- context [alter_in_values ?g ?d] =>
        destruct (alter_in_values g d) as [[u d']|] eqn:Ha
    end.
    + destruct (alter_in_values_split _ _ _ _ Ha)
        as (d1 & k & session & session' & d2 & Hd & -> & Hg & Hn).
      destruct (remove_first _ (Session.items session)) as [ys|] eqn:Hfirst;
        [| discriminate].
      injection Hg as _ <-.
      destruct (remove_first_split _ _ _ Hfirst)
        as (l1 & x & l2 & Hitems & -> & Hfind & Hx & Hl1).
      assert (Hitem' : find_in_values
                (fun session0 =>
                   find (fun item0 => String.eqb (BillItem.id item0) item_id)
                        (Session.items session0))
                (sessions self) = Some x).
      { rewrite Hd. apply find_in_values_split; [| exact Hfind].
        intros k0 v0 Hin. pose proof (Hn k0 v0 Hin) as H0.
        destruct (remove_first _ (Session.items v0)) eqn:E0; [discriminate |].
        apply remove_first_None in E0. exact E0. }
      rewrite Hitem in Hitem'. injection Hitem' as ->.
      exists d1, k, session, d2, l1, l2. auto.
    + exfalso. rewrite alter_in_values_None in Ha.
      assert (Hnone : find_in_values
                (fun session0 =>
                   find (fun item0 => String.eqb (BillItem.id item0) item_id)
                        (Session.items session0))
                (sessions self) = None).
      { apply find_in_values_None. intros k v Hin.
        pose proof (Ha k v Hin) as H0.
        destruct (remove_first _ (Session.items v)) eqn:E0; [discriminate |].
        apply remove_first_None in E0. exact E0. }
      congruence.
Qed.

Lemma delete_item_removes_found_witness :
  exists self',
    delete_item item1_id 35 store_one_assignment = (true, self') /\
    get_item item1_id self' = None /\
    (forall session,
       get_session session1_id self' = Some session ->
       map ItemAssignment.itemId (Session.assignments session) = [item1_id]).
Proof.
  destruct (get_item item1_id store_one_assignment) as [item|] eqn:Hitem;
    [| vm_compute in Hitem; discriminate].
  destruct (proj2 (delete_item_removes_found item1_id 35 store_one_assignment)
              item Hitem) as (d1 & k & session & d2 & l1 & l2 & _ & _ & Hdel).
  exists (snd (delete_item item1_id 35 store_one_assignment)).
  split; [rewrite Hdel; reflexivity |].
  split; [reflexivity |].
  intros s Hs. vm_compute in Hs. injection Hs as <-. reflexivity.
Defined.

(** X9. Adding an item under an id that no session uses and deleting it
    again restores every session; only [updatedAt] of the session it was
    added to is the reading of the delete. *)
Theorem add_then_delete_item (session_id : string) (r : N)
    (now now' : datetime) (data : BillItemCreate.t) (self : t)
    (session : Session.t) :
  get_session session_id self = Some session ->
  get_item (_generate_id r) self = None ->
  delete_item (_generate_id r) now'
    (snd (add_item session_id r now data self)) =
  (true,
   with_sessions
     (dict_set session_id (SessionAttr.set_updatedAt now' session)
        (sessions self))
     self).
Proof.
  unfold get_session, get_item, add_item, delete_item.
  intros Hs Hfresh. rewrite Hs. cbn [snd sessions with_sessions].
  rewrite find_in_values_None in Hfresh.
  erewrite alter_in_values_set; [reflexivity | | exact Hs |].
  - intros k0 v0 Hin. pose proof (Hfresh k0 v0 Hin) as Hfind.
    apply remove_first_None in Hfind. rewrite Hfind. reflexivity.
  - cbn. rewrite remove_first_app_new.
    + destruct session; reflexivity.
    + apply (Hfresh session_id session). apply dict_get_In. exact Hs.
    + cbn. apply String.eqb_refl.
Qed.

Lemma add_then_delete_item_witness :
  exists session,
    get_session session1_id store_one_item = Some session /\
    delete_item (_generate_id 7) 22
      (snd (add_item session1_id 7 21 (BillItemCreate.mk "Salad" 8 1 None 2)
              store_one_item)) =
    (true,
     with_sessions
       (dict_set session1_id (SessionAttr.set_updatedAt 22 session)
          (sessions store_one_item))
       store_one_item).
Proof.
  destruct (get_session session1_id store_one_item) as [session|] eqn:Hs;
    [| vm_compute in Hs; discriminate].
  exists session. split; [reflexivity |].
  apply (add_then_delete_item session1_id 7 21 22
           (BillItemCreate.mk "Salad" 8 1 None 2) store_one_item session Hs).
  reflexivity.
Defined.

(** X10. Adding an assignment under an id that no assignment uses and
    deleting it again restores every session; only [updatedAt] of the
    session that holds the item is the reading of the delete. *)
Theorem add_then_delete_assignment (r : N) (now now' : datetime)
    (data : ItemAssignmentCreate.t) (self : t) (item : BillItem.t)
    (session : Session.t) :
  get_item (ItemAssignmentCreate.itemId data) self = Some item ->
  get_session (BillItem.sessionId item) self = Some session ->
  (forall k s a,
     In (k, s) (sessions self) -> In a (Session.assignments s) ->
     ItemAssignment.id a <> _generate_id r) ->
  delete_assignment (_generate_id r) now'
    (snd (add_assignment r now data self)) =
  (true,
   with_sessions
     (dict_set (BillItem.sessionId item)
        (SessionAttr.set_updatedAt now' session) (sessions self))
     self).
Proof.
  intros Hitem Hs Hfresh.
  rewrite (add_assignment_Some r now data self item session Hitem Hs).
  unfold get_session in Hs. unfold delete_assignment.
  cbn [snd sessions with_sessions].
  assert (Hnone : forall k s,
            In (k, s) (sessions self) ->
            find (fun a => String.eqb (ItemAssignment.id a) (_generate_id r))
                 (Session.assignments s) = None).
  { intros k s Hin. apply find_none_iff. intros a Ha.
    apply String.eqb_neq. eauto. }
  erewrite alter_in_values_set; [reflexivity | | exact Hs |].
  - intros k0 v0 Hin. pose proof (Hnone k0 v0 Hin) as Hfind.
    apply remove_first_None in Hfind. rewrite Hfind. reflexivity.
  - cbn. rewrite remove_first_app_new.
    + destruct session; reflexivity.
    + apply (Hnone (BillItem.sessionId item) session).
      apply dict_get_In. exact Hs.
    + cbn. apply String.eqb_refl.
Qed.

Lemma add_then_delete_assignment_witness :
  exists session,
    get_session session1_id store_one_item = Some session /\
    delete_assignment assignment1_id 31 store_one_assignment =
    (true,
     with_sessions
       (dict_set session1_id (SessionAttr.set_updatedAt 31 session)
          (sessions store_one_item))
       store_one_item).
Proof.
  destruct (get_session session1_id store_one_item) as [session|] eqn:Hs;
    [| vm_compute in Hs; discriminate].
  destruct (get_item item1_id store_one_item) as [item|] eqn:Hitem;
    [| vm_compute in Hitem; discriminate].
  assert (Hsid : BillItem.sessionId item = session1_id).
  { vm_compute in Hitem. injection Hitem as <-. reflexivity. }
  exists session. split; [reflexivity |].
  rewrite <- Hsid.
  apply (add_then_delete_assignment 3 30 31 (assignment_for "nobody")
           store_one_item item session Hitem).
  - rewrite Hsid. exact Hs.
  - intros k s a Hin Ha. vm_compute in Hin.
    destruct Hin as [[= <- <-] | []]. destruct Ha.
Defined.

End EntityFacts.

(** ** The invariant of the store *)

Section InvariantFacts.

Import SessionManager Api.

Lemma item_updates_keep_sessionId (updates : list BillItemAttr.update) :
  forall o,
    forallb (fun u => negb (String.eqb (BillItemAttr.key u) "sessionId"))
      updates = true ->
    BillItem.sessionId (BillItemAttr.apply_updates updates o) =
    BillItem.sessionId o.
Proof.
  unfold BillItemAttr.apply_updates.
  induction updates as [|u rest IH]; intros o; cbn; [reflexivity |].
  intros H. apply andb_prop in H. destruct H as [Hu Hrest].
  rewrite (IH _ Hrest). destruct u; cbn in *; try reflexivity; discriminate.
Qed.

Lemma participant_updates_keep_sessionId
    (updates : list ParticipantAttr.update) :
  forall o,
    forallb (fun u => negb (String.eqb (ParticipantAttr.key u) "sessionId"))
      updates = true ->
    Participant.sessionId (ParticipantAttr.apply_updates updates o) =
    Participant.sessionId o.
Proof.
  unfold ParticipantAttr.apply_updates.
  induction updates as [|u rest IH]; intros o; cbn; [reflexivity |].
  intros H. apply andb_prop in H. destruct H as [Hu Hrest].
  rewrite (IH _ Hrest). destruct u; cbn in *; try reflexivity; discriminate.
Qed.

Lemma session_updates_keep_links (updates : list SessionAttr.update) :
  forall o,
    forallb (fun u =>
               negb (existsb (String.eqb (SessionAttr.key u))
                       ["id"; "sessionCode"; "items"; "participants"]))
      updates = true ->
    Session.id (SessionAttr.apply_updates updates o) = Session.id o /\
    Session.sessionCode (SessionAttr.apply_updates updates o) =
      Session.sessionCode o /\
    Session.items (SessionAttr.apply_updates updates o) = Session.items o /\
    Session.participants (SessionAttr.apply_updates updates o) =
      Session.participants o.
Proof.
  unfold SessionAttr.apply_updates.
  induction updates as [|u rest IH]; intros o; cbn; [auto |].
  intros H. apply andb_prop in H. destruct H as [Hu Hrest].
  destruct (IH (if SessionAttr.hasattr u then SessionAttr.setattr u o else o)
              Hrest) as (-> & -> & -> & ->).
  destruct u; cbn in *; try (repeat split; reflexivity); discriminate.
Qed.

(** No mutation adds, removes or reorders sessions. *)
Lemma exec_keys (m : mutation) (self : t) :
  map fst (sessions (exec m self)) = map fst (sessions self).
Proof.
  destruct m; cbn [exec];
    unfold add_participant, update_participant, add_item, update_item,
      delete_item, add_assignment, SessionsRoutes.update_assignment,
      delete_assignment, update_session;
    try (destruct (get_item _ self); [| reflexivity]);
    match goal with
    | |- context [dict_get ?k (sessions self)] =>
        destruct (dict_get k (sessions self)) eqn:Hs; cbn;
        [apply dict_set_keys; rewrite Hs; eauto | reflexivity]
    | |- context [alter_in_values ?g (sessions self)] =>
        destruct (alter_in_values g (sessions self)) as [[? ?]|] eqn:Ha; cbn;
        [apply (alter_in_values_keys _ _ _ _ Ha) | reflexivity]
    end.
Qed.

Lemma exec_receipts (m : mutation) (self : t) :
  receipts (exec m self) = receipts self.
Proof.
  destruct m; cbn [exec];
    unfold add_participant, update_participant, add_item, update_item,
      delete_item, add_assignment, SessionsRoutes.update_assignment,
      delete_assignment, update_session;
    repeat match goal with
           | |- context [match ?x with _ => _ end] =>
               destruct x as [[? ?]|] || destruct x
           end; reflexivity.
Qed.

Ltac same_entry :=
  match goal with
  | H : In (?k, ?s) _ |- _ =>
      exists s; split; [exact H |];
      split; [reflexivity |]; split; [reflexivity |];
      split; intros x Hx; right; exists x; auto
  end.

(** What a mutation that leaves the links alone makes of a session: [id]
    and [sessionCode] stay, and every item and participant carries the
    key of the session or the [sessionId] of one that was there. *)
Lemma exec_entry (m : mutation) (self : t) (k : string) (s' : Session.t) :
  links_safe m = true ->
  In (k, s') (sessions (exec m self)) ->
  exists s,
    In (k, s) (sessions self) /\
    Session.id s' = Session.id s /\
    Session.sessionCode s' = Session.sessionCode s /\
    (forall item',
       In item' (Session.items s') ->
       BillItem.sessionId item' = k \/
       exists item, In item (Session.items s) /\
                    BillItem.sessionId item' = BillItem.sessionId item) /\
    (forall p',
       In p' (Session.participants s') ->
       Participant.sessionId p' = k \/
       exists p, In p (Session.participants s) /\
                 Participant.sessionId p' = Participant.sessionId p).
Proof.
  intros Hsafe.
  destruct m; cbn [exec links_safe] in *;
    unfold add_participant, update_participant, add_item, update_item,
      delete_item, add_assignment, SessionsRoutes.update_assignment,
      delete_assignment, update_session.
  - (* add_participant *)
    destruct (dict_get session_id (sessions self)) as [session|] eqn:Hs;
      cbn; intros Hin; [| same_entry].
    apply dict_set_In in Hin. destruct Hin as [Hin | [-> ->]]; [same_entry |].
    exists session. split; [apply dict_get_In; exact Hs |]. cbn.
    split; [reflexivity |]. split; [reflexivity |]. split.
    + intros x Hx. right. exists x. auto.
    + intros x Hx. apply in_app_or in Hx. destruct Hx as [Hx | [<- | []]].
      * right. exists x. auto.
      * left. reflexivity.
  - (* update_participant *)
    match goal with
    | |- context [alter_in_values ?g (sessions self)] =>
        destruct (alter_in_values g (sessions self)) as [[r0 d0]|] eqn:Ha
    end; cbn; intros Hin; [| same_entry].
    destruct (alter_in_values_In _ _ _ _ _ _ Ha Hin)
      as [Hold | (s & Hs & Hg)]; [same_entry |].
    destruct (alter_first _ _ (Session.participants s)) as [[y ys]|] eqn:Hf;
      [| discriminate].
    injection Hg as _ <-.
    destruct (alter_first_split _ _ _ _ _ Hf)
      as (l1 & x & l2 & Hps & -> & _ & _ & _ & _).
    exists s. split; [exact Hs |]. cbn.
    split; [reflexivity |]. split; [reflexivity |]. split.
    + intros i Hi. right. exists i. auto.
    + intros p' Hp'. right. rewrite Hps.
      apply in_app_or in Hp'. destruct Hp' as [Hp' | [<- | Hp']].
      * exists p'. split; [apply in_or_app; auto | reflexivity].
      * exists x. split; [apply in_or_app; right; left; reflexivity |].
        apply participant_updates_keep_sessionId. exact Hsafe.
      * exists p'. split; [apply in_or_app; right; right; exact Hp' |].
        reflexivity.
  - (* add_item *)
    destruct (dict_get session_id (sessions self)) as [session|] eqn:Hs;
      cbn; intros Hin; [| same_entry].
    apply dict_set_In in Hin. destruct Hin as [Hin | [-> ->]]; [same_entry |].
    exists session. split; [apply dict_get_In; exact Hs |]. cbn.
    split; [reflexivity |]. split; [reflexivity |]. split.
    + intros x Hx. apply in_app_or in Hx. destruct Hx as [Hx | [<- | []]].
      * right. exists x. auto.
      * left. reflexivity.
    + intros x Hx. right. exists x. auto.
  - (* update_item *)
    match goal with
    | |- context [alter_in_values ?g (sessions self)] =>
        destruct (alter_in_values g (sessions self)) as [[r0 d0]|] eqn:Ha
    end; cbn; intros Hin; [| same_entry].
    destruct (alter_in_values_In _ _ _ _ _ _ Ha Hin)
      as [Hold | (s & Hs & Hg)]; [same_entry |].
    destruct (alter_first _ _ (Session.items s)) as [[y ys]|] eqn:Hf;
      [| discriminate].
    injection Hg as _ <-.
    destruct (alter_first_split _ _ _ _ _ Hf)
      as (l1 & x & l2 & Hps & -> & _ & _ & _ & _).
    exists s. split; [exact Hs |]. cbn.
    split; [reflexivity |]. split; [reflexivity |]. split.
    + intros p' Hp'. right. rewrite Hps.
      apply in_app_or in Hp'. destruct Hp' as [Hp' | [<- | Hp']].
      * exists p'. split; [apply in_or_app; auto | reflexivity].
      * exists x. split; [apply in_or_app; right; left; reflexivity |].
        apply item_updates_keep_sessionId. exact Hsafe.
      * exists p'. split; [apply in_or_app; right; right; exact Hp' |].
        reflexivity.
    + intros i Hi. right. exists i. auto.
  - (* delete_item *)
    match goal with
    | |- context [alter_in_values ?g (sessions self)] =>
        destruct (alter_in_values g (sessions self)) as [[r0 d0]|] eqn:Ha
    end; cbn; intros Hin; [| same_entry].
    destruct (alter_in_values_In _ _ _ _ _ _ Ha Hin)
      as [Hold | (s & Hs & Hg)]; [same_entry |].
    destruct (remove_first _ (Session.items s)) as [ys|] eqn:Hf;
      [| discriminate].
    injection Hg as _ <-.
    destruct (remove_first_split _ _ _ Hf)
      as (l1 & x & l2 & Hps & -> & _ & _ & _).
    exists s. split; [exact Hs |]. cbn.
    split; [reflexivity |]. split; [reflexivity |]. split.
    + intros i Hi. right. exists i. split; [| reflexivity]. rewrite Hps.
      apply in_app_or in Hi. apply in_or_app. cbn. tauto.
    + intros i Hi. right. exists i. auto.
  - (* add_assignment *)
    destruct (get_item _ self) as [item|]; cbn; [| intros Hin; same_entry].
    destruct (dict_get (BillItem.sessionId item) (sessions self))
      as [session|] eqn:Hs; cbn; intros Hin; [| same_entry].
    apply dict_set_In in Hin. destruct Hin as [Hin | [-> ->]]; [same_entry |].
    exists session. split; [apply dict_get_In; exact Hs |]. cbn.
    split; [reflexivity |]. split; [reflexivity |].
    split; intros x Hx; right; exists x; auto.
  - (* update_assignment *)
    match goal with
    | |- context [alter_in_values ?g (sessions self)] =>
        destruct (alter_in_values g (sessions self)) as [[r0 d0]|] eqn:Ha
    end; cbn; intros Hin; [| same_entry].
    destruct (alter_in_values_In _ _ _ _ _ _ Ha Hin)
      as [Hold | (s & Hs & Hg)]; [same_entry |].
    destruct (alter_first _ _ (Session.assignments s)) as [[y ys]|];
      [| discriminate].
    injection Hg as _ <-.
    exists s. split; [exact Hs |]. cbn.
    split; [reflexivity |]. split; [reflexivity |].
    split; intros x Hx; right; exists x; auto.
  - (* delete_assignment *)
    match goal with
    | |- context [alter_in_values ?g (sessions self)] =>
        destruct (alter_in_values g (sessions self)) as [[r0 d0]|] eqn:Ha
    end; cbn; intros Hin; [| same_entry].
    destruct (alter_in_values_In _ _ _ _ _ _ Ha Hin)
      as [Hold | (s & Hs & Hg)]; [same_entry |].
    destruct (remove_first _ (Session.assignments s)) as [ys|];
      [| discriminate].
    injection Hg as _ <-.
    exists s. split; [exact Hs |]. cbn.
    split; [reflexivity |]. split; [reflexivity |].
    split; intros x Hx; right; exists x; auto.
  - (* update_session *)
    destruct (dict_get session_id (sessions self)) as [session|] eqn:Hs;
      cbn; intros Hin; [| same_entry].
    apply dict_set_In in Hin. destruct Hin as [Hin | [-> ->]]; [same_entry |].
    destruct (session_updates_keep_links updates session Hsafe)
      as (Hid & Hcode & Hitems & Hps).
    exists session. split; [apply dict_get_In; exact Hs |]. cbn.
    split; [exact Hid |]. split; [exact Hcode |].
    rewrite Hitems, Hps.
    split; intros x Hx; right; exists x; auto.
Qed.

Lemma well_formed_init : well_formed __init__.
Proof.
  split; [constructor |]. split.
  - intros k s [].
  - intros code k H. cbn in H. rewrite lookup_empty in H. discriminate.
Qed.

Lemma well_formed_create (fuel : nat) (rng : nat -> nat) (pos : nat) (r : N)
    (now : datetime) (data : SessionCreate.t) (self : t) session self' pos' :
  well_formed self ->
  get_session (_generate_id r) self = None ->
  create_session fuel rng pos r now data self = Some (session, self', pos') ->
  well_formed self'.
Proof.
  intros (Hnodup & Hentries & Hindex) Hfresh Hcreate.
  destruct (create_session_inv _ _ _ _ _ _ _ _ _ _ Hcreate)
    as (Hgen & Hid & _ & _ & _ & Hi & Hp & _ & Hsessions & Hidx & _).
  destruct (_generate_session_code_first_free _ _ _ _ _ _ Hgen)
    as (j & _ & Hdraw & _ & Hfree & _).
  apply code_is_free_None in Hfree.
  unfold get_session in Hfresh.
  unfold well_formed. rewrite Hsessions, Hidx.
  rewrite (dict_set_new _ _ _ Hfresh).
  split; [| split].
  - rewrite map_app. cbn. apply List.NoDup_app; [exact Hnodup | |].
    + repeat constructor. intros [].
    + intros x Hx [<- | []]. apply dict_get_None_keys in Hfresh. auto.
  - intros k s Hin. apply in_app_or in Hin.
    destruct Hin as [Hin | [[= <- <-] | []]].
    + destruct (Hentries k s Hin) as (H1 & H2 & H3 & H4 & H5 & H6).
      repeat (split; [assumption |]).
      rewrite lookup_insert_ne; [exact H6 |]. intros Heq.
      rewrite <- Heq, Hfree in H6. discriminate.
    + split; [exact Hid |]. split; [apply _generate_id_not_empty |].
      split; [rewrite Hdraw; apply draw_valid |].
      rewrite Hi, Hp. split; [intros ? [] |]. split; [intros ? [] |].
      apply lookup_insert_eq.
  - intros code k Hcode.
    destruct (String.eqb_spec code (Session.sessionCode session)) as [-> | Hne].
    + rewrite lookup_insert_eq in Hcode. injection Hcode as <-.
      exists session. split; [| reflexivity].
      apply in_or_app. right. left. reflexivity.
    + rewrite lookup_insert_ne in Hcode by congruence.
      destruct (Hindex code k Hcode) as (s & Hin & Hs).
      exists s. split; [apply in_or_app; left; exact Hin | exact Hs].
Qed.

Lemma well_formed_exec (m : mutation) (self : t) :
  links_safe m = true -> well_formed self -> well_formed (exec m self).
Proof.
  intros Hsafe (Hnodup & Hentries & Hindex).
  unfold well_formed. rewrite exec_keys, exec_sessions_by_code.
  split; [exact Hnodup |]. split.
  - intros k s' Hin.
    destruct (exec_entry m self k s' Hsafe Hin)
      as (s & Hs & Hid & Hcode & Hitems & Hps).
    destruct (Hentries k s Hs) as (H1 & H2 & H3 & H4 & H5 & H6).
    rewrite Hid, Hcode. repeat (split; [assumption |]).
    split; [| split; [| exact H6]].
    + intros item' Hin'. destruct (Hitems item' Hin') as [H | (item & Hi & ->)];
        [exact H | auto].
    + intros p' Hin'. destruct (Hps p' Hin') as [H | (p & Hp & ->)];
        [exact H | auto].
  - intros code k Hcode.
    destruct (Hindex code k Hcode) as (s & Hs & Hc).
    apply In_dict_get in Hs; [| exact Hnodup].
    destruct (exec_get m self k s Hs) as (s' & Hs' & _).
    apply dict_get_In in Hs'. exists s'. split; [exact Hs' |].
    destruct (exec_entry m self k s' Hsafe Hs') as (s0 & Hs0 & _ & Hcode0 & _).
    apply In_dict_get in Hs0; [| exact Hnodup].
    rewrite Hs in Hs0. injection Hs0 as <-. congruence.
Qed.

(** In a well-formed store [delete_session] finds the code it deletes. *)
Lemma well_formed_delete_result (session_id : string) (self : t) :
  well_formed self ->
  delete_session session_id self =
  match get_session session_id self with
  | None => (Ok false, self)
  | Some session =>
      (Ok true,
       {| sessions := dict_del session_id (sessions self);
          sessions_by_code :=
            delete (Session.sessionCode session) (sessions_by_code self);
          receipts := receipts self |})
  end.
Proof.
  intros (_ & Hentries & _). unfold delete_session, get_session.
  destruct (dict_get session_id (sessions self)) as [session|] eqn:Hs;
    [| reflexivity].
  cbn. destruct (Hentries _ _ (dict_get_In _ _ _ Hs)) as (_ & _ & _ & _ & _ & H).
  rewrite H. reflexivity.
Qed.

Lemma well_formed_delete (session_id : string) (self : t) :
  well_formed self -> well_formed (snd (delete_session session_id self)).
Proof.
  intros Hwf. rewrite (well_formed_delete_result _ _ Hwf).
  unfold get_session.
  destruct (dict_get session_id (sessions self)) as [session|] eqn:Hs;
    [| exact Hwf].
  destruct Hwf as (Hnodup & Hentries & Hindex). cbn.
  pose proof (dict_get_In _ _ _ Hs) as Hin0.
  destruct (Hentries _ _ Hin0) as (_ & _ & _ & _ & _ & Hcode0).
  split; [apply dict_del_keys_NoDup; exact Hnodup |]. split; cbn.
  - intros k s Hin. apply dict_del_In in Hin. destruct Hin as [Hin Hne].
    destruct (Hentries k s Hin) as (H1 & H2 & H3 & H4 & H5 & H6).
    repeat (split; [assumption |]).
    rewrite lookup_delete_ne; [exact H6 |].
    intros Heq. rewrite Heq, H6 in Hcode0. congruence.
  - intros code k Hcode.
    destruct (String.eqb_spec code (Session.sessionCode session)) as [-> | Hne].
    + rewrite lookup_delete_eq in Hcode. discriminate.
    + rewrite lookup_delete_ne in Hcode by congruence.
      destruct (Hindex code k Hcode) as (s & Hin & Hc).
      exists s. split; [| exact Hc]. apply dict_del_In. split; [exact Hin |].
      intros ->. apply In_dict_get in Hin; [| exact Hnodup].
      rewrite Hs in Hin. injection Hin as <-. congruence.
Qed.

(** Every store the operations build is well formed. *)
Lemma reachable_well_formed_inv (self : t) : reachable self -> well_formed self.
Proof.
  induction 1 as [| ? ? ? ? ? ? ? ? ? ? _ IH Hfresh Hcreate
                  | m self _ IH Hsafe | session_id self _ IH].
  - apply well_formed_init.
  - apply (well_formed_create _ _ _ _ _ _ _ _ _ _ IH Hfresh Hcreate).
  - apply well_formed_exec; assumption.
  - apply well_formed_delete. exact IH.
Qed.

End InvariantFacts.

(** ** Stores built by the operations *)

Section ReachableFacts.

Import SessionManager Api.

Lemma store_one_session_reachable : reachable store_one_session.
Proof.
  destruct (create_session 1 colliding_rng 0 1 10
              (SessionCreate.mk None None 0 0 0 0) __init__)
    as [[[s st] p]|] eqn:H; [| vm_compute in H; discriminate].
  assert (Hst : store_one_session = st)
    by (unfold store_one_session; rewrite H; reflexivity).
  rewrite Hst. exact (reach_create _ _ _ _ _ _ _ _ _ _ reach_init eq_refl H).
Qed.

Lemma store_one_item_reachable : reachable store_one_item.
Proof.
  exact (reach_mutation (AddItem session1_id 2 20 pizza) store_one_session
           store_one_session_reachable eq_refl).
Qed.

Lemma store_one_assignment_reachable : reachable store_one_assignment.
Proof.
  exact (reach_mutation (AddAssignment 3 30 (assignment_for "nobody"))
           store_one_item store_one_item_reachable eq_refl).
Qed.

Lemma well_formed_by_id (self : t) (k : string) (s : Session.t) :
  well_formed self ->
  get_session k self = Some s ->
  Session.id s = k /\ valid_code (Session.sessionCode s) /\
  sessions_by_code self !! Session.sessionCode s = Some k /\
  get_session_by_code (Session.sessionCode s) self = Some s.
Proof.
  intros (_ & Hentries & _) Hs. unfold get_session in Hs.
  destruct (Hentries k s (dict_get_In _ _ _ Hs)) as (H1 & H2 & H3 & _ & _ & H6).
  split; [exact H1 |]. split; [exact H3 |]. split; [exact H6 |].
  unfold get_session_by_code. rewrite H6.
  apply String.eqb_neq in H2. rewrite H2. exact Hs.
Qed.

Lemma well_formed_by_code (self : t) (code : string) (s : Session.t) :
  well_formed self ->
  get_session_by_code code self = Some s ->
  Session.sessionCode s = code /\ get_session (Session.id s) self = Some s.
Proof.
  intros (Hnodup & Hentries & Hindex). unfold get_session_by_code, get_session.
  destruct (sessions_by_code self !! code) as [k|] eqn:Hk; [| discriminate].
  destruct (String.eqb k ""); [discriminate |]. intros Hs.
  destruct (Hindex code k Hk) as (s0 & Hin & Hc).
  apply In_dict_get in Hin; [| exact Hnodup].
  rewrite Hs in Hin. injection Hin as <-.
  destruct (Hentries k s (dict_get_In _ _ _ Hs)) as (-> & _).
  auto.
Qed.

(** X11. In every store built from the empty one by creating sessions
    under unused ids, deleting sessions and mutations whose update dicts
    leave the links alone, the two lookups agree: a live session sits under
    its own [id], has a 6-character code over the population, and is what
    its code finds; what a code finds carries that code and is live under
    its id; and two live sessions with the same code are the same
    session. *)
Theorem reachable_lookups_agree (self : t) :
  reachable self ->
  (forall k s,
     get_session k self = Some s ->
     Session.id s = k /\ valid_code (Session.sessionCode s) /\
     get_session_by_code (Session.sessionCode s) self = Some s) /\
  (forall code s,
     get_session_by_code code self = Some s ->
     Session.sessionCode s = code /\
     get_session (Session.id s) self = Some s) /\
  (forall k1 k2 s1 s2,
     get_session k1 self = Some s1 -> get_session k2 self = Some s2 ->
     Session.sessionCode s1 = Session.sessionCode s2 -> k1 = k2).
Proof.
  intros Hr. pose proof (reachable_well_formed_inv self Hr) as Hwf.
  split; [| split].
  - intros k s Hs.
    destruct (well_formed_by_id self k s Hwf Hs) as (H1 & H2 & _ & H4). auto.
  - intros code s. apply well_formed_by_code. exact Hwf.
  - intros k1 k2 s1 s2 H1 H2 Hcode.
    destruct (well_formed_by_id self k1 s1 Hwf H1) as (_ & _ & Hi1 & _).
    destruct (well_formed_by_id self k2 s2 Hwf H2) as (_ & _ & Hi2 & _).
    rewrite Hcode, Hi2 in Hi1. congruence.
Qed.

Lemma reachable_lookups_agree_witness :
  exists s,
    get_session session1_id store_one_assignment = Some s /\
    get_session_by_code (Session.sessionCode s) store_one_assignment = Some s.
Proof.
  destruct (get_session session1_id store_one_assignment) as [s|] eqn:Hs;
    [| vm_compute in Hs; discriminate].
  exists s. split; [reflexivity |].
  apply (proj1 (reachable_lookups_agree store_one_assignment
                  store_one_assignment_reachable) session1_id s Hs).
Defined.

(** X12. In such a store [delete_session] never raises: it returns [True]
    for a live id and [False] otherwise. Afterwards the id and the code of
    the deleted session find nothing and the code is free again, while
    every other live session is still found by its id and by its code. *)
Theorem reachable_delete_session (self : t) (session_id : string) :
  reachable self ->
  exists self',
    delete_session session_id self =
      (Ok (match get_session session_id self with
           | Some _ => true
           | None => false
           end), self') /\
    reachable self' /\
    get_session session_id self' = None /\
    (forall s,
       get_session session_id self = Some s ->
       get_session_by_code (Session.sessionCode s) self' = None /\
       code_is_free self' (Session.sessionCode s) = true) /\
    (forall k s,
       k <> session_id -> get_session k self = Some s ->
       get_session k self' = Some s /\
       get_session_by_code (Session.sessionCode s) self' = Some s).
Proof.
  intros Hr. pose proof (reachable_well_formed_inv self Hr) as Hwf.
  pose proof (reach_delete session_id self Hr) as Hr'.
  pose proof (reachable_well_formed_inv _ Hr') as Hwf'.
  exists (snd (delete_session session_id self)).
  split; [rewrite (well_formed_delete_result _ _ Hwf);
          destruct (get_session session_id self); reflexivity |].
  split; [exact Hr' |].
  assert (Hget : forall k, get_session k (snd (delete_session session_id self))
                           = if String.eqb k session_id then None
                             else get_session k self).
  { intros k. rewrite (well_formed_delete_result _ _ Hwf). unfold get_session.
    destruct (String.eqb_spec k session_id) as [-> | Hne].
    - destruct (dict_get session_id (sessions self)) eqn:Hs; cbn;
        [apply dict_get_del_eq | exact Hs].
    - destruct (dict_get session_id (sessions self)) eqn:Hs; cbn;
        [apply dict_get_del_ne; exact Hne | reflexivity]. }
  split; [rewrite Hget, String.eqb_refl; reflexivity |]. split.
  - intros s Hs. rewrite (well_formed_delete_result _ _ Hwf), Hs.
    unfold get_session_by_code, code_is_free. cbn.
    rewrite lookup_delete_eq. auto.
  - intros k s Hne Hs.
    assert (Hs' : get_session k (snd (delete_session session_id self)) = Some s).
    { rewrite Hget. apply String.eqb_neq in Hne. rewrite Hne. exact Hs. }
    split; [exact Hs' |].
    apply (well_formed_by_id _ k s Hwf' Hs').
Qed.

Lemma reachable_delete_session_witness :
  exists self',
    delete_session session1_id store_one_assignment = (Ok true, self') /\
    get_session_by_code "AAAAAA" self' = None /\
    get_item item1_id self' = None.
Proof.
  destruct (reachable_delete_session store_one_assignment session1_id
              store_one_assignment_reachable)
    as (self' & Hdel & _ & _ & Hcode & _).
  exists self'. split; [exact Hdel |].
  split.
  - apply (Hcode (match get_session session1_id store_one_assignment with
                  | Some s => s
                  | None => Session.mk None None 0 0 0 0 "" "" None active 0 0
                              [] [] []
                  end)). reflexivity.
  - vm_compute in Hdel. injection Hdel as <-. reflexivity.
Defined.

(** X13. In such a store every item that [get_item] finds names the live
    session that holds it, so [add_assignment] fails only for an unknown
    item: for an item that is found, the assignment is created with the
    generated id and appended to the session holding the item, whose
    [updatedAt] becomes the clock reading. *)
Theorem reachable_add_assignment (r : N) (now : datetime)
    (data : ItemAssignmentCreate.t) (self : t) :
  reachable self ->
  (get_item (ItemAssignmentCreate.itemId data) self = None <->
   fst (add_assignment r now data self) = None) /\
  (forall item,
     get_item (ItemAssignmentCreate.itemId data) self = Some item ->
     exists session,
       get_session (BillItem.sessionId item) self = Some session /\
       In item (Session.items session) /\
       add_assignment r now data self =
       (Some (ItemAssignment.mk (ItemAssignmentCreate.itemId data)
                (ItemAssignmentCreate.participantId data)
                (ItemAssignmentCreate.splitPercentage data)
                (ItemAssignmentCreate.amount data) (_generate_id r)),
        with_sessions
          (dict_set (BillItem.sessionId item)
             (SessionAttr.set_updatedAt now
                (SessionAttr.set_assignments
                   (Session.assignments session ++
                    [ItemAssignment.mk (ItemAssignmentCreate.itemId data)
                       (ItemAssignmentCreate.participantId data)
                       (ItemAssignmentCreate.splitPercentage data)
                       (ItemAssignmentCreate.amount data) (_generate_id r)])
                   session))
             (sessions self))
          self)).
Proof.
  intros Hr. pose proof (reachable_well_formed_inv self Hr) as Hwf.
  assert (Hsome : forall item,
            get_item (ItemAssignmentCreate.itemId data) self = Some item ->
            exists session,
              get_session (BillItem.sessionId item) self = Some session /\
              In item (Session.items session)).
  { intros item Hitem.
    destruct (get_item_Some _ _ _ Hitem) as (k & s & Hin & Hi & _).
    destruct Hwf as (Hnodup & Hentries & _).
    destruct (Hentries k s Hin) as (_ & _ & _ & Hitems & _).
    rewrite (Hitems item Hi). exists s. split; [| exact Hi].
    apply In_dict_get; assumption. }
  split.
  - split.
    + intros Hnone. unfold add_assignment. rewrite Hnone. reflexivity.
    + destruct (get_item (ItemAssignmentCreate.itemId data) self)
        as [item|] eqn:Hitem; [| reflexivity].
      destruct (Hsome item eq_refl) as (session & Hs & _).
      rewrite (add_assignment_Some r now data self item session Hitem Hs).
      discriminate.
  - intros item Hitem. destruct (Hsome item Hitem) as (session & Hs & Hi).
    exists session. split; [exact Hs |]. split; [exact Hi |].
    apply add_assignment_Some; assumption.
Qed.

Lemma reachable_add_assignment_witness :
  exists a self',
    add_assignment 9 33 (assignment_for "ann") store_one_assignment =
      (Some a, self') /\
    ItemAssignment.participantId a = "ann".
Proof.
  destruct (get_item item1_id store_one_assignment) as [item|] eqn:Hitem;
    [| vm_compute in Hitem; discriminate].
  destruct (proj2 (reachable_add_assignment 9 33 (assignment_for "ann")
                     store_one_assignment store_one_assignment_reachable)
              item Hitem) as (session & _ & _ & Hadd).
  eexists. eexists. split; [exact Hadd | reflexivity].
Defined.

Lemma create_assignments_reachable (ids : nat -> N) (clock : nat -> datetime)
    (itemId : string) (sp amount : float) (participantIds : list string) :
  forall i acc (self : t),
    reachable self ->
    reachable
      (snd (SessionsRoutes.create_assignments ids clock i itemId
              participantIds sp amount acc self)).
Proof.
  induction participantIds as [|pid rest IH]; intros i acc self Hr;
    cbn [SessionsRoutes.create_assignments]; [exact Hr |].
  pose proof (reach_mutation
                (AddAssignment (ids i) (clock i)
                   (ItemAssignmentCreate.mk itemId pid sp amount))
                self Hr eq_refl) as Hr1.
  cbn [exec] in Hr1.
  destruct (add_assignment (ids i) (clock i)
              (ItemAssignmentCreate.mk itemId pid sp amount) self)
    as [[a|] self1]; apply IH; exact Hr1.
Qed.

(** X24. In a store built by the operations POST /items/assign succeeds
    for every item that is found and every non-empty list of participant
    ids, when the two float computations are defined: it creates one
    assignment per id, in order, each for the requested item with the
    computed percentage and amount, appends them to the session that
    holds the item, and leaves a store built by the operations. *)
Theorem reachable_assign_item (ids : nat -> N) (clock : nat -> datetime)
    (data : AssignItemRequest.t) (self : t) (item : BillItem.t)
    (sp amount : float) :
  reachable self ->
  get_item (AssignItemRequest.itemId data) self = Some item ->
  AssignItemRequest.participantIds data <> [] ->
  SessionsRoutes.split_percentage
    (length (AssignItemRequest.participantIds data))
    (AssignItemRequest.splitEqually data) = Ok sp ->
  SessionsRoutes.amount_per_person item sp = Ok amount ->
  exists assignments self' session session',
    SessionsRoutes.assign_item ids clock data self = (Ok assignments, self') /\
    map ItemAssignment.participantId assignments =
      AssignItemRequest.participantIds data /\
    List.Forall (fun a => ItemAssignment.splitPercentage a = sp /\
                          ItemAssignment.amount a = amount /\
                          ItemAssignment.itemId a = AssignItemRequest.itemId data)
      assignments /\
    get_session (BillItem.sessionId item) self = Some session /\
    In item (Session.items session) /\
    get_session (BillItem.sessionId item) self' = Some session' /\
    Session.assignments session' = Session.assignments session ++ assignments /\
    reachable self'.
Proof.
  intros Hr Hitem Hpids Hsp Hamount.
  pose proof (reachable_well_formed_inv self Hr) as (Hnodup & Hentries & _).
  destruct (get_item_Some _ _ _ Hitem) as (k & session & Hin & Hi & _).
  destruct (Hentries k session Hin) as (_ & _ & _ & Hitems & _).
  assert (Hs : get_session (BillItem.sessionId item) self = Some session).
  { rewrite (Hitems item Hi). apply In_dict_get; assumption. }
  destruct (create_assignments_spec ids clock (AssignItemRequest.itemId data)
              sp amount item (AssignItemRequest.participantIds data)
              0%nat [] self session Hitem Hs)
    as (self' & session' & Hrun & Hs' & Hassign & _).
  destruct (expected_assignments_facts ids (AssignItemRequest.itemId data)
              sp amount (AssignItemRequest.participantIds data) 0%nat)
    as (_ & Hmap & Hall).
  pose proof (create_assignments_reachable ids clock
                (AssignItemRequest.itemId data) sp amount
                (AssignItemRequest.participantIds data) 0%nat [] self Hr)
    as Hr'.
  rewrite Hrun in Hr'. cbn [snd] in Hr'.
  exists (expected_assignments ids 0 (AssignItemRequest.itemId data)
            (AssignItemRequest.participantIds data) sp amount),
         self', session, session'.
  split; [| auto 10].
  unfold SessionsRoutes.assign_item. rewrite Hitem.
  destruct (AssignItemRequest.participantIds data) as [|pid rest] eqn:Hp;
    [contradiction |].
  cbn [length Nat.eqb]. rewrite <- Hp in *. rewrite Hp in Hsp.
  cbn [length] in Hsp. rewrite Hsp. cbn [rbind]. rewrite Hamount.
  cbn [rbind]. rewrite Hrun. reflexivity.
Qed.

Lemma reachable_assign_item_witness :
  exists assignments self',
    SessionsRoutes.assign_item ids_from_100 clock_from_40 three_way
      store_one_participant = (Ok assignments, self') /\
    map ItemAssignment.participantId assignments = ["ann"; "bob"; "cy"] /\
    reachable self'.
Proof.
  destruct (get_item item1_id store_one_participant) as [item|] eqn:Hitem;
    [| vm_compute in Hitem; discriminate].
  destruct (SessionsRoutes.split_percentage 3 true) as [sp|e] eqn:Hsp;
    [| vm_compute in Hsp; discriminate].
  destruct (SessionsRoutes.amount_per_person item sp) as [amount|e] eqn:Ha.
  - destruct (reachable_assign_item ids_from_100 clock_from_40 three_way
                store_one_participant item sp amount)
      as (assignments & self' & _ & _ & Hrun & Hmap & _ & _ & _ & _ & _ & Hr');
      [| exact Hitem | discriminate | exact Hsp | exact Ha |].
    + exact (reach_mutation (AddParticipant session1_id 4 31 32 ann)
               store_one_assignment store_one_assignment_reachable eq_refl).
    + exists assignments, self'. auto.
  - exfalso. vm_compute in Hitem. injection Hitem as <-.
    vm_compute in Hsp. injection Hsp as <-. vm_compute in Ha. discriminate.
Defined.

End ReachableFacts.

(** ** Joining, completing and paying *)

Section RouteFacts.

Import SessionManager Api.

Lemma join_session_live (data : JoinSessionRequest.t) (r : N)
    (now_joined now : datetime) (self : t) (k : string) (s : Session.t) :
  well_formed self ->
  get_session k self = Some s ->
  upper (JoinSessionRequest.sessionCode data) = Session.sessionCode s ->
  SessionsRoutes.join_session data r now_joined now self =
  (Ok (JoinSessionResponse.mk
         (SessionAttr.set_updatedAt now
            (SessionAttr.set_participants
               (Session.participants s ++
                [Participant.mk None (JoinSessionRequest.guestName data) 0 0
                   pending (_generate_id r) k now_joined])
               s))
         (Participant.mk None (JoinSessionRequest.guestName data) 0 0
            pending (_generate_id r) k now_joined)),
   exec (AddParticipant k r now_joined now
           (ParticipantCreate.mk None (JoinSessionRequest.guestName data) 0 0
              pending))
        self).
Proof.
  intros Hwf Hs Hcode.
  destruct (well_formed_by_id self k s Hwf Hs) as (Hid & _ & Hidx & Hby).
  destruct Hwf as (_ & Hentries & _).
  unfold get_session in Hs.
  destruct (Hentries k s (dict_get_In _ _ _ Hs)) as (_ & Hne & _).
  apply String.eqb_neq in Hne.
  unfold SessionsRoutes.join_session. rewrite Hcode, Hby, Hid.
  cbn [exec]. unfold add_participant. rewrite Hs. cbn [snd].
  unfold get_session_by_code. cbn [sessions_by_code sessions with_sessions].
  rewrite Hidx, Hne, dict_get_set_eq. reflexivity.
Qed.

(** X14. POST /join answers 404 and changes nothing when the code, put in
    upper case, finds no session. In a store built by the operations, a
    guest who sends the code of a live session in any casing joins that
    session: a participant with the given guest name, no user id, amounts
    [0.0], status [pending], the generated id, the session's id and the
    first clock reading is appended last; the response carries that
    participant and the session as it is after the call, and the store
    that results is again one built by the operations. *)
Theorem join_session_adds_guest (data : JoinSessionRequest.t) (r : N)
    (now_joined now : datetime) (self : t) :
  (get_session_by_code (upper (JoinSessionRequest.sessionCode data)) self = None ->
   SessionsRoutes.join_session data r now_joined now self =
   (Raise (HTTPException HTTP_404_NOT_FOUND), self)) /\
  (reachable self ->
   forall k s,
     get_session k self = Some s ->
     upper (JoinSessionRequest.sessionCode data) = Session.sessionCode s ->
     exists session' participant self',
       SessionsRoutes.join_session data r now_joined now self =
         (Ok (JoinSessionResponse.mk session' participant), self') /\
       participant =
         Participant.mk None (JoinSessionRequest.guestName data) 0 0 pending
           (_generate_id r) k now_joined /\
       session' =
         SessionAttr.set_updatedAt now
           (SessionAttr.set_participants
              (Session.participants s ++ [participant]) s) /\
       get_session k self' = Some session' /\
       sessions_by_code self' = sessions_by_code self /\
       reachable self').
Proof.
  split.
  - intros Hnone. unfold SessionsRoutes.join_session. rewrite Hnone.
    reflexivity.
  - intros Hr k s Hs Hcode.
    pose proof (reachable_well_formed_inv self Hr) as Hwf.
    rewrite (join_session_live data r now_joined now self k s Hwf Hs Hcode).
    eexists. eexists. eexists. split; [reflexivity |].
    split; [reflexivity |]. split; [reflexivity |].
    split; [| split].
    + cbn [exec]. unfold add_participant, get_session in *. rewrite Hs.
      cbn. apply dict_get_set_eq.
    + apply exec_sessions_by_code.
    + apply reach_mutation; [exact Hr | reflexivity].
Qed.

Lemma join_session_adds_guest_witness :
  exists session' participant self',
    SessionsRoutes.join_session
      (JoinSessionRequest.mk "aaaAAa" (Some "Bob")) 11 43 44
      store_one_assignment =
      (Ok (JoinSessionResponse.mk session' participant), self') /\
    Participant.guestName participant = Some "Bob" /\
    Session.participants session' = [participant].
Proof.
  destruct (get_session session1_id store_one_assignment) as [s|] eqn:Hs;
    [| vm_compute in Hs; discriminate].
  assert (Hcode : upper "aaaAAa" = Session.sessionCode s).
  { vm_compute in Hs. injection Hs as <-. reflexivity. }
  destruct (proj2 (join_session_adds_guest
                     (JoinSessionRequest.mk "aaaAAa" (Some "Bob")) 11 43 44
                     store_one_assignment)
              store_one_assignment_reachable session1_id s Hs Hcode)
    as (session' & participant & self' & Hjoin & Hp & Hs' & _).
  exists session', participant, self'. split; [exact Hjoin |].
  split; [rewrite Hp; reflexivity |].
  rewrite Hs'. vm_compute in Hs. injection Hs as <-. reflexivity.
Defined.

(** X15. POST /{session_id}/complete answers 404 and changes nothing for
    an id that is not live. For a live session it sets [status] to
    [completed] and [updatedAt] to the clock reading, keeps every other
    field and the code index, and returns the session. Completion closes
    nothing: in a store built by the operations the code of the completed
    session still admits a guest, and the session stays [completed] with
    one participant more. *)
Theorem complete_session_keeps_open (session_id : string) (now : datetime)
    (self : t) :
  (get_session session_id self = None ->
   SessionsRoutes.complete_session session_id now self =
   (Raise (HTTPException HTTP_404_NOT_FOUND), self)) /\
  (forall s,
     get_session session_id self = Some s ->
     exists self',
       SessionsRoutes.complete_session session_id now self =
         (Ok (SessionAttr.set_updatedAt now
                (SessionAttr.set_status completed s)), self') /\
       get_session session_id self' =
         Some (SessionAttr.set_updatedAt now
                 (SessionAttr.set_status completed s)) /\
       sessions_by_code self' = sessions_by_code self /\
       (forall k, k <> session_id ->
                  get_session k self' = get_session k self) /\
       (reachable self ->
        forall data r now_joined now',
          upper (JoinSessionRequest.sessionCode data) = Session.sessionCode s ->
          exists response self'',
            SessionsRoutes.join_session data r now_joined now' self' =
              (Ok response, self'') /\
            Session.status (JoinSessionResponse.session response) = completed /\
            Session.participants (JoinSessionResponse.session response) =
              Session.participants s ++
              [JoinSessionResponse.participant response])).
Proof.
  unfold SessionsRoutes.complete_session, update_session, get_session. split.
  - intros ->. reflexivity.
  - intros s Hs. rewrite Hs. eexists. split; [reflexivity |].
    cbn [sessions with_sessions sessions_by_code].
    split; [apply dict_get_set_eq |]. split; [reflexivity |].
    split; [intros k Hne; apply dict_get_set_ne; exact Hne |].
    intros Hr data r now_joined now' Hcode.
    set (s' := SessionAttr.set_updatedAt now
                 (SessionAttr.apply_updates [SessionAttr.Set_status completed]
                    s)).
    set (self' := with_sessions (dict_set session_id s' (sessions self)) self).
    assert (Hr' : reachable self').
    { assert (Hexec : self' =
                exec (UpdateSession session_id
                        [SessionAttr.Set_status completed] now) self).
      { cbn [exec]. unfold update_session. rewrite Hs. reflexivity. }
      rewrite Hexec. apply reach_mutation; [exact Hr | reflexivity]. }
    assert (Hs' : get_session session_id self' = Some s')
      by apply dict_get_set_eq.
    rewrite (join_session_live data r now_joined now' self' session_id s'
               (reachable_well_formed_inv _ Hr') Hs' Hcode).
    eexists. eexists. split; [reflexivity |]. cbn. auto.
Qed.

Lemma complete_session_keeps_open_witness :
  exists s self' response self'',
    SessionsRoutes.complete_session session1_id 50 store_one_assignment =
      (Ok s, self') /\
    Session.status s = completed /\
    SessionsRoutes.join_session (JoinSessionRequest.mk "AAAAAA" None) 12 51 52
      self' = (Ok response, self'') /\
    Session.status (JoinSessionResponse.session response) = completed.
Proof.
  destruct (get_session session1_id store_one_assignment) as [s|] eqn:Hs;
    [| vm_compute in Hs; discriminate].
  assert (Hcode : upper "AAAAAA" = Session.sessionCode s).
  { vm_compute in Hs. injection Hs as <-. reflexivity. }
  destruct (proj2 (complete_session_keeps_open session1_id 50
                     store_one_assignment) s Hs)
    as (self' & Hdone & _ & _ & _ & Hjoin).
  destruct (Hjoin store_one_assignment_reachable
              (JoinSessionRequest.mk "AAAAAA" None) 12%N 51 52 Hcode)
    as (response & self'' & Hj & Hstatus & _).
  eexists. exists self', response, self''.
  split; [exact Hdone |]. split; [reflexivity |]. split; [exact Hj |].
  exact Hstatus.
Defined.

(** X16. POST /participants/{participant_id}/mark-paid answers 404 and
    changes nothing when no session has a participant with the id.
    Otherwise it takes the first such participant of the first session
    that has one, sets its [paymentStatus] to [paid] and nothing else
    ([amountPaid] and [amountOwed] stay), sets [updatedAt] of that session
    to the clock reading, and returns the participant. *)
Theorem mark_participant_paid_sets_status (participant_id : string)
    (now : datetime) (self : t) :
  ((forall k s p,
      In (k, s) (sessions self) -> In p (Session.participants s) ->
      Participant.id p <> participant_id) ->
   SessionsRoutes.mark_participant_paid participant_id now self =
   (Raise (HTTPException HTTP_404_NOT_FOUND), self)) /\
  (forall k0 s0 p0,
     In (k0, s0) (sessions self) -> In p0 (Session.participants s0) ->
     Participant.id p0 = participant_id ->
     exists d1 k s d2 l1 p l2,
       sessions self = d1 ++ (k, s) :: d2 /\
       Session.participants s = l1 ++ p :: l2 /\
       Participant.id p = participant_id /\
       (forall k' s' p',
          In (k', s') d1 -> In p' (Session.participants s') ->
          Participant.id p' <> participant_id) /\
       (forall p', In p' l1 -> Participant.id p' <> participant_id) /\
       SessionsRoutes.mark_participant_paid participant_id now self =
       (Ok (ParticipantAttr.set_paymentStatus paid p),
        with_sessions
          (d1 ++
           (k, SessionAttr.set_updatedAt now
                 (SessionAttr.set_participants
                    (l1 ++ ParticipantAttr.set_paymentStatus paid p :: l2) s))
           :: d2)
          self)).
Proof.
  unfold SessionsRoutes.mark_participant_paid, update_participant.
  match goal with
  | |- context [alter_in_values ?g ?d] =>
      destruct (alter_in_values g d) as [[r0 d']|] eqn:Ha
  end.
  - destruct (alter_in_values_split _ _ _ _ Ha)
      as (d1 & k & s & s' & d2 & Hd & -> & Hg & Hn).
    destruct (alter_first _ _ (Session.participants s)) as [[y ys]|] eqn:Hf;
      [| discriminate].
    injection Hg as <- <-.
    destruct (alter_first_split _ _ _ _ _ Hf)
      as (l1 & p & l2 & Hps & -> & -> & _ & Hp & Hl1).
    apply String.eqb_eq in Hp. split.
    + intros Hnone. exfalso. apply (Hnone k s p); [| | exact Hp].
      * rewrite Hd. apply in_or_app. right. left. reflexivity.
      * rewrite Hps. apply in_or_app. right. left. reflexivity.
    + intros _ _ _ _ _ _. exists d1, k, s, d2, l1, p, l2.
      split; [exact Hd |]. split; [exact Hps |]. split; [exact Hp |].
      split; [| split; [| reflexivity]].
      * intros k' s' p' Hin Hin'. pose proof (Hn k' s' Hin) as H0.
        destruct (alter_first _ _ (Session.participants s')) as [[? ?]|] eqn:E0;
          [discriminate |].
        apply alter_first_None in E0. rewrite find_none_iff in E0.
        apply String.eqb_neq. apply E0. exact Hin'.
      * intros p' Hin'. rewrite find_none_iff in Hl1.
        apply String.eqb_neq. apply Hl1. exact Hin'.
  - split; [reflexivity |].
    intros k0 s0 p0 Hin Hin0 Hid. exfalso.
    rewrite alter_in_values_None in Ha. pose proof (Ha k0 s0 Hin) as H0.
    destruct (alter_first _ _ (Session.participants s0)) as [[? ?]|] eqn:E0;
      [discriminate |].
    apply alter_first_None in E0. rewrite find_none_iff in E0.
    specialize (E0 p0 Hin0). apply String.eqb_neq in E0. contradiction.
Qed.

Lemma mark_participant_paid_sets_status_witness :
  exists p self',
    SessionsRoutes.mark_participant_paid participant1_id 60
      store_one_participant = (Ok p, self') /\
    Participant.paymentStatus p = paid /\
    Participant.amountOwed p = 20%float /\
    Participant.amountPaid p = 0%float.
Proof.
  destruct (get_session session1_id store_one_participant) as [s0|] eqn:Hs;
    [| vm_compute in Hs; discriminate].
  destruct (get_participant session1_id participant1_id store_one_participant)
    as [p0|] eqn:Hp; [| vm_compute in Hp; discriminate].
  destruct (proj2 (mark_participant_paid_sets_status participant1_id 60
                     store_one_participant) session1_id s0 p0)
    as (d1 & k & s & d2 & l1 & p & l2 & Hd & Hps & _ & _ & _ & Hpaid).
  - apply dict_get_In. exact Hs.
  - vm_compute in Hs. injection Hs as <-.
    vm_compute in Hp. injection Hp as <-. left. reflexivity.
  - vm_compute in Hp. injection Hp as <-. reflexivity.
  - exists (ParticipantAttr.set_paymentStatus paid p). eexists.
    split; [exact Hpaid |]. split; [reflexivity |].
    vm_compute in Hd. destruct d1 as [|e1 d1].
    + injection Hd as <- <- <-. cbn in Hps. destruct l1 as [|e2 l1].
      * injection Hps as <- <-. split; reflexivity.
      * injection Hps as _ Hps. destruct l1; discriminate.
    + injection Hd as _ Hd. destruct d1; discriminate.
Defined.

End RouteFacts.

(** ** Runs of mutations *)

Section RunFacts.

Import SessionManager Api.

(** X17. The mutations of participants, items and assignments and the
    generic session update, with any arguments and in any number, never
    create, remove or reorder sessions, never touch the code index and
    never touch the receipts. *)
Theorem mutations_frame (ms : list mutation) (self : t) :
  map fst (sessions (exec_all ms self)) = map fst (sessions self) /\
  sessions_by_code (exec_all ms self) = sessions_by_code self /\
  receipts (exec_all ms self) = receipts self.
Proof.
  revert self. induction ms as [|m ms IH]; intros self; cbn; [auto |].
  destruct (IH (exec m self)) as (Hk & Hc & Hr). unfold exec_all in *.
  rewrite Hk, Hc, Hr, exec_keys, exec_sessions_by_code, exec_receipts. auto.
Qed.



End RunFacts.

(** ** Uploading and scanning receipts *)

Section UploadFacts.

Import SessionManager ReceiptParser.

Lemma bytes_startswith_spec (p d : list byte) :
  bytes_startswith p d = true <-> exists rest, d = p ++ rest.
Proof.
  revert d. induction p as [|b p IH]; intros d; cbn.
  - split; [eauto | reflexivity].
  - destruct d as [|c d].
    + split; [discriminate | intros [rest [=]]].
    + rewrite andb_true_iff, IH. split.
      * intros [Hb [rest ->]]. apply byte_dec_bl in Hb. subst c. eauto.
      * intros [rest [= -> ->]]. split; [apply byte_dec_lb; reflexivity | eauto].
Qed.

Lemma bytes_contains_spec (n d : list byte) :
  bytes_contains n d = true <-> exists pre post, d = pre ++ n ++ post.
Proof.
  induction d as [|c d IH]; cbn [bytes_contains]; rewrite orb_true_iff.
  - rewrite bytes_startswith_spec. split.
    + intros [[rest H] | [=]]. exists [], rest. exact H.
    + intros (pre & post & H). left. destruct pre; [eauto | discriminate].
  - rewrite bytes_startswith_spec, IH. split.
    + intros [[rest H] | (pre & post & ->)].
      * exists [], rest. exact H.
      * exists (c :: pre), post. reflexivity.
    + intros (pre & post & H). destruct pre as [|c' pre].
      * left. eauto.
      * right. injection H as _ ->. eauto.
Qed.

Lemma bytes_startswith_firstn (p : list byte) : forall n d,
  (length p <= n)%nat ->
  bytes_startswith p (firstn n d) = bytes_startswith p d.
Proof.
  induction p as [|b p IH]; intros n d Hn; cbn; [reflexivity |].
  cbn in Hn. destruct n as [|n]; [lia |].
  destruct d as [|c d]; cbn; [reflexivity |].
  rewrite IH by lia. reflexivity.
Qed.

Lemma append_image_ne (s : string) : (s ++ "_image")%string <> s.
Proof.
  induction s as [|a s IH]; cbn; [discriminate |].
  intros [= H]. contradiction.
Qed.

Lemma prefix_not_empty (ct : string) :
  String.prefix "image/" ct = true -> String.eqb ct "" = false.
Proof. destruct ct; [discriminate | reflexivity]. Qed.

(** X19. [_detect_media_type] looks at the first 12 bytes only and has
    three answers. It answers ["image/png"] exactly for data that begins
    with the PNG signature, and ["image/webp"] exactly for data that
    begins with RIFF and has WEBP in the 8 bytes after it (a RIFF header,
    at most 4 bytes, then WEBP). Everything else is ["image/jpeg"], also
    the empty input. *)
Theorem detect_media_type_magic (image_data : list byte) :
  (_detect_media_type image_data = "image/png" <->
   exists rest, image_data = PNG_MAGIC ++ rest) /\
  (_detect_media_type image_data = "image/webp" <->
   exists pre rest,
     (length pre <= 4)%nat /\
     image_data = RIFF_MAGIC ++ pre ++ WEBP_MAGIC ++ rest) /\
  (_detect_media_type image_data = "image/jpeg" \/
   _detect_media_type image_data = "image/png" \/
   _detect_media_type image_data = "image/webp") /\
  _detect_media_type (firstn 12 image_data) = _detect_media_type image_data.
Proof.
  assert (Hwebp : bytes_startswith RIFF_MAGIC image_data
                  && bytes_contains WEBP_MAGIC (firstn 12 image_data) = true <->
                  exists pre rest,
                    (length pre <= 4)%nat /\
                    image_data = RIFF_MAGIC ++ pre ++ WEBP_MAGIC ++ rest).
  { rewrite andb_true_iff, bytes_startswith_spec, bytes_contains_spec. split.
    - intros [[rest0 ->] (pre' & post' & Hw)].
      change (firstn 12 (RIFF_MAGIC ++ rest0))
        with (RIFF_MAGIC ++ firstn 8 rest0) in Hw.
      destruct pre' as [|a [|b [|c [|d pre]]]]; try discriminate.
      injection Hw as _ _ _ _ Hw.
      exists pre, (post' ++ skipn 8 rest0). split.
      + pose proof (firstn_le_length 8 rest0) as Hlen.
        rewrite Hw, !length_app in Hlen. cbn in Hlen. lia.
      + rewrite <- (firstn_skipn 8 rest0) at 1. rewrite Hw.
        rewrite <- !app_assoc. reflexivity.
    - intros (pre & rest & Hlen & ->). split; [eauto |].
      exists (RIFF_MAGIC ++ pre), (firstn (8 - length pre - 4) rest).
      change (firstn 12 (RIFF_MAGIC ++ pre ++ WEBP_MAGIC ++ rest))
        with (RIFF_MAGIC ++ firstn 8 (pre ++ WEBP_MAGIC ++ rest)).
      rewrite <- app_assoc. f_equal.
      rewrite firstn_app, (firstn_all2 pre) by lia. f_equal.
      rewrite firstn_app, (firstn_all2 WEBP_MAGIC) by (cbn; lia).
      reflexivity. }
  unfold _detect_media_type.
  rewrite !bytes_startswith_firstn by (cbn; lia).
  rewrite firstn_firstn. change (Nat.min 12 12) with 12%nat.
  destruct (bytes_startswith JPEG_MAGIC image_data) eqn:HJ.
  - apply bytes_startswith_spec in HJ. destruct HJ as [rest0 ->].
    split; [| split; [| auto]].
    + split; [discriminate | intros [rest [=]]].
    + split; [discriminate | intros (pre & rest & _ & [=])].
  - destruct (bytes_startswith PNG_MAGIC image_data) eqn:HP.
    + split; [| split; [| auto]].
      * split; [intros _; apply bytes_startswith_spec; exact HP | reflexivity].
      * apply bytes_startswith_spec in HP. destruct HP as [rest0 ->].
        split; [discriminate | intros (pre & rest & _ & [=])].
    + destruct (bytes_startswith RIFF_MAGIC image_data
                && bytes_contains WEBP_MAGIC (firstn 12 image_data)) eqn:HW.
      * split; [| split; [| auto]].
        -- split; [discriminate |]. intros H.
           apply bytes_startswith_spec in H. congruence.
        -- split; [intros _; apply Hwebp; reflexivity | reflexivity].
      * split; [| split; [| auto]].
        -- split; [discriminate |]. intros H.
           apply bytes_startswith_spec in H. congruence.
        -- split; [discriminate |]. intros H. apply Hwebp in H. discriminate.
Qed.

(** X20. POST /upload looks at the declared content type only: it answers
    400 and changes nothing exactly when the type is absent or does not
    start with ["image/"]. Otherwise, whatever the bytes are, it stores
    them under ["<id>_image"] for the generated id, returns that id with
    the URL ["/uploads/<id>.jpg"], and leaves the sessions, the code index
    and every other receipt entry alone. *)
Theorem upload_receipt_checks_type (content_type : option string)
    (image_data : list byte) (r : N) (self : t) :
  ((forall ct, content_type = Some ct -> String.prefix "image/" ct = false) ->
   ReceiptsRoutes.upload_receipt content_type image_data r self =
   (Raise (HTTPException HTTP_400_BAD_REQUEST), self)) /\
  (forall ct,
     content_type = Some ct -> String.prefix "image/" ct = true ->
     exists self',
       ReceiptsRoutes.upload_receipt content_type image_data r self =
       (Ok (UploadReceiptResponse.mk (_generate_id r)
              ("/uploads/" ++ _generate_id r ++ ".jpg")%string), self') /\
       get_receipt (_generate_id r ++ "_image")%string self' =
         Some (ImageData image_data) /\
       (forall k, k <> (_generate_id r ++ "_image")%string ->
                  get_receipt k self' = get_receipt k self) /\
       sessions self' = sessions self /\
       sessions_by_code self' = sessions_by_code self).
Proof.
  unfold ReceiptsRoutes.upload_receipt. split.
  - intros Hbad. destruct content_type as [ct|]; [| reflexivity].
    rewrite (Hbad ct eq_refl), andb_false_r. reflexivity.
  - intros ct -> Hct. rewrite Hct, (prefix_not_empty ct Hct). cbn.
    eexists. split; [reflexivity |]. unfold get_receipt. cbn.
    split; [apply lookup_insert_eq |]. split; [| auto].
    intros k Hne. apply lookup_insert_ne. intros H. apply Hne. symmetry.
    exact H.
Qed.

Lemma upload_receipt_checks_type_witness :
  ReceiptsRoutes.upload_receipt (Some "text/plain") [x25; x50] 8
    store_one_session =
    (Raise (HTTPException HTTP_400_BAD_REQUEST), store_one_session) /\
  exists self',
    ReceiptsRoutes.upload_receipt (Some "image/png") [x25; x50] 8
      store_one_session =
    (Ok (UploadReceiptResponse.mk (_generate_id 8)
           ("/uploads/" ++ _generate_id 8 ++ ".jpg")%string), self') /\
    get_receipt (_generate_id 8 ++ "_image")%string self' =
      Some (ImageData [x25; x50]).
Proof.
  split.
  - apply (proj1 (upload_receipt_checks_type (Some "text/plain") [x25; x50] 8
                    store_one_session)).
    intros ct [= <-]. reflexivity.
  - destruct (proj2 (upload_receipt_checks_type (Some "image/png") [x25; x50]
                       8 store_one_session) "image/png" eq_refl eq_refl)
      as (self' & Hup & Hget & _).
    exists self'. auto.
Defined.

(** X21. Upload, then scan, then read. After an accepted upload the
    stored key ["<id>_image"] is not a parsed receipt: reading it answers
    404 for empty data and raises [AttributeError] otherwise. Scanning the
    returned id answers 404 when the uploaded file was empty; for a
    non-empty file it answers 500 and stores nothing when the parse fails,
    and when the parse succeeds it returns the receipt, stores the parse
    under the id, keeps the image, and a later read of the id returns the
    same receipt. The sessions and the code index are never touched. *)
Theorem upload_then_scan (ct : string) (image_data : list byte) (r : N)
    (answer : result receipt_data) (self : t) :
  String.prefix "image/" ct = true ->
  exists self1,
    ReceiptsRoutes.upload_receipt (Some ct) image_data r self =
      (Ok (UploadReceiptResponse.mk (_generate_id r)
             ("/uploads/" ++ _generate_id r ++ ".jpg")%string), self1) /\
    ReceiptsRoutes.get_receipt (_generate_id r ++ "_image")%string self1 =
      match image_data with
      | [] => Raise (HTTPException HTTP_404_NOT_FOUND)
      | _ :: _ => Raise AttributeError
      end /\
    (image_data = [] ->
     ReceiptsRoutes.scan_receipt (_generate_id r) answer self1 =
     (Raise (HTTPException HTTP_404_NOT_FOUND), self1)) /\
    (image_data <> [] ->
     (forall e,
        ReceiptsRoutes.parse_receipt answer = Raise e ->
        ReceiptsRoutes.scan_receipt (_generate_id r) answer self1 =
        (Raise (HTTPException HTTP_500_INTERNAL_SERVER_ERROR), self1)) /\
     (forall stored,
        ReceiptsRoutes.parse_receipt answer = Ok stored ->
        exists receipt self2,
          ReceiptsRoutes.scan_receipt (_generate_id r) answer self1 =
            (Ok receipt, self2) /\
          ReceiptsRoutes.get_receipt (_generate_id r) self2 = Ok receipt /\
          get_receipt (_generate_id r) self2 = Some (Parsed stored) /\
          get_receipt (_generate_id r ++ "_image")%string self2 =
            Some (ImageData image_data) /\
          sessions self2 = sessions self /\
          sessions_by_code self2 = sessions_by_code self)).
Proof.
  intros Hct. unfold ReceiptsRoutes.upload_receipt.
  rewrite Hct, (prefix_not_empty ct Hct). cbn [negb andb].
  eexists. split; [reflexivity |].
  unfold ReceiptsRoutes.get_receipt, ReceiptsRoutes.scan_receipt, get_receipt,
    store_receipt.
  cbn [receipts sessions sessions_by_code]. unfold _generate_id.
  rewrite !lookup_insert_eq.
  split; [destruct image_data; reflexivity |]. split.
  - intros ->. reflexivity.
  - intros Hne. destruct image_data as [|b bs]; [contradiction |]. split.
    + intros e ->. reflexivity.
    + intros stored ->. eexists. eexists. split; [reflexivity |].
      cbn [receipts sessions sessions_by_code].
      rewrite !lookup_insert_eq.
      rewrite lookup_insert_ne by (intros H; symmetry in H;
                                   exact (append_image_ne _ H)).
      rewrite lookup_insert_eq. auto.
Qed.

Lemma upload_then_scan_witness :
  exists self1 receipt self2,
    ReceiptsRoutes.upload_receipt (Some "image/jpeg") [xff; xd8; xff] 8
      store_one_session =
      (Ok (UploadReceiptResponse.mk (_generate_id 8)
             ("/uploads/" ++ _generate_id 8 ++ ".jpg")%string), self1) /\
    ReceiptsRoutes.scan_receipt (_generate_id 8) (Ok receipt_without_total)
      self1 = (Ok receipt, self2) /\
    ReceiptsRoutes.get_receipt (_generate_id 8) self2 = Ok receipt.
Proof.
  destruct (upload_then_scan "image/jpeg" [xff; xd8; xff] 8
              (Ok receipt_without_total) store_one_session eq_refl)
    as (self1 & Hup & _ & _ & Hscan).
  destruct (Hscan ltac:(discriminate)) as [_ Hok].
  destruct (ReceiptsRoutes.parse_receipt (Ok receipt_without_total))
    as [stored|e] eqn:Hparse; [| vm_compute in Hparse; discriminate].
  destruct (Hok stored eq_refl) as (receipt & self2 & Hs & Hg & _).
  exists self1, receipt, self2. auto.
Defined.

End UploadFacts.

(** ** What the validator checks and what it lets pass *)

Section ValidatorExtra.

Import ReceiptParser.





End ValidatorExtra.

(** ** Updating and deleting assignments *)

Section AssignmentFacts.

Import SessionManager Api.



(** X26. [delete_assignment] returns [False] and changes nothing when no
    session has an assignment with the id. Otherwise it returns [True] and
    removes the first such assignment of the first session that has one;
    that session keeps its other assignments in order, its items and
    participants, and gets [updatedAt]; no other session changes. *)
Theorem delete_assignment_removes_first (assignment_id : string)
    (now : datetime) (self : t) :
  ((forall k s a,
      In (k, s) (sessions self) -> In a (Session.assignments s) ->
      ItemAssignment.id a <> assignment_id) ->
   delete_assignment assignment_id now self = (false, self)) /\
  (forall k0 s0 a0,
     In (k0, s0) (sessions self) -> In a0 (Session.assignments s0) ->
     ItemAssignment.id a0 = assignment_id ->
     exists d1 k s d2 l1 a l2,
       sessions self = d1 ++ (k, s) :: d2 /\
       Session.assignments s = l1 ++ a :: l2 /\
       ItemAssignment.id a = assignment_id /\
       (forall k' s' a',
          In (k', s') d1 -> In a' (Session.assignments s') ->
          ItemAssignment.id a' <> assignment_id) /\
       (forall a', In a' l1 -> ItemAssignment.id a' <> assignment_id) /\
       delete_assignment assignment_id now self =
       (true,
        with_sessions
          (d1 ++
           (k, SessionAttr.set_updatedAt now
                 (SessionAttr.set_assignments (l1 ++ l2) s)) :: d2)
          self)).
Proof.
  unfold delete_assignment.
  match goal with
  | |- context [alter_in_values ?g ?d] =>
      destruct (alter_in_values g d) as [[r0 d']|] eqn:Ha
  end.
  - destruct (alter_in_values_split _ _ _ _ Ha)
      as (d1 & k & s & s' & d2 & Hd & -> & Hg & Hn).
    destruct (remove_first _ (Session.assignments s)) as [ys|] eqn:Hf;
      [| discriminate].
    injection Hg as _ <-.
    destruct (remove_first_split _ _ _ Hf)
      as (l1 & a & l2 & Has & -> & _ & Hp & Hl1).
    apply String.eqb_eq in Hp. split.
    + intros Hnone. exfalso. apply (Hnone k s a); [| | exact Hp].
      * rewrite Hd. apply in_or_app. right. left. reflexivity.
      * rewrite Has. apply in_or_app. right. left. reflexivity.
    + intros _ _ _ _ _ _. exists d1, k, s, d2, l1, a, l2.
      split; [exact Hd |]. split; [exact Has |]. split; [exact Hp |].
      split; [| split; [| reflexivity]].
      * intros k' s' a' Hin Hin'. pose proof (Hn k' s' Hin) as H0.
        destruct (remove_first _ (Session.assignments s')) eqn:E0;
          [discriminate |].
        apply remove_first_None in E0. rewrite find_none_iff in E0.
        apply String.eqb_neq. apply E0. exact Hin'.
      * intros a' Hin'. rewrite find_none_iff in Hl1.
        apply String.eqb_neq. apply Hl1. exact Hin'.
  - split; [reflexivity |].
    intros k0 s0 a0 Hin Hin0 Hid. exfalso.
    rewrite alter_in_values_None in Ha. pose proof (Ha k0 s0 Hin) as H0.
    destruct (remove_first _ (Session.assignments s0)) eqn:E0;
      [discriminate |].
    apply remove_first_None in E0. rewrite find_none_iff in E0.
    specialize (E0 a0 Hin0). apply String.eqb_neq in E0. contradiction.
Qed.

Lemma delete_assignment_removes_first_witness :
  delete_assignment "no-such-assignment" 36 store_one_assignment =
  (false, store_one_assignment) /\
  exists self',
    delete_assignment assignment1_id 36 store_one_assignment = (true, self').
Proof.
  split.
  - apply (proj1 (delete_assignment_removes_first "no-such-assignment" 36
                    store_one_assignment)).
    intros k s a Hin Ha. vm_compute in Hin.
    destruct Hin as [[= <- <-] | []].
    destruct Ha as [<- | []]. discriminate.
  - destruct (get_session session1_id store_one_assignment) as [s0|] eqn:Hs;
      [| vm_compute in Hs; discriminate].
    destruct (proj2 (delete_assignment_removes_first assignment1_id 36
                       store_one_assignment)
                session1_id s0
                (ItemAssignment.mk item1_id "nobody" 1 20 assignment1_id))
      as (d1 & k & s & d2 & l1 & a & l2 & _ & _ & _ & _ & _ & Hdel).
    + apply dict_get_In. exact Hs.
    + vm_compute in Hs. injection Hs as <-. left. reflexivity.
    + reflexivity.
    + eexists. exact Hdel.
Defined.

End AssignmentFacts.
